(** * image_processor: the batch image pipeline of [app/routes.py]

    A shallow embedding of the FastAPI handlers [upload_csv], [get_status],
    [download_output_csv] and of the background task [process_images],
    together with the two SQLAlchemy models of [app/models.py].

    - Python [str] values are Rocq strings, one [ascii] per code point, so
      the model covers the strings whose code points are below 256;
      character classes follow Python's tables on that range, where
      [str.lower] works code point by code point and keeps the length.
      Text with a code point from 256 on, where [str.lower] can lengthen
      the text or depend on the position, is outside the model.
    - The database is the pair of committed tables, each a list of rows in
      insertion order; a row is identified by its position. What a handler
      has staged with [db.add] lives in its session until [db.commit]
      writes it; [db.rollback] and [db.close] drop it. The commit expires
      the objects of the session: the first attribute read on one of
      them afterwards is a round trip that loads its row again.
    - The handlers are written in a state and exception monad over the
      [World]: the committed tables, the session of the handler that is
      running (every handler opens its own), the files, the trace of the
      effects so far, and the scheduled background tasks.
    - Everything outside the process (HTTP peers, the imaging library, the
      clock, the UUID generator, database faults) is an oracle in [Env],
      asked with the trace at the moment of the call, so that two calls
      never have to agree. [time.sleep] is an event of the trace.
    - [upload_csv] takes the records [csv.reader] yields for the decoded
      upload; writing a file is taken to succeed. *)

From Stdlib Require Import ZArith Ascii.
From stdpp Require Import base option list gmap strings.

Local Open Scope Z_scope.

(* ===================================================================== *)
(** ** Characters and strings, as Python sees them *)
(* ===================================================================== *)

Module Py.

Definition ord (c : ascii) : Z := Z.of_nat (nat_of_ascii c).
Definition chr (z : Z) : ascii := ascii_of_nat (Z.to_nat z).

Definition between (lo hi : Z) (c : ascii) : bool :=
  (lo <=? ord c) && (ord c <=? hi).

(** [str.isspace] on one code point: the ASCII white space table and, past
    it, NEL and the no-break space. *)
Definition isspace (c : ascii) : bool :=
  between 9 13 c || between 28 32 c || (ord c =? 133) || (ord c =? 160).

(** [str.isalnum] on one code point (alphabetic, decimal, digit or
    numeric). *)
Definition isalnum (c : ascii) : bool :=
  between 48 57 c || between 65 90 c || between 97 122 c
  || (ord c =? 170) || between 178 179 c || (ord c =? 181)
  || between 185 186 c || between 188 190 c
  || between 192 214 c || between 216 246 c || between 248 255 c.

(** The class [\w] of [re] on a [str] pattern: alphanumeric or the
    underscore; [\W] is its complement. *)
Definition is_word (c : ascii) : bool := isalnum c || (ord c =? 95).

(** [str.lower] on one code point below 256: the upper-case letters of
    that range have their lower-case form in it, one code point each. *)
Definition lower_char (c : ascii) : ascii :=
  if between 65 90 c || between 192 214 c || between 216 222 c
  then chr (ord c + 32) else c.

Fixpoint lower (s : string) : string :=
  match s with
  | EmptyString => EmptyString
  | String c s' => String (lower_char c) (lower s')
  end.

(** [re.sub(r'\W+', '', text)]: every maximal run of non-word characters
    is replaced by the empty string, which leaves the word characters. *)
Fixpoint sub_nonword (s : string) : string :=
  match s with
  | EmptyString => EmptyString
  | String c s' => if is_word c then String c (sub_nonword s') else sub_nonword s'
  end.

Fixpoint lstrip (s : string) : string :=
  match s with
  | EmptyString => EmptyString
  | String c s' => if isspace c then lstrip s' else s
  end.

Fixpoint rstrip (s : string) : string :=
  match s with
  | EmptyString => EmptyString
  | String c s' =>
      match rstrip s' with
      | EmptyString => if isspace c then EmptyString else String c EmptyString
      | r => String c r
      end
  end.

(** [s.strip()] *)
Definition strip (s : string) : string := rstrip (lstrip s).

(** [s.split(sep)] for a one-character separator: never the empty list. *)
Fixpoint split (sep : ascii) (s : string) : list string :=
  match s with
  | EmptyString => [EmptyString]
  | String c s' =>
      if decide (c = sep) then EmptyString :: split sep s'
      else match split sep s' with
           | [] => [String c EmptyString]
           | x :: xs => String c x :: xs
           end
  end.

(** [sep.join(l)] *)
Fixpoint join (sep : string) (l : list string) : string :=
  match l with
  | [] => EmptyString
  | [x] => x
  | x :: xs => x +:+ sep +:+ join sep xs
  end.

(** Truthiness of a [str]: [not url], [if callback_url]. *)
Definition truthy (s : string) : bool :=
  match s with EmptyString => false | _ => true end.

Definition startswith_char (c : ascii) (s : string) : bool :=
  match s with String d _ => if decide (d = c) then true else false | _ => false end.

Fixpoint endswith_char (c : ascii) (s : string) : bool :=
  match s with
  | EmptyString => false
  | String d EmptyString => if decide (d = c) then true else false
  | String _ s' => endswith_char c s'
  end.

(** [os.path.join(a, b)] on POSIX, two components. *)
Definition os_path_join (a b : string) : string :=
  if startswith_char "/" b then b
  else if negb (truthy a) || endswith_char "/" a then a +:+ b
  else a +:+ "/" +:+ b.

End Py.

(* ===================================================================== *)
(** ** The models of [app/models.py] *)
(* ===================================================================== *)

(** The integer primary key [id] of both tables is the position of the row
    in its table: rows are only ever appended, never deleted. *)

Module ProcessingRequest.
Record t := mk {
  request_id : string;
  status : string;
  created_at : option Z;      (* server default [now()], filled on INSERT *)
  completed_at : option Z;    (* nullable *)
  callback_url : option string (* nullable *)
}.

Definition set_status (v : string) (r : t) : t :=
  mk (request_id r) v (created_at r) (completed_at r) (callback_url r).
Definition set_created_at (v : option Z) (r : t) : t :=
  mk (request_id r) (status r) v (completed_at r) (callback_url r).
Definition set_completed_at (v : option Z) (r : t) : t :=
  mk (request_id r) (status r) (created_at r) v (callback_url r).
End ProcessingRequest.

Module Product.
Record t := mk {
  request_id : string;
  serial_number : string;
  product_name : string;
  input_image_urls : string;
  output_image_urls : option string;  (* nullable *)
  status : string
}.

Definition set_output_image_urls (v : option string) (p : t) : t :=
  mk (request_id p) (serial_number p) (product_name p) (input_image_urls p) v (status p).
Definition set_status (v : string) (p : t) : t :=
  mk (request_id p) (serial_number p) (product_name p) (input_image_urls p)
     (output_image_urls p) v.
End Product.

(** The committed contents of the two tables, in insertion order. *)
Record Database := mkDatabase {
  processing_requests : list ProcessingRequest.t;
  products : list Product.t
}.

(** A SQLAlchemy session: what [db.add] has staged and [db.commit] has not
    yet written. A persistent object carries the position of its row. *)
Record Session := mkSession {
  new_requests : list ProcessingRequest.t;
  new_products : list Product.t;
  dirty_requests : list (nat * ProcessingRequest.t);
  dirty_products : list (nat * Product.t)
}.

Definition SessionLocal : Session := mkSession [] [] [] [].

(* ===================================================================== *)
(** ** Effects: events, files, oracles, the world *)
(* ===================================================================== *)

Inductive LogLine :=
| FailedToDownload (url : string) (status_code : Z)
| ErrorDownloadingOrProcessing (url : string) (e : string)
| WebhookCallFailed (status_code : Z)
| ErrorCallingWebhook (request_id : string) (e : string)
| ErrorProcessingImages (request_id : string) (e : string).

Inductive Event :=
| Print (line : LogLine)
| RequestsGet (url : string) (timeout : Z)
| RequestsPost (url : string) (json : list (string * string)) (timeout : Z)
| Uuid4
| Utcnow
| Sleep (milliseconds : Z)
| DbQuery
| DbCommit
| OpenForWriting (path : string)   (* [open(path, "w")] of the artifact writer *)
| ImageSave (path : string).

Inductive File :=
| CsvText (text : string)
| Jpeg (source : string) (mode : string) (quality : Z).

Inductive Outcome (A : Type) :=
| Returns (a : A)
| Raises (e : string).
Arguments Returns {A} a.
Arguments Raises {A} e.

Record Response := mkResponse {
  status_code : Z;
  content : Outcome string     (* the body, read on first access *)
}.

Record Env := mkEnv {
  env_requests_get : list Event → string → Outcome Response;
  env_image_open : list Event → string → Outcome unit;     (* by body *)
  env_image_convert : list Event → string → Outcome unit;  (* by body *)
  env_image_save : list Event → string → Outcome unit;     (* by path *)
  env_uuid4 : list Event → string;
  env_utcnow : list Event → Z;
  env_requests_post : list Event → string → Outcome Z;
  env_db_fault : list Event → option string;  (* the round trip raises *)
  env_db_now : list Event → Z
}.

Record World := mkWorld {
  db : Database;
  session : Session;
  files : gmap string File;
  trace : list Event;
  background_tasks : list string
}.

Definition with_db (d : Database) (w : World) : World :=
  mkWorld d (session w) (files w) (trace w) (background_tasks w).
Definition with_session (s : Session) (w : World) : World :=
  mkWorld (db w) s (files w) (trace w) (background_tasks w).
Definition with_files (f : gmap string File) (w : World) : World :=
  mkWorld (db w) (session w) f (trace w) (background_tasks w).
Definition with_trace (t : list Event) (w : World) : World :=
  mkWorld (db w) (session w) (files w) t (background_tasks w).
Definition with_background_tasks (q : list string) (w : World) : World :=
  mkWorld (db w) (session w) (files w) (trace w) q.

(* ===================================================================== *)
(** ** A state and exception monad for the handlers *)
(* ===================================================================== *)

Inductive Exn :=
| HTTPException (status_code : Z) (detail : string)
| Error (msg : string).

Definition exn_str (e : Exn) : string :=
  match e with HTTPException _ d => d | Error m => m end.

Inductive Result (A : Type) :=
| Ok (a : A)
| Raise (e : Exn).
Arguments Ok {A} a.
Arguments Raise {A} e.

Definition M (A : Type) : Type := World → Result A * World.

Definition ret {A} (a : A) : M A := λ w, (Ok a, w).
Definition raise {A} (e : Exn) : M A := λ w, (Raise e, w).
Definition bind {A B} (m : M A) (k : A → M B) : M B :=
  λ w, match m w with
       | (Ok a, w') => k a w'
       | (Raise e, w') => (Raise e, w')
       end.

Notation "'do' x <- m ; k" := (bind m (λ x, k))
  (at level 10, x pattern, m at level 99, k at level 200,
   format "'[v' 'do'  x  <-  m ; '/' k ']'").

(** [try: body except Exception as e: handler e] *)
Definition try_except {A} (body : M A) (handler : Exn → M A) : M A :=
  λ w, match body w with
       | (Ok a, w') => (Ok a, w')
       | (Raise e, w') => handler e w'
       end.

(** [try: body finally: cleanup] *)
Definition try_finally {A} (body : M A) (cleanup : M unit) : M A :=
  λ w, match body w with
       | (r, w') =>
           match cleanup w' with
           | (Ok _, w'') => (r, w'')
           | (Raise e, w'') => (Raise e, w'')
           end
       end.

Definition get_world : M World := λ w, (Ok w, w).
Definition modify (f : World → World) : M unit := λ w, (Ok tt, f w).
Definition emit (e : Event) : M unit := modify (λ w, with_trace (trace w ++ [e]) w).
Definition print (l : LogLine) : M unit := emit (Print l).
Definition of_outcome {A} (o : Outcome A) : M A :=
  match o with Returns a => ret a | Raises e => raise (Error e) end.

Fixpoint for_each {A} (l : list A) (body : A → M unit) : M unit :=
  match l with
  | [] => ret tt
  | x :: l' => do _ <- body x; for_each l' body
  end.

(* ===================================================================== *)
(** ** The session: queries, [add], [commit], [rollback], [close] *)
(* ===================================================================== *)

(** One round trip to the database server; it raises when the oracle says
    so. *)
Definition db_round_trip (env : Env) (ev : Event) : M unit :=
  λ w, let w' := with_trace (trace w ++ [ev]) w in
       match env_db_fault env (trace w) with
       | Some e => (Raise (Error e), w')
       | None => (Ok tt, w')
       end.

Definition rows_of {A} (tbl : list A) : list (nat * A) := imap pair tbl.

(** What the two queries read from the committed tables. *)
Definition products_of (request_id : string) (d : Database) : list (nat * Product.t) :=
  filter (λ ip, Product.request_id ip.2 = request_id) (rows_of (products d)).
Definition request_of (request_id : string) (d : Database)
  : option (nat * ProcessingRequest.t) :=
  head (filter (λ ir, ProcessingRequest.request_id ir.2 = request_id)
               (rows_of (processing_requests d))).
Global Arguments products_of : simpl never.
Global Arguments request_of : simpl never.

(** [db.query(Product).filter(Product.request_id == request_id).all()] *)
Definition query_products (env : Env) (request_id : string)
  : M (list (nat * Product.t)) :=
  do _ <- db_round_trip env DbQuery;
  do w <- get_world;
  ret (products_of request_id (db w)).

(** [db.query(ProcessingRequest).filter(...).first()] *)
Definition query_request_first (env : Env) (request_id : string)
  : M (option (nat * ProcessingRequest.t)) :=
  do _ <- db_round_trip env DbQuery;
  do w <- get_world;
  ret (request_of request_id (db w)).

Definition modify_session (f : Session → Session) : M unit :=
  modify (λ w, with_session (f (session w)) w).

(** [db.add(obj)] for a transient object *)
Definition db_add_new_request (r : ProcessingRequest.t) : M unit :=
  modify_session (λ s, mkSession (new_requests s ++ [r]) (new_products s)
                                 (dirty_requests s) (dirty_products s)).
Definition db_add_new_product (p : Product.t) : M unit :=
  modify_session (λ s, mkSession (new_requests s) (new_products s ++ [p])
                                 (dirty_requests s) (dirty_products s)).
(** [db.add(obj)] for an object loaded by a query and mutated since *)
Definition db_add_request (ir : nat * ProcessingRequest.t) : M unit :=
  modify_session (λ s, mkSession (new_requests s) (new_products s)
                                 (dirty_requests s ++ [ir]) (dirty_products s)).
Definition db_add_product (ip : nat * Product.t) : M unit :=
  modify_session (λ s, mkSession (new_requests s) (new_products s)
                                 (dirty_requests s) (dirty_products s ++ [ip])).

(** UPDATE by primary key, in the order the objects were added. *)
Definition apply_updates {A} (upd : list (nat * A)) (tbl : list A) : list A :=
  foldl (λ t ix, <[ix.1 := ix.2]> t) tbl upd.

(** The rows the flush writes: updates in place, inserts at the end, with
    the server default of [created_at]. *)
Definition flush (now : Z) (s : Session) (d : Database) : Database :=
  mkDatabase
    (apply_updates (dirty_requests s) (processing_requests d)
       ++ map (ProcessingRequest.set_created_at (Some now)) (new_requests s))
    (apply_updates (dirty_products s) (products d) ++ new_products s).

(** What the server checks on INSERT: [request_id] is [unique=True] on
    [processing_requests] and a foreign key on [products]. *)
Definition unique_request_ids (s : Session) (d : Database) : bool :=
  bool_decide (NoDup (map ProcessingRequest.request_id (new_requests s)))
  && forallb (λ r, bool_decide
                     (ProcessingRequest.request_id r ∉
                        map ProcessingRequest.request_id (processing_requests d)))
             (new_requests s).
Definition foreign_keys_hold (s : Session) (d : Database) : bool :=
  forallb (λ p, bool_decide
                  (Product.request_id p ∈
                     map ProcessingRequest.request_id
                         (processing_requests d ++ new_requests s)))
          (new_products s).

(** [db.commit()] *)
Definition db_commit (env : Env) : M unit :=
  do w0 <- get_world;
  do _ <- db_round_trip env DbCommit;
  do w <- get_world;
  if unique_request_ids (session w) (db w) && foreign_keys_hold (session w) (db w)
  then modify (λ w, with_session SessionLocal
                      (with_db (flush (env_db_now env (trace w0)) (session w) (db w)) w))
  else raise (Error "IntegrityError").

(** [db.rollback()] and [db.close()]: what was staged is dropped. *)
Definition db_rollback : M unit := modify (with_session SessionLocal).
Definition db_close : M unit := modify (with_session SessionLocal).

(** [get_db]: a fresh session for the request, closed when it ends. *)
Definition with_get_db {A} (handler : M A) : M A :=
  do _ <- modify (with_session SessionLocal);
  try_finally handler db_close.

(* ===================================================================== *)
(** ** [routes.py] *)
(* ===================================================================== *)

Definition OUTPUT_DIR : string := "output".
Definition PROCESSED_DIR : string := "processed_images".

(** [normalize]: [re.sub(r'\W+', '', text).lower()] *)
Definition normalize (text : string) : string := Py.lower (Py.sub_nonword text).

(** *** The output CSV *)

Definition dquote : ascii := "034"%char.
Definition CRLF : string := String "013"%char (String "010"%char EmptyString).

(** [csv.writer] with the default dialect quotes a field that holds the
    delimiter, the quote character or a character of the line terminator,
    and doubles the quote characters inside it. *)
Fixpoint csv_needs_quotes (s : string) : bool :=
  match s with
  | EmptyString => false
  | String c s' =>
      bool_decide (c = ","%char ∨ c = dquote ∨ c = "013"%char ∨ c = "010"%char)
      || csv_needs_quotes s'
  end.

Fixpoint csv_double_quotes (s : string) : string :=
  match s with
  | EmptyString => EmptyString
  | String c s' =>
      if decide (c = dquote) then String dquote (String dquote (csv_double_quotes s'))
      else String c (csv_double_quotes s')
  end.

Definition csv_field (s : string) : string :=
  if csv_needs_quotes s
  then String dquote (csv_double_quotes s +:+ String dquote EmptyString)
  else s.

(** [writer.writerow(fields)]: the text appended to the file. A record of a
    single empty field is written quoted. *)
Definition csv_writerow (fields : list string) : string :=
  match fields with
  | [EmptyString] => String dquote (String dquote CRLF)
  | _ => Py.join "," (map csv_field fields) +:+ CRLF
  end.

Definition output_header : list string :=
  ["S. No"; "Product Name"; "Input Image Urls"; "Output Image Urls"].

(** The record written for one product; [x or ""] on the nullable column. *)
Definition output_record (product : Product.t) : list string :=
  [ Product.serial_number product;
    Product.product_name product;
    Product.input_image_urls product;
    default EmptyString (Product.output_image_urls product) ].

Fixpoint concat_strings (l : list string) : string :=
  match l with
  | [] => EmptyString
  | x :: l' => x +:+ concat_strings l'
  end.

Definition output_path (request_id : string) : string :=
  Py.os_path_join OUTPUT_DIR (request_id +:+ "_output.csv").

(** [open(path, "w")], the [writerow] calls, and the close of the [with]
    block. *)
Definition write_csv (path : string) (records : list (list string)) : M unit :=
  do _ <- emit (OpenForWriting path);
  modify (λ w, with_files
                 (<[path := CsvText (concat_strings (map csv_writerow records))]> (files w)) w).

Definition generate_output_csv (env : Env) (request_id : string) : M string :=
  do products <- query_products env request_id;
  let output_file := output_path request_id in
  do _ <- write_csv output_file (output_header :: map (λ ip, output_record ip.2) products);
  ret output_file.

(** *** The background task *)

(** A decoded image: the bytes it came from and its colour mode once it has
    been converted. *)
Record Image := mkImage { im_source : string; im_mode : option string }.

Section Handlers.

Variable env : Env.

(** [requests.get(url, stream=True, timeout=...)] *)
Definition requests_get (url : string) (timeout : Z) : M Response :=
  do w <- get_world;
  do _ <- emit (RequestsGet url timeout);
  of_outcome (env_requests_get env (trace w) url).

(** [requests.post(url, json=payload, timeout=...)]; the value is the
    status code of the response. *)
Definition requests_post (url : string) (json : list (string * string))
           (timeout : Z) : M Z :=
  do w <- get_world;
  do _ <- emit (RequestsPost url json timeout);
  of_outcome (env_requests_post env (trace w) url).

(** [str(uuid.uuid4())] *)
Definition uuid4 : M string :=
  do w <- get_world;
  do _ <- emit Uuid4;
  ret (env_uuid4 env (trace w)).

(** [datetime.utcnow()] *)
Definition utcnow : M Z :=
  do w <- get_world;
  do _ <- emit Utcnow;
  ret (env_utcnow env (trace w)).

(** [Image.open(BytesIO(content))] *)
Definition Image_open (body : string) : M Image :=
  do w <- get_world;
  do _ <- of_outcome (env_image_open env (trace w) body);
  ret (mkImage body None).

(** [img.convert(mode)] *)
Definition Image_convert (img : Image) (mode : string) : M Image :=
  do w <- get_world;
  do _ <- of_outcome (env_image_convert env (trace w) (im_source img));
  ret (mkImage (im_source img) (Some mode)).

(** [img.save(path, format="JPEG", quality=q)] *)
Definition Image_save_jpeg (img : Image) (path : string) (quality : Z) : M unit :=
  do w <- get_world;
  do _ <- emit (ImageSave path);
  do _ <- of_outcome (env_image_save env (trace w) path);
  modify (λ w, with_files
                 (<[path := Jpeg (im_source img) (default EmptyString (im_mode img))
                                 quality]> (files w)) w).

(** Lines 82 to 94: the body of the inner [try]; the value is [new_urls]
    after it. *)
Definition download (url : string) (new_urls : list string) : M (list string) :=
  do response <- requests_get url 10;
  if status_code response =? 200 then
    do body <- of_outcome (content response);
    do img <- Image_open body;
    do u <- uuid4;
    let new_filename := u +:+ ".jpg" in
    let new_path := Py.os_path_join PROCESSED_DIR new_filename in
    do rgb <- Image_convert img "RGB";
    do _ <- Image_save_jpeg rgb new_path 50;
    let local_url := "/processed_images/" +:+ new_filename in
    ret (new_urls ++ [local_url])
  else
    do _ <- print (FailedToDownload url (status_code response));
    ret new_urls.

(** Lines 81 to 96: the [try] with its [except Exception]. *)
Definition try_download (url : string) (new_urls : list string) : M (list string) :=
  try_except (download url new_urls)
    (λ e, do _ <- print (ErrorDownloadingOrProcessing url (exn_str e));
          ret new_urls).

(** Lines 77 to 96: [for url in input_urls]. *)
Fixpoint fetch_all (input_urls : list string) (new_urls : list string)
  : M (list string) :=
  match input_urls with
  | [] => ret new_urls
  | url :: rest =>
      let url := Py.strip url in
      if negb (Py.truthy url) then fetch_all rest new_urls
      else do new_urls <- try_download url new_urls;
           fetch_all rest new_urls
  end.

(** Lines 75 to 102: the body of [for product in products]. *)
Definition process_product (ip : nat * Product.t) : M unit :=
  let product := ip.2 in
  let input_urls := Py.split "," (Product.input_image_urls product) in
  do new_urls <- fetch_all input_urls [];
  let product := Product.set_output_image_urls (Some (Py.join "," new_urls)) product in
  let product := Product.set_status "processed" product in
  do _ <- db_add_product (ip.1, product);
  emit (Sleep 500).

(** An attribute read on an object that a commit has expired: the session
    of [database.py] leaves [expire_on_commit] at its default, so the first
    attribute read after [db.commit()] loads the row again, by its primary
    key, in a round trip of its own. *)
Definition db_refresh_request (i : nat) : M ProcessingRequest.t :=
  do _ <- db_round_trip env DbQuery;
  do w <- get_world;
  match processing_requests (db w) !! i with
  | Some r => ret r
  | None => raise (Error "ObjectDeletedError")
  end.

(** Lines 113 to 123: the webhook. The test of line 113 reads
    [processing_request.callback_url] after the commit, outside the inner
    [try]: the object, when there is one, is loaded again first. *)
Definition trigger_webhook (request_id : string)
           (processing_request : option (nat * ProcessingRequest.t)) : M unit :=
  match processing_request with
  | Some (i, _) =>
      do r <- db_refresh_request i;
      match ProcessingRequest.callback_url r with
      | Some callback_url =>
          if Py.truthy callback_url then
            try_except
              (let payload := [("request_id", request_id); ("status", "completed")] in
               do resp <- requests_post callback_url payload 5;
               if (resp <? 200) || (300 <=? resp)
               then print (WebhookCallFailed resp)
               else ret tt)
              (λ e, print (ErrorCallingWebhook request_id (exn_str e)))
          else ret tt
      | None => ret tt
      end
  | None => ret tt
  end.

(** Lines 104 to 109: the request is marked completed and added back. *)
Definition complete_request (found : option (nat * ProcessingRequest.t))
  : M (option (nat * ProcessingRequest.t)) :=
  match found with
  | Some (i, processing_request) =>
      let processing_request :=
        ProcessingRequest.set_status "completed" processing_request in
      do now <- utcnow;
      let processing_request :=
        ProcessingRequest.set_completed_at (Some now) processing_request in
      do _ <- db_add_request (i, processing_request);
      ret (Some (i, processing_request))
  | None => ret None
  end.

(** Lines 73 to 123: the body of the outer [try]. *)
Definition process_images_body (request_id : string) : M unit :=
  do products <- query_products env request_id;
  do _ <- for_each products process_product;
  do found <- query_request_first env request_id;
  do processing_request <- complete_request found;
  do _ <- db_commit env;
  trigger_webhook request_id processing_request.

Definition process_images (request_id : string) : M unit :=
  do _ <- modify (with_session SessionLocal);
  try_finally
    (try_except (process_images_body request_id)
       (λ e, do _ <- db_rollback;
             print (ErrorProcessingImages request_id (exn_str e))))
    db_close.

(** *** [POST /upload] *)

Record UploadResponse := mkUploadResponse {
  up_request_id : string;
  up_message : string
}.

Definition expected_header : list string := ["sno"; "productname"; "inputimageurls"].

(** Lines 166 to 177: the body of [for row in csv_reader]. *)
Definition add_row (request_id : string) (row : list string) : M unit :=
  match row with
  | [serial_number; product_name; input_image_urls] =>
      let product :=
        Product.mk request_id (Py.strip serial_number) (Py.strip product_name)
                   (Py.strip input_image_urls) None "pending" in
      db_add_new_product product
  | _ => raise (HTTPException 400 "CSV row does not have exactly 3 columns.")
  end.

Definition add_task (request_id : string) : M unit :=
  modify (λ w, with_background_tasks (background_tasks w ++ [request_id]) w).

(** [csv_reader] is what [csv.reader] yields for the decoded upload: one
    list of fields per record. *)
Definition upload_csv_body (content_type : string) (csv_reader : list (list string))
           (webhook_url : option string) : M UploadResponse :=
  if decide (content_type ≠ "text/csv") then
    raise (HTTPException 400 "Invalid file type. Only CSV files are accepted.")
  else
    match csv_reader with
    | [] => raise (HTTPException 400 "CSV file is empty.")
    | header :: rows =>
        let csv_header := map normalize header in
        if decide (csv_header ≠ expected_header) then
          raise (HTTPException 400
            "Invalid CSV header format. Expected header: S. No, Product Name, Input Image Urls")
        else
          do request_id <- uuid4;
          let new_request :=
            ProcessingRequest.mk request_id "pending" None None webhook_url in
          do _ <- db_add_new_request new_request;
          do _ <- for_each rows (add_row request_id);
          do _ <- try_except (db_commit env)
                    (λ e, do _ <- db_rollback;
                          raise (HTTPException 500
                                   "Error saving request and product data."));
          do _ <- add_task request_id;
          ret (mkUploadResponse request_id
                 "CSV file uploaded and processing started.")
    end.

Definition upload_csv (content_type : string) (csv_reader : list (list string))
           (webhook_url : option string) : M UploadResponse :=
  with_get_db (upload_csv_body content_type csv_reader webhook_url).

(** *** [GET /status/{request_id}] *)

Record ProductData := mkProductData {
  pd_serial_number : string;
  pd_product_name : string;
  pd_input_image_urls : string;
  pd_output_image_urls : option string;
  pd_status : string
}.

(** The time stamps stand for their [str] renderings. *)
Record StatusResponse := mkStatusResponse {
  sr_request_id : string;
  sr_status : string;
  sr_created_at : option Z;
  sr_completed_at : option Z;
  sr_callback_url : option string;
  sr_products : list ProductData;
  sr_output_csv_link : option string
}.

Definition product_data (product : Product.t) : ProductData :=
  mkProductData (Product.serial_number product) (Product.product_name product)
                (Product.input_image_urls product)
                (Product.output_image_urls product) (Product.status product).

(** [os.path.exists(path)] *)
Definition os_path_exists (path : string) : M bool :=
  do w <- get_world;
  ret (bool_decide (is_Some (files w !! path))).

Definition get_status_body (request_id : string) : M StatusResponse :=
  do found <- query_request_first env request_id;
  match found with
  | None => raise (HTTPException 404 "Request not found")
  | Some (_, processing_request) =>
      do products <- query_products env request_id;
      let products_data := map (λ ip, product_data ip.2) products in
      let response link :=
        mkStatusResponse
          (ProcessingRequest.request_id processing_request)
          (ProcessingRequest.status processing_request)
          (ProcessingRequest.created_at processing_request)
          (ProcessingRequest.completed_at processing_request)
          (ProcessingRequest.callback_url processing_request)
          products_data link in
      if decide (ProcessingRequest.status processing_request = "completed") then
        let output_file := output_path request_id in
        do present <- os_path_exists output_file;
        do _ <- (if negb present
                 then do _ <- generate_output_csv env request_id; ret tt
                 else ret tt);
        ret (response (Some ("/download/" +:+ request_id)))
      else ret (response None)
  end.

Definition get_status (request_id : string) : M StatusResponse :=
  with_get_db (get_status_body request_id).

(** *** [GET /download/{request_id}]: the path handed to [FileResponse] *)
Definition download_output_csv (request_id : string) : M string :=
  let output_file := output_path request_id in
  do present <- os_path_exists output_file;
  if negb present then raise (HTTPException 404 "Output CSV not found.")
  else ret output_file.

End Handlers.

(** The status line FastAPI answers with: an [HTTPException] carries its
    own, any other exception is a 500. *)
Definition http_status {A} (r : Result A) : Z :=
  match r with
  | Ok _ => 200
  | Raise (HTTPException c _) => c
  | Raise (Error _) => 500
  end.

(* ===================================================================== *)
(** ** The system as a transition system *)
(* ===================================================================== *)

Definition initial : World :=
  mkWorld (mkDatabase [] []) SessionLocal ∅ [] [].

(** One step is one whole run of a handler or of the background task, in
    any environment. The task may run for any request id at any time, which
    covers the runs FastAPI schedules after an upload. *)
Inductive step : World → World → Prop :=
| step_upload env content_type csv_reader webhook_url w :
    step w (upload_csv env content_type csv_reader webhook_url w).2
| step_process_images env request_id w :
    step w (process_images env request_id w).2
| step_get_status env request_id w :
    step w (get_status env request_id w).2
| step_download request_id w :
    step w (download_output_csv request_id w).2.

Inductive reachable : World → Prop :=
| reachable_initial : reachable initial
| reachable_step w w' : reachable w → step w w' → reachable w'.

(* ===================================================================== *)
(** ** Reading the trace *)
(* ===================================================================== *)

Definition get_url (e : Event) : option string :=
  match e with RequestsGet url _ => Some url | _ => None end.
Definition is_post (e : Event) : bool :=
  match e with RequestsPost _ _ _ => true | _ => false end.
Definition is_print (e : Event) : bool :=
  match e with Print _ => true | _ => false end.
Definition opens (path : string) (e : Event) : bool :=
  match e with OpenForWriting p => bool_decide (p = path) | _ => false end.
Definition is_open (e : Event) : bool :=
  match e with OpenForWriting _ => true | _ => false end.
Definition is_db (e : Event) : bool :=
  match e with DbQuery | DbCommit => true | _ => false end.

(** The URLs of the GET requests of a trace, in order. *)
Definition gets (tr : list Event) : list string := omap get_url tr.
(** The POST requests of a trace. *)
Definition posts (tr : list Event) : list Event := List.filter is_post tr.
(** The lines printed. *)
Definition printed (tr : list Event) : list Event := List.filter is_print tr.
(** How often [path] was opened for writing. *)
Definition times_written (path : string) (tr : list Event) : nat :=
  length (List.filter (opens path) tr).

(** [w'] comes after [w] by the events [delta]. *)
Definition extends_by (w w' : World) (delta : list Event) : Prop :=
  trace w' = trace w ++ delta.

(** The events of fetching: no database traffic, no file opened for
    writing, no POST. *)
Definition fetch_event (e : Event) : bool :=
  match e with
  | Print _ | RequestsGet _ _ | Uuid4 | ImageSave _ | Sleep _ => true
  | _ => false
  end.

(** Files are only ever added or overwritten. *)
Definition files_kept (w w' : World) : Prop :=
  ∀ path, is_Some (files w !! path) → is_Some (files w' !! path).

(* ===================================================================== *)
(** ** The fetcher and the row processor, as section 4 describes them *)
(* ===================================================================== *)

(** One URL in, a reference or nothing out. *)
Definition fetcher (env : Env) (url : string) (w : World) : option string * World :=
  match try_download env url [] w with
  | (Ok l, w') => (last l, w')
  | (Raise _, w') => (None, w')
  end.

(** The entries of a stored URL list: split, trimmed, the empty ones
    dropped. *)
Definition row_entries (input_image_urls : string) : list string :=
  List.filter Py.truthy (map Py.strip (Py.split "," input_image_urls)).

(** Every entry in turn through the fetcher. *)
Fixpoint attempt_each (env : Env) (entries : list string) (w : World)
  : list (option string) * World :=
  match entries with
  | [] => ([], w)
  | url :: rest =>
      let r := fetcher env url w in
      let rs := attempt_each env rest r.2 in
      (r.1 :: rs.1, rs.2)
  end.

(** The references that came out, in the order they came. *)
Definition successes (results : list (option string)) : list string :=
  omap id results.

(* ===================================================================== *)
(** ** The fetcher: one URL *)
(* ===================================================================== *)

(** Every stage of one download goes well: the GET is answered 200 with a
    readable body [body], the imaging library opens, converts and saves it,
    and the generated name is [u]. Each oracle is asked with the history at
    the moment of its call. *)
Definition fetch_succeeds (env : Env) (url : string) (w : World)
           (body u : string) : Prop :=
  let h1 := trace w ++ [RequestsGet url 10] in
  let h2 := h1 ++ [Uuid4] in
  env_requests_get env (trace w) url = Returns (mkResponse 200 (Returns body)) ∧
  env_image_open env h1 body = Returns tt ∧
  env_uuid4 env h1 = u ∧
  env_image_convert env h2 body = Returns tt ∧
  env_image_save env h2 (Py.os_path_join PROCESSED_DIR (u +:+ ".jpg")) = Returns tt.

(** The world after a download that went well. *)
Definition after_success (url body u : string) (w : World) : World :=
  let new_path := Py.os_path_join PROCESSED_DIR (u +:+ ".jpg") in
  with_files (<[new_path := Jpeg body "RGB" 50]> (files w))
    (with_trace (trace w ++ [RequestsGet url 10; Uuid4; ImageSave new_path]) w).

(** The world after a download that did not: only the trace has grown, and
    it ends with the line that was printed. *)
Definition after_failure (url : string) (mid : list Event) (line : LogLine)
           (w : World) : World :=
  with_trace (trace w ++ RequestsGet url 10 :: mid ++ [Print line]) w.

(** The events between the GET and the printed line of a failed download. *)
Definition quiet_event (e : Event) : bool :=
  match e with Uuid4 | ImageSave _ => true | _ => false end.


(* ===================================================================== *)
(** ** The orchestrator, phase by phase *)
(* ===================================================================== *)

(** A product once its row has been run with the references [output_urls]. *)
Definition processed (output_urls : list string) (product : Product.t) : Product.t :=
  Product.set_status "processed"
    (Product.set_output_image_urls (Some (Py.join "," output_urls)) product).

Definition stage_product (ip : nat * Product.t) (s : Session) : Session :=
  mkSession (new_requests s) (new_products s) (dirty_requests s)
            (dirty_products s ++ [ip]).

(** The world after the row of [ip]: its entries fetched, the product
    staged in the session, the pause taken. *)
Definition after_row (env : Env) (ip : nat * Product.t) (w : World) : World :=
  let r := attempt_each env (row_entries (Product.input_image_urls ip.2)) w in
  with_trace (trace r.2 ++ [Sleep 500])
    (with_session (stage_product (ip.1, processed (successes r.1) ip.2) (session r.2))
       r.2).

Fixpoint after_rows (env : Env) (rows : list (nat * Product.t)) (w : World) : World :=
  match rows with
  | [] => w
  | ip :: rest => after_rows env rest (after_row env ip w)
  end.

(** The world in the middle of a run of [process_images]: the rows are
    loaded and the first [k] of them have been run. *)
Definition midflight (env : Env) (request_id : string) (k : nat) (w : World) : World :=
  after_rows env (take k (products_of request_id (db w)))
    (with_trace (trace w ++ [DbQuery]) (with_session SessionLocal w)).

(** A staged product is the loaded one, processed, under the same row. *)
Definition staged_from (ip ip' : nat * Product.t) : Prop :=
  ip'.1 = ip.1 ∧ ∃ output_urls, ip'.2 = processed output_urls ip.2.

(* ===================================================================== *)
(** ** Concrete environments and worlds, for the examples *)
(* ===================================================================== *)

(** An environment in which the imaging library and the clock behave, GET
    requests are answered by [get], POST requests by [post], and the
    database faults where [fault] says. The generated names differ with the
    length of the history. *)
Definition example_env (get : string → Outcome Response) (post : Outcome Z)
           (fault : list Event → option string) : Env :=
  mkEnv (λ _ url, get url)
        (λ _ _, Returns tt) (λ _ _, Returns tt) (λ _ _, Returns tt)
        (λ h, "uuid-" +:+ String (Py.chr (97 + Z.of_nat (length h))) EmptyString)
        (λ h, Z.of_nat (length h))
        (λ _ _, post)
        fault
        (λ h, Z.of_nat (length h)).

(** The database never faults. *)
Definition no_fault : list Event → option string := λ _, None.

(** Every GET is answered with [code] and the body "PNG". *)
Definition answers (code : Z) : string → Outcome Response :=
  λ _, Returns (mkResponse code (Returns "PNG")).

(** Every GET is answered 200 with the body "PNG", but for [missing],
    which is answered 404. *)
Definition answers_but (missing : string) : string → Outcome Response :=
  λ url, if decide (url = missing)
         then Returns (mkResponse 404 (Returns EmptyString))
         else Returns (mkResponse 200 (Returns "PNG")).

(** A request once it has been marked completed at [now]. *)
Definition completed (now : Z) (r : ProcessingRequest.t) : ProcessingRequest.t :=
  ProcessingRequest.set_completed_at (Some now)
    (ProcessingRequest.set_status "completed" r).

(** The database the commit of a run writes: the request the second query
    found, completed, and the staged products, each on its row. *)
Definition committed_db (found : option (nat * ProcessingRequest.t)) (now : Z)
           (staged : list (nat * Product.t)) (d : Database) : Database :=
  mkDatabase
    (match found with
     | Some (i, r) => <[i := completed now r]> (processing_requests d)
     | None => processing_requests d
     end)
    (apply_updates staged (products d)).

(** The payload of the webhook. *)
Definition webhook_payload (request_id : string) : list (string * string) :=
  [("request_id", request_id); ("status", "completed")].

(** What the notifier does after the history [h], for the request the run
    has completed: nothing without a non-empty [callback_url]; else one
    POST, and one printed line when it is answered outside 2xx or raises. *)
Definition webhook_events (env : Env) (request_id : string)
           (processing_request : option ProcessingRequest.t) (h : list Event)
  : list Event :=
  match processing_request with
  | Some r =>
      match ProcessingRequest.callback_url r with
      | Some callback_url =>
          if Py.truthy callback_url then
            RequestsPost callback_url (webhook_payload request_id) 5
            :: match env_requests_post env h callback_url with
               | Returns code =>
                   if (code <? 200) || (300 <=? code)
                   then [Print (WebhookCallFailed code)] else []
               | Raises e => [Print (ErrorCallingWebhook request_id e)]
               end
          else []
      | None => []
      end
  | None => []
  end.

(** The round trip that reloads the completed request before the webhook:
    made when the second query found the request, and only then. *)
Definition reread (found : option (nat * ProcessingRequest.t)) : list Event :=
  match found with Some _ => [DbQuery] | None => [] end.

(** The commit of a run goes through: the database answers the query that
    loads the rows, the query for the request after the last row, and the
    commit. Nothing else in the body can raise before the commit is done:
    the errors of a download stay inside the inner [try]. *)
Definition run_commits (env : Env) (request_id : string) (w : World) : Prop :=
  let found := request_of request_id (db w) in
  let visited :=
    midflight env request_id (length (products_of request_id (db w))) w in
  let h4 := (trace visited ++ [DbQuery])
              ++ match found with Some _ => [Utcnow] | None => [] end in
  env_db_fault env (trace w) = None ∧
  env_db_fault env (trace visited) = None ∧
  env_db_fault env h4 = None.

(** Lines 104 to 123, what follows the loop. *)
Definition finish (env : Env) (request_id : string) : M unit :=
  do found <- query_request_first env request_id;
  do processing_request <- complete_request env found;
  do _ <- db_commit env;
  trigger_webhook env request_id processing_request.

(** The events of the database and of the clock. *)
Definition plain_event (e : Event) : bool :=
  match e with DbQuery | DbCommit | Utcnow => true | _ => false end.

(** The events of a run before its webhook. *)
Definition run_event (e : Event) : bool := fetch_event e || plain_event e.

(** How a run relates a product row before and after its commit: a row of
    the job is the same product, processed; any other row is untouched. *)
Definition row_after_run (request_id : string) (p p' : Product.t) : Prop :=
  if decide (Product.request_id p = request_id)
  then ∃ output_urls, p' = processed output_urls p
  else p' = p.

(** How it relates a request row: untouched, or the job's, completed. *)
Definition request_after_run (request_id : string) (now : Z)
           (r r' : ProcessingRequest.t) : Prop :=
  r' = r ∨ (ProcessingRequest.request_id r = request_id ∧ r' = completed now r).

(** *** The upload, in the words of the interface *)

(** The product a data row of three fields becomes. *)
Definition new_product (request_id : string) (row : list string) : Product.t :=
  Product.mk request_id (Py.strip (nth 0 row EmptyString))
             (Py.strip (nth 1 row EmptyString)) (Py.strip (nth 2 row EmptyString))
             None "pending".

(** The request an upload creates, as the INSERT at [now] stores it. *)
Definition new_job (request_id : string) (webhook_url : option string) (now : Z)
  : ProcessingRequest.t :=
  ProcessingRequest.mk request_id "pending" (Some now) None webhook_url.

Definition three_fields (row : list string) : Prop := length row = 3%nat.

(** The upload is well formed: the content type, a header that normalizes
    to the expected one, three fields in every data row. *)
Definition valid_upload (content_type : string) (csv_reader : list (list string))
  : Prop :=
  content_type = "text/csv" ∧
  ∃ header rows, csv_reader = header :: rows ∧
                 map normalize header = expected_header ∧
                 Forall three_fields rows.

(** The commit of an upload goes through: the round trip does not fault
    and the generated id is not taken. *)
Definition commit_succeeds (env : Env) (w : World) : Prop :=
  env_db_fault env (trace w ++ [Uuid4]) = None ∧
  env_uuid4 env (trace w)
    ∉ map ProcessingRequest.request_id (processing_requests (db w)).

Definition stage_new_products (ps : list Product.t) (s : Session) : Session :=
  mkSession (new_requests s) (new_products s ++ ps) (dirty_requests s) (dirty_products s).

(** *** The status query and the artifact, in the words of the store *)

(** The text of the artifact of a job: the header record, then one record
    per product of the job in the order the query loads them. *)
Definition artifact_text (request_id : string) (d : Database) : string :=
  concat_strings
    (map csv_writerow
         (output_header :: map (λ ip, output_record ip.2) (products_of request_id d))).

(** The answer of the status query for the request [r] it found. *)
Definition status_response (request_id : string) (d : Database)
           (r : ProcessingRequest.t) : StatusResponse :=
  mkStatusResponse
    (ProcessingRequest.request_id r) (ProcessingRequest.status r)
    (ProcessingRequest.created_at r) (ProcessingRequest.completed_at r)
    (ProcessingRequest.callback_url r)
    (map (λ ip, product_data ip.2) (products_of request_id d))
    (if decide (ProcessingRequest.status r = "completed")
     then Some ("/download/" +:+ request_id) else None).

(** The world a handler leaves: its own session closed. *)
Definition left_by (d : Database) (f : gmap string File) (t : list Event)
           (w : World) : World :=
  mkWorld d SessionLocal f t (background_tasks w).

(* ===================================================================== *)
(** ** Invariants of the store *)
(* ===================================================================== *)

(** [completed_at] is set exactly on the completed requests. *)
Definition completed_at_iff_completed (r : ProcessingRequest.t) : Prop :=
  is_Some (ProcessingRequest.completed_at r) ↔ ProcessingRequest.status r = "completed".

(** Every product of a completed request has been processed. *)
Definition rows_processed (d : Database) (r : ProcessingRequest.t) : Prop :=
  ProcessingRequest.status r = "completed" →
  ∀ p, p ∈ products d →
       Product.request_id p = ProcessingRequest.request_id r →
       Product.status p = "processed".

(** [output_image_urls] is null exactly on the pending products, and set
    exactly on the processed ones. *)
Definition output_null_iff_pending (p : Product.t) : Prop :=
  (Product.output_image_urls p = None ↔ Product.status p = "pending") ∧
  (is_Some (Product.output_image_urls p) ↔ Product.status p = "processed").

Definition db_invariant (d : Database) : Prop :=
  (∀ r, r ∈ processing_requests d → completed_at_iff_completed r ∧ rows_processed d r) ∧
  (∀ p, p ∈ products d → output_null_iff_pending p).

(** The ways one step changes the committed tables: not at all, by the
    INSERTs of an upload under a fresh id, or by the commit of a run. *)
Inductive db_change : Database → Database → Prop :=
| db_same d : db_change d d
| db_uploaded d request_id webhook_url now rows :
    request_id ∉ map ProcessingRequest.request_id (processing_requests d) →
    db_change d
      (mkDatabase
         (processing_requests d ++ [new_job request_id webhook_url now])
         (products d ++ map (new_product request_id) rows))
| db_committed d request_id now staged :
    Forall2 staged_from (products_of request_id d) staged →
    db_change d (committed_db (request_of request_id d) now staged d).

(** A request has a callback when its [callback_url] is set and not the
    empty string. *)
Definition has_callback (r : ProcessingRequest.t) : Prop :=
  ∃ url, ProcessingRequest.callback_url r = Some url ∧ url ≠ EmptyString.

(** *** Worlds for the examples *)

Definition example_header : list string := ["S. No"; " Product-Name "; "InputImageURLs"].

(** One job of two rows uploaded into the empty system, with a webhook. *)
Definition two_rows_uploaded : World :=
  (upload_csv (example_env (answers 200) (Returns 200) no_fault) "text/csv"
     [example_header;
      ["1"; "Widget"; "http://host/a.png, http://host/b.png"];
      ["2"; "Gadget"; "http://host/c.png"]]
     (Some "http://client/hook") initial).2.

(** The database faults at the commit that follows the clock reading. *)
Definition fault_at_commit : list Event → option string :=
  λ h, match last h with Some Utcnow => Some "OperationalError" | _ => None end.

(** The database faults at the round trip that follows the commit of a run
    (the commit that came after a clock reading). *)
Definition fault_after_commit : list Event → option string :=
  λ h, match reverse h with
       | DbCommit :: Utcnow :: _ => Some "OperationalError"
       | _ => None
       end.

(* ===================================================================== *)
(** ** The header check, as the docstring of [normalize] words it *)
(* ===================================================================== *)

(** "Remove non-alphanumeric characters and convert to lowercase." *)
Fixpoint remove_non_alphanumeric (s : string) : string :=
  match s with
  | EmptyString => EmptyString
  | String c s' =>
      if Py.isalnum c then String c (remove_non_alphanumeric s')
      else remove_non_alphanumeric s'
  end.

Definition normalize_as_documented (text : string) : string :=
  Py.lower (remove_non_alphanumeric text).

Fixpoint has_underscore (s : string) : bool :=
  match s with
  | EmptyString => false
  | String c s' => (Py.ord c =? 95) || has_underscore s'
  end.

(** Every path the artifact writer has opened so far was opened once, and
    a file is there. *)
Definition artifact_invariant (w : World) : Prop :=
  ∀ path, (times_written path (trace w) ≤ 1)%nat ∧
          ((0 < times_written path (trace w))%nat → is_Some (files w !! path)).

(* ===================================================================== *)
(** ** Vocabulary for the properties of the rest of the code *)
(* ===================================================================== *)

(** The first, or the last, character of a string is white space. *)
Definition starts_with_space (s : string) : bool :=
  match s with
  | EmptyString => false
  | String c _ => Py.isspace c
  end.

Fixpoint ends_with_space (s : string) : bool :=
  match s with
  | EmptyString => false
  | String c EmptyString => Py.isspace c
  | String _ s' => ends_with_space s'
  end.

(** [c in s] *)
Fixpoint has_char (c : ascii) (s : string) : bool :=
  match s with
  | EmptyString => false
  | String d s' => bool_decide (d = c) || has_char c s'
  end.

(** A text as one URL entry of a row: not empty, trimmed, without comma. *)
Definition clean_entry (url : string) : Prop :=
  url ≠ EmptyString ∧ Py.strip url = url ∧ has_char "," url = false.

(** A text without white space at either end. *)
Definition trimmed (s : string) : Prop :=
  starts_with_space s = false ∧ ends_with_space s = false.

(** [w'] is reached from [w] by any number of steps. *)
Definition later : World → World → Prop := rtc step.

(** The identity of a product and of a request: what no code path assigns
    after the INSERT. *)
Definition same_product_identity (p p' : Product.t) : Prop :=
  Product.request_id p' = Product.request_id p ∧
  Product.serial_number p' = Product.serial_number p ∧
  Product.product_name p' = Product.product_name p ∧
  Product.input_image_urls p' = Product.input_image_urls p.

Definition same_request_identity (r r' : ProcessingRequest.t) : Prop :=
  ProcessingRequest.request_id r' = ProcessingRequest.request_id r ∧
  ProcessingRequest.created_at r' = ProcessingRequest.created_at r ∧
  ProcessingRequest.callback_url r' = ProcessingRequest.callback_url r.

(** The constraints of [models.py] on the committed tables: [request_id]
    is unique among the requests, and every product refers to a request. *)
Definition constraints_hold (d : Database) : Prop :=
  NoDup (map ProcessingRequest.request_id (processing_requests d)) ∧
  ∀ p, p ∈ products d →
       Product.request_id p ∈ map ProcessingRequest.request_id (processing_requests d).

(** The path a download stores its image under, for the generated name
    [u], and the reference the row keeps for it. *)
Definition image_path (u : string) : string :=
  Py.os_path_join PROCESSED_DIR (u +:+ ".jpg").
Definition image_ref (u : string) : string := "/processed_images/" +:+ u +:+ ".jpg".

(** An image as a download stores it. *)
Definition stored_jpeg (fs : gmap string File) (path : string) : Prop :=
  ∃ body, fs !! path = Some (Jpeg body "RGB" 50).

(** From [fs] to [fs'] nothing was removed and nothing but images was
    written. *)
Definition only_images_added (fs fs' : gmap string File) : Prop :=
  ∀ path, fs' !! path = fs !! path
          ∨ ((∃ u, path = image_path u) ∧ stored_jpeg fs' path).

(** A reference that names an image of [fs]. *)
Definition names_stored_image (fs : gmap string File) (ref : string) : Prop :=
  ∃ u, ref = image_ref u ∧ stored_jpeg fs (image_path u).

(** A staged product is the loaded one, processed with references that
    name images of [fs]. *)
Definition staged_with (fs : gmap string File) (ip ip' : nat * Product.t) : Prop :=
  ip'.1 = ip.1 ∧
  ∃ refs, ip'.2 = processed refs ip.2 ∧ Forall (names_stored_image fs) refs.

(** The URL entries of the rows, row after row. *)
Definition entries_of (rows : list (nat * Product.t)) : list string :=
  concat (map (λ ip, row_entries (Product.input_image_urls ip.2)) rows).
(* ===================================================================== *)
(** ** Proofs *)
(* ===================================================================== *)

Example split_ex : Py.split "," "a, b,,c," = ["a"; " b"; ""; "c"; ""].
Proof. reflexivity. Qed.
Example strip_ex : Py.strip "  a b  " = "a b".
Proof. reflexivity. Qed.
Example join_ex : Py.join "," ["a"; "b"; "c"] = "a,b,c".
Proof. reflexivity. Qed.
Example path_ex : Py.os_path_join "output" "x_output.csv" = "output/x_output.csv".
Proof. reflexivity. Qed.

Ltac run :=
  unfold try_except, try_finally, bind, ret, raise, emit, print, modify,
    modify_session, get_world, of_outcome in *; cbn in *.

Lemma with_trace_trace t w : trace (with_trace t w) = t.
Proof. reflexivity. Qed.

Lemma app_cons_assoc {A} (l : list A) x y :
  (l ++ [x]) ++ y = l ++ x :: y.
Proof. by rewrite <- app_assoc. Qed.

Ltac same_world :=
  unfold with_trace, with_files, with_db, with_session, with_background_tasks;
  cbn; rewrite <- ?app_assoc; cbn; rewrite <- ?app_assoc; cbn;
  rewrite ?app_nil_r; done.

Lemma fetcher_cases env url w :
  (∃ body u, fetch_succeeds env url w body u ∧
     fetcher env url w
     = (Some ("/processed_images/" +:+ u +:+ ".jpg"), after_success url body u w))
  ∨ ((∀ body u, ¬ fetch_succeeds env url w body u) ∧
     ∃ mid line, Forall (λ e, quiet_event e = true) mid ∧
       fetcher env url w = (None, after_failure url mid line w)).
Proof.
  unfold fetcher, try_download, download, requests_get, Image_open, uuid4,
    Image_convert, Image_save_jpeg, fetch_succeeds, after_success, after_failure.
  run.
  destruct (env_requests_get env (trace w) url) as [[code body]|e] eqn:Hget; run.
  2:{ right. split; [intros ?? (? & _); congruence|].
      exists [], (ErrorDownloadingOrProcessing url e). split; [constructor|]. same_world. }
  destruct (code =? 200) eqn:Hcode; run.
  2:{ right. split.
      - intros ?? (Heq & _). by simplify_eq.
      - exists [], (FailedToDownload url code). split; [constructor|]. same_world. }
  apply Z.eqb_eq in Hcode as ->.
  destruct body as [body|e]; run.
  2:{ right. split; [intros ?? (? & _); congruence|].
      exists [], (ErrorDownloadingOrProcessing url e). split; [constructor|]. same_world. }
  destruct (env_image_open env (trace w ++ [RequestsGet url 10]) body) as [[]|e] eqn:Hopen; run.
  2:{ right. split; [intros ?? (? & ? & _); simplify_eq; congruence|].
      exists [], (ErrorDownloadingOrProcessing url e). split; [constructor|]. same_world. }
  destruct (env_image_convert env ((trace w ++ [RequestsGet url 10]) ++ [Uuid4]) body)
    as [[]|e] eqn:Hconv; run.
  2:{ right. split; [intros ?? (? & ? & ? & ? & _); simplify_eq; congruence|].
      exists [Uuid4], (ErrorDownloadingOrProcessing url e).
      split; [repeat constructor|]. same_world. }
  destruct (env_image_save env ((trace w ++ [RequestsGet url 10]) ++ [Uuid4])
              (Py.os_path_join PROCESSED_DIR
                 (env_uuid4 env (trace w ++ [RequestsGet url 10]) +:+ ".jpg")))
    as [[]|e] eqn:Hsave; run.
  2:{ right. split; [intros ?? (? & ? & ? & ? & ?); simplify_eq; congruence|].
      eexists [Uuid4; ImageSave _], (ErrorDownloadingOrProcessing url e).
      split; [repeat constructor|]. same_world. }
  left. exists body, (env_uuid4 env (trace w ++ [RequestsGet url 10])).
  split; [done|]. same_world.
Qed.

(** The accumulator [new_urls] of the loop only ever grows by what the
    fetcher returns, and no exception leaves the [try]. *)
Lemma try_download_fetcher env url acc w :
  try_download env url acc w
  = (Ok (acc ++ option_list (fetcher env url w).1), (fetcher env url w).2).
Proof.
  unfold fetcher, try_download, download, requests_get, Image_open, uuid4,
    Image_convert, Image_save_jpeg.
  run.
  destruct (env_requests_get env (trace w) url) as [[code body]|e]; run;
    [|by rewrite app_nil_r].
  destruct (code =? 200); run; [|by rewrite app_nil_r].
  destruct body as [body|e]; run; [|by rewrite app_nil_r].
  destruct (env_image_open _ _ _) as [[]|e]; run; [|by rewrite app_nil_r].
  destruct (env_image_convert _ _ _) as [[]|e]; run; [|by rewrite app_nil_r].
  destruct (env_image_save _ _ _) as [[]|e]; run; [|by rewrite app_nil_r].
  done.
Qed.

(** What one call of the fetcher leaves untouched, in either case. *)
Lemma fetcher_frame env url w :
  let w' := (fetcher env url w).2 in
  db w' = db w ∧ session w' = session w ∧
  background_tasks w' = background_tasks w ∧ files_kept w w' ∧
  ∃ delta, trace w' = trace w ++ RequestsGet url 10 :: delta ∧
           Forall (λ e, fetch_event e = true ∧ get_url e = None) delta.
Proof.
  destruct (fetcher_cases env url w) as [(body & u & _ & ->)|(_ & mid & line & Hmid & ->)];
    cbn; (split_and!; [done..| |]).
  - intros path [f Hf]. unfold after_success. cbn. destruct (decide (Py.os_path_join PROCESSED_DIR (u +:+ ".jpg") = path))
      as [->|Hne]; [by rewrite lookup_insert_eq | by rewrite lookup_insert_ne, Hf].
  - eexists. split; [done|]. by repeat constructor.
  - by intros path.
  - eexists. split; [done|]. apply Forall_app. split; [|by repeat constructor].
    eapply Forall_impl; [exact Hmid|]. by intros [] ?.
Qed.

(* ===================================================================== *)
(** ** The row processor: one product *)
(* ===================================================================== *)

Lemma fetch_all_attempt_each env input_urls acc w :
  let r := attempt_each env (List.filter Py.truthy (map Py.strip input_urls)) w in
  fetch_all env input_urls acc w = (Ok (acc ++ successes r.1), r.2).
Proof.
  revert acc w. induction input_urls as [|url rest IH]; intros acc w; cbn.
  - by rewrite app_nil_r.
  - destruct (Py.truthy (Py.strip url)) eqn:Htruthy; cbn; [|apply IH].
    unfold bind at 1. rewrite try_download_fetcher, IH. cbn.
    f_equal. f_equal. rewrite <- app_assoc. f_equal.
    unfold successes. cbn. by destruct (fetcher env (Py.strip url) w).1.
Qed.

Lemma attempt_each_length env entries w :
  length (attempt_each env entries w).1 = length entries.
Proof.
  revert w. induction entries as [|url rest IH]; intros w; cbn; [done|].
  by rewrite IH.
Qed.

Lemma attempt_each_frame env entries w :
  let w' := (attempt_each env entries w).2 in
  db w' = db w ∧ session w' = session w ∧
  background_tasks w' = background_tasks w ∧ files_kept w w' ∧
  ∃ delta, trace w' = trace w ++ delta ∧ gets delta = entries ∧
           Forall (λ e, fetch_event e = true) delta.
Proof.
  revert w. induction entries as [|url rest IH]; intros w; cbn.
  - split_and!; [done..|by intros ?|]. exists []. by rewrite app_nil_r.
  - destruct (fetcher_frame env url w) as (Hdb & Hs & Hb & Hf & d1 & Ht & Hd1).
    destruct (IH (fetcher env url w).2) as (Hdb' & Hs' & Hb' & Hf' & d2 & Ht' & Hg & Hd2).
    split_and!; try congruence.
    + intros path ?. by apply Hf', Hf.
    + exists (RequestsGet url 10 :: d1 ++ d2). split_and!.
      * rewrite Ht', Ht. by rewrite <- app_assoc.
      * unfold gets in *. cbn. f_equal. rewrite omap_app, Hg.
        replace (omap get_url d1) with (@nil string); [done|].
        clear -Hd1. induction Hd1 as [|e d [_ He] _ IH]; cbn; [done|]. by rewrite He.
      * constructor; [done|]. apply Forall_app. split; [|done].
        eapply Forall_impl; [exact Hd1|]. by intros ? [].
Qed.

Lemma successes_length results : (length (successes results) ≤ length results)%nat.
Proof.
  unfold successes. induction results as [|[r|] rs IH]; cbn; lia.
Qed.

Lemma filter_length_le {A} (f : A → bool) l : (length (List.filter f l) ≤ length l)%nat.
Proof. induction l as [|x l IH]; cbn; [done|]. destruct (f x); cbn; lia. Qed.

Lemma process_product_run env ip w :
  process_product env ip w = (Ok tt, after_row env ip w).
Proof.
  unfold process_product, after_row, row_entries, db_add_product.
  unfold bind at 1. pose proof (fetch_all_attempt_each env
    (Py.split "," (Product.input_image_urls ip.2)) [] w) as Hrun.
  cbn zeta in Hrun. rewrite Hrun. cbn [app]. run. done.
Qed.

Lemma for_each_rows env rows w :
  for_each rows (process_product env) w = (Ok tt, after_rows env rows w).
Proof.
  revert w. induction rows as [|ip rest IH]; intros w; cbn; [done|].
  unfold bind. by rewrite process_product_run, IH.
Qed.


Lemma after_row_frame env ip w :
  let w' := after_row env ip w in
  db w' = db w ∧ background_tasks w' = background_tasks w ∧ files_kept w w' ∧
  new_requests (session w') = new_requests (session w) ∧
  new_products (session w') = new_products (session w) ∧
  dirty_requests (session w') = dirty_requests (session w) ∧
  (∃ ip', dirty_products (session w') = dirty_products (session w) ++ [ip'] ∧
          staged_from ip ip') ∧
  ∃ delta, trace w' = trace w ++ delta ∧ Forall (λ e, fetch_event e = true) delta.
Proof.
  unfold after_row.
  destruct (attempt_each_frame env (row_entries (Product.input_image_urls ip.2)) w)
    as (Hdb & Hs & Hb & Hf & delta & Ht & _ & Hd).
  cbn. rewrite Hs. split_and!; try done.
  - eexists. split; [done|]. split; [done|]. by eexists.
  - exists (delta ++ [Sleep 500]). rewrite Ht, <- app_assoc. split; [done|].
    apply Forall_app. split; [done|]. by repeat constructor.
Qed.

Lemma after_rows_frame env rows w :
  let w' := after_rows env rows w in
  db w' = db w ∧ background_tasks w' = background_tasks w ∧ files_kept w w' ∧
  new_requests (session w') = new_requests (session w) ∧
  new_products (session w') = new_products (session w) ∧
  dirty_requests (session w') = dirty_requests (session w) ∧
  (∃ staged, dirty_products (session w') = dirty_products (session w) ++ staged ∧
             Forall2 staged_from rows staged) ∧
  ∃ delta, trace w' = trace w ++ delta ∧ Forall (λ e, fetch_event e = true) delta.
Proof.
  revert w. induction rows as [|ip rest IH]; intros w; cbn.
  - split_and!; try done; [by intros ?| |].
    + exists []. by rewrite app_nil_r.
    + exists []. by rewrite app_nil_r.
  - destruct (after_row_frame env ip w)
      as (Hdb & Hb & Hf & Hnr & Hnp & Hdr & (ip' & Hdp & Hip) & d1 & Ht & Hd1).
    destruct (IH (after_row env ip w))
      as (Hdb' & Hb' & Hf' & Hnr' & Hnp' & Hdr' & (st & Hdp' & Hst) & d2 & Ht' & Hd2).
    split_and!; try congruence.
    + intros path ?. by apply Hf', Hf.
    + exists (ip' :: st). split; [|by constructor].
      rewrite Hdp', Hdp. by rewrite <- app_assoc.
    + exists (d1 ++ d2). split; [|by apply Forall_app].
      rewrite Ht', Ht. by rewrite <- app_assoc.
Qed.

(** C2. The row processor splits the stored [input_image_urls] on the
    comma, trims every entry and drops the empty ones; it sends the
    remaining URLs through the fetcher one after the other, in order (the
    GET requests of the row are exactly those entries); it stages the
    product with [output_image_urls] the comma-join of the references that
    came out, in the order they came, and with status "processed" whatever
    the outcomes were; the references are no more than the entries, and the
    entries no more than the pieces of the split. Nothing is raised. *)
Theorem C2_row_processor env (ip : nat * Product.t) w :
  let input_urls := Py.split "," (Product.input_image_urls ip.2) in
  let entries := List.filter Py.truthy (map Py.strip input_urls) in
  let results := (attempt_each env entries w).1 in
  let output_urls := successes results in
  ∃ w' delta,
    process_product env ip w = (Ok tt, w') ∧
    trace w' = trace w ++ delta ∧
    gets delta = entries ∧
    dirty_products (session w')
    = dirty_products (session w)
        ++ [(ip.1, Product.mk (Product.request_id ip.2) (Product.serial_number ip.2)
                     (Product.product_name ip.2) (Product.input_image_urls ip.2)
                     (Some (Py.join "," output_urls)) "processed")] ∧
    (length output_urls ≤ length entries)%nat ∧
    (length entries ≤ length input_urls)%nat.
Proof.
  intros input_urls entries results output_urls.
  destruct (attempt_each_frame env entries w)
    as (_ & Hs & _ & _ & delta & Ht & Hg & _).
  exists (after_row env ip w), (delta ++ [Sleep 500]).
  split; [apply process_product_run|].
  unfold after_row, row_entries. fold input_urls. fold entries. cbn.
  rewrite Hs, Ht. split_and!.
  - by rewrite <- app_assoc.
  - unfold gets in *. rewrite omap_app, Hg. cbn. by rewrite app_nil_r.
  - done.
  - unfold output_urls, results. etrans; [apply successes_length|].
    by rewrite attempt_each_length.
  - unfold entries. etrans; [apply filter_length_le|]. by rewrite length_map.
Qed.

(* ===================================================================== *)
(** ** C3: the fetcher *)
(* ===================================================================== *)





(* ===================================================================== *)
(** ** The orchestrator *)
(* ===================================================================== *)

Lemma trigger_webhook_run env request_id processing_request w :
  trigger_webhook env request_id processing_request w
  = match processing_request with
    | None => (Ok tt, w)
    | Some (i, _) =>
        let h := trace w ++ [DbQuery] in
        match env_db_fault env (trace w) with
        | Some e => (Raise (Error e), with_trace h w)
        | None =>
            match processing_requests (db w) !! i with
            | Some r =>
                (Ok tt, with_trace (h ++ webhook_events env request_id (Some r) h) w)
            | None => (Raise (Error "ObjectDeletedError"), with_trace h w)
            end
        end
    end.
Proof.
  unfold trigger_webhook, db_refresh_request, db_round_trip, webhook_events,
    requests_post, webhook_payload.
  destruct processing_request as [[i r0]|]; [|done].
  run. destruct (env_db_fault env (trace w)) as [e|]; run; [done|].
  destruct (processing_requests (db w) !! i) as [r|]; run; [|done].
  destruct (ProcessingRequest.callback_url r) as [u|]; [|run; same_world].
  destruct (Py.truthy u); [|run; same_world].
  run. destruct (env_requests_post env (trace w ++ [DbQuery]) u) as [code|e]; run;
    [|same_world].
  destruct ((code <? 200) || (300 <=? code)); run; same_world.
Qed.

Lemma process_images_body_finish env request_id w :
  process_images_body env request_id w
  = match env_db_fault env (trace w) with
    | Some e => (Raise (Error e), with_trace (trace w ++ [DbQuery]) w)
    | None => finish env request_id
                (after_rows env (products_of request_id (db w))
                   (with_trace (trace w ++ [DbQuery]) w))
    end.
Proof.
  unfold process_images_body, finish, query_products, db_round_trip.
  unfold bind at 1 2 3. cbn.
  destruct (env_db_fault env (trace w)) as [e|]; cbn; [done|].
  unfold bind at 1. by rewrite for_each_rows.
Qed.

Local Arguments trigger_webhook : simpl never.

Lemma request_of_Some request_id d i r :
  request_of request_id d = Some (i, r) →
  processing_requests d !! i = Some r ∧ ProcessingRequest.request_id r = request_id.
Proof.
  unfold request_of, rows_of. intros Hin%head_Some_elem_of.
  apply list_elem_of_filter in Hin as (? & Hin). cbn in *.
  apply elem_of_lookup_imap in Hin as (j & y & [= -> ->] & ?). done.
Qed.

Lemma finish_cases env request_id w
      (Hnr : new_requests (session w) = [])
      (Hnp : new_products (session w) = [])
      (Hdr : dirty_requests (session w) = []) :
  let found := request_of request_id (db w) in
  let h3 := trace w ++ [DbQuery] in
  let now := env_utcnow env h3 in
  let h4 := h3 ++ match found with Some _ => [Utcnow] | None => [] end in
  let h5 := h4 ++ [DbCommit] in
  let h6 := h5 ++ reread found in
  let committed := committed_db found now (dirty_products (session w)) (db w) in
  (∃ e w', finish env request_id w = (Raise (Error e), w') ∧
           db w' = db w ∧ files w' = files w ∧
           background_tasks w' = background_tasks w ∧
           (∃ delta, trace w' = trace w ++ delta ∧
                     Forall (λ e, plain_event e = true) delta) ∧
           (env_db_fault env (trace w) = Some e
            ∨ (env_db_fault env (trace w) = None ∧ env_db_fault env h4 = Some e)))
  ∨ (∃ e, is_Some found ∧
          env_db_fault env (trace w) = None ∧ env_db_fault env h4 = None ∧
          env_db_fault env h5 = Some e ∧
          finish env request_id w
          = (Raise (Error e),
             mkWorld committed SessionLocal (files w) h6 (background_tasks w)))
  ∨ (env_db_fault env (trace w) = None ∧ env_db_fault env h4 = None ∧
     (is_Some found → env_db_fault env h5 = None) ∧
     finish env request_id w
     = (Ok tt,
        mkWorld committed SessionLocal (files w)
                (h6 ++ webhook_events env request_id
                         (option_map (λ ir, completed now ir.2) found) h6)
                (background_tasks w))).
Proof.
  destruct w as [d [nr np dr dp] fs tr bt]. cbn in Hnr, Hnp, Hdr. subst nr np dr.
  intros found h3 now h4 h5 h6 committed.
  cbn in found, h3, now, h4, h5, h6, committed |- *.
  unfold finish, query_request_first, db_round_trip, complete_request, utcnow,
    db_add_request, db_commit, db_round_trip.
  run.
  destruct (env_db_fault env tr) as [e|] eqn:Hf1; run.
  { left. eexists e, _. split; [done|]. cbn. split_and!; try done.
    - exists [DbQuery]. split; [done|]. by repeat constructor.
    - by left. }
  fold found. fold h3.
  destruct found as [[i r]|] eqn:Hfound; run.
  - fold now. destruct (env_db_fault env (h3 ++ [Utcnow])) as [e|] eqn:Hf2; cbn.
    { left. eexists e, _. split; [done|]. cbn. split_and!; try done.
      - exists [DbQuery; Utcnow; DbCommit]. split; [|by repeat constructor].
        unfold h3. by rewrite <- !app_assoc.
      - right. done. }
    right. rewrite trigger_webhook_run. cbn.
    apply request_of_Some in Hfound as [Hi _]. cbn in Hi.
    assert (<[i := completed now r]> d.(processing_requests) !! i
            = Some (completed now r)) as Hrow.
    { apply list_lookup_insert_eq. by eapply lookup_lt_Some. }
    unfold flush. cbn. rewrite !app_nil_r. cbn. unfold completed in Hrow |- *.
    change ((h3 ++ [Utcnow]) ++ [DbCommit]) with h5.
    destruct (env_db_fault env h5) as [e|] eqn:Hf3.
    + left. exists e. split_and!; [by eexists|done..].
    + right. split_and!; [done..|]. rewrite Hrow. cbn. done.
  - destruct (env_db_fault env h3) as [e|] eqn:Hf2; cbn.
    { left. eexists e, _. split; [done|]. cbn. split_and!; try done.
      - exists [DbQuery; DbCommit]. split; [|by repeat constructor].
        unfold h3. by rewrite <- !app_assoc.
      - right. by rewrite app_nil_r. }
    right. right. split_and!; [done|by rewrite app_nil_r|by intros [? ?]|].
    rewrite trigger_webhook_run. cbn. unfold committed, committed_db, flush. cbn.
    rewrite !app_nil_r. done.
Qed.

Lemma process_images_run env request_id w :
  process_images env request_id w
  = match process_images_body env request_id (with_session SessionLocal w) with
    | (Ok _, w1) => (Ok tt, with_session SessionLocal w1)
    | (Raise e, w1) =>
        (Ok tt,
         with_session SessionLocal
           (with_trace (trace w1 ++ [Print (ErrorProcessingImages request_id (exn_str e))])
              w1))
    end.
Proof.
  unfold process_images, db_rollback, db_close. run.
  by destruct (process_images_body env request_id (with_session SessionLocal w))
    as [[[]|e] w1].
Qed.

Lemma midflight_frame env request_id k w :
  let v := midflight env request_id k w in
  db v = db w ∧ background_tasks v = background_tasks w ∧ files_kept w v ∧
  new_requests (session v) = [] ∧ new_products (session v) = [] ∧
  dirty_requests (session v) = [] ∧
  Forall2 staged_from (take k (products_of request_id (db w)))
          (dirty_products (session v)) ∧
  ∃ delta, trace v = trace w ++ DbQuery :: delta ∧
           Forall (λ e, fetch_event e = true) delta.
Proof.
  unfold midflight.
  destruct (after_rows_frame env (take k (products_of request_id (db w)))
              (with_trace (trace w ++ [DbQuery]) (with_session SessionLocal w)))
    as (Hdb & Hb & Hf & Hnr & Hnp & Hdr & (staged & Hdp & Hst) & d2 & Ht & Hd2).
  cbn in *. split_and!; try done.
  - by rewrite Hdp.
  - exists d2. split; [|done]. rewrite Ht. by rewrite <- app_assoc.
Qed.


(** What one run of [process_images] does, in its three outcomes: the body
    raised before its commit went through and nothing was written; the
    commit went through and the reload of the request that follows it
    raised; the commit went through and the body returned. *)
Lemma process_images_outcome env request_id w :
  let loaded := products_of request_id (db w) in
  let found := request_of request_id (db w) in
  let visited := midflight env request_id (length loaded) w in
  let staged := dirty_products (session visited) in
  let h3 := trace visited ++ [DbQuery] in
  let now := env_utcnow env h3 in
  let h5 := (h3 ++ match found with Some _ => [Utcnow] | None => [] end) ++ [DbCommit] in
  let h6 := h5 ++ reread found in
  let w' := (process_images env request_id w).2 in
  (process_images env request_id w).1 = Ok tt ∧
  session w' = SessionLocal ∧
  background_tasks w' = background_tasks w ∧
  files_kept w w' ∧
  ((∃ e w1 delta,
      process_images_body env request_id (with_session SessionLocal w)
      = (Raise (Error e), w1) ∧
      db w' = db w ∧
      trace w1 = trace w ++ delta ∧
      trace w' = trace w1 ++ [Print (ErrorProcessingImages request_id e)] ∧
      Forall (λ e, run_event e = true) delta ∧
      ¬ run_commits env request_id w)
   ∨ (∃ e w1,
        process_images_body env request_id (with_session SessionLocal w)
        = (Raise (Error e), w1) ∧
        run_commits env request_id w ∧
        is_Some found ∧ env_db_fault env h5 = Some e ∧
        db w' = committed_db found now staged (db w) ∧
        trace w1 = h6 ∧
        trace w' = h6 ++ [Print (ErrorProcessingImages request_id e)])
   ∨ (∃ w1,
        process_images_body env request_id (with_session SessionLocal w) = (Ok tt, w1) ∧
        run_commits env request_id w ∧
        (is_Some found → env_db_fault env h5 = None) ∧
        db w' = committed_db found now staged (db w) ∧
        trace w'
        = h6 ++ webhook_events env request_id
                  (option_map (λ ir, completed now ir.2) found) h6)).
Proof.
  intros loaded found visited staged h3 now h5 h6 w'. subst w'.
  rewrite process_images_run.
  rewrite process_images_body_finish. cbn [trace with_session].
  destruct (env_db_fault env (trace w)) as [e|] eqn:Hf1.
  { cbn. split_and!; [done..|by intros ?|]. left. eexists e, _, [DbQuery].
    split_and!; try done; [by repeat constructor|].
    intros (Hno & _). congruence. }
  assert (after_rows env (products_of request_id (db (with_session SessionLocal w)))
            (with_trace (trace w ++ [DbQuery]) (with_session SessionLocal w))
          = visited) as ->.
  { unfold visited, midflight, loaded. by rewrite firstn_all. }
  destruct (midflight_frame env request_id (length loaded) w)
    as (Hdb & Hb & Hf & Hnr & Hnp & Hdr & _ & d2 & Ht & Hd2).
  fold visited in Hdb, Hb, Hf, Hnr, Hnp, Hdr, Ht.
  destruct (finish_cases env request_id visited Hnr Hnp Hdr)
    as [(e & w3 & -> & Hdb3 & Hfs3 & Hb3 & (d3 & Ht3 & Hd3) & Hwhich)
       |[(e & Hsome & Hf2 & Hf4 & Hf5 & ->)|(Hf2 & Hf4 & Hf5 & ->)]].
  - cbn. split_and!; [done|done|congruence| |].
    { intros path ?. unfold files_kept in Hf. cbn. rewrite Hfs3. by apply Hf. }
    left. eexists e, w3, (DbQuery :: d2 ++ d3). split_and!; try done.
    + by rewrite Hdb3, Hdb.
    + rewrite Ht3, Ht. by rewrite <- !app_assoc.
    + constructor; [done|]. apply Forall_app. split.
      * eapply Forall_impl; [exact Hd2|]. intros ev Hev. unfold run_event. by rewrite Hev.
      * eapply Forall_impl; [exact Hd3|]. intros ev Hev. unfold run_event.
        rewrite Hev. by destruct (fetch_event ev).
    + intros (_ & Hno2 & Hno4). fold loaded visited found in Hno2, Hno4.
      rewrite Hdb in Hwhich. unfold found in Hno4.
      destruct Hwhich as [?|[_ ?]]; congruence.
  - cbn. split_and!; [done..| |].
    { intros path ?. by apply Hf. }
    right. left. rewrite Hdb in Hsome, Hf4, Hf5 |- *. eexists e, _.
    split_and!; [done| |done|done|done|done|done]. by split_and!.
  - cbn. split_and!; [done..| |].
    { intros path ?. by apply Hf. }
    right. right. rewrite Hdb in Hf4, Hf5 |- *. eexists.
    split_and!; [done| |done|done|done]. by split_and!.
Qed.

(** The tables after a run: those from before it, or those its commit
    wrote. *)
Lemma process_images_db env request_id w :
  let visited :=
    midflight env request_id (length (products_of request_id (db w))) w in
  let w' := (process_images env request_id w).2 in
  db w' = db w
  ∨ db w' = committed_db (request_of request_id (db w))
              (env_utcnow env (trace visited ++ [DbQuery]))
              (dirty_products (session visited)) (db w).
Proof.
  intros visited w'.
  destruct (process_images_outcome env request_id w)
    as (_ & _ & _ & _ & [(e & w1 & delta & _ & Hdb & _)
                        |[(e & w1 & _ & _ & _ & _ & Hdb & _)|(w1 & _ & _ & _ & Hdb & _)]]).
  - by left.
  - by right.
  - by right.
Qed.

(** *** Updates by row position *)

Lemma apply_updates_length {A} (upd : list (nat * A)) tbl :
  length (apply_updates upd tbl) = length tbl.
Proof.
  revert tbl. induction upd as [|[i x] upd IH]; intros tbl; cbn; [done|].
  unfold apply_updates in IH. by rewrite IH, length_insert.
Qed.

Lemma apply_updates_lookup {A} (upd : list (nat * A)) tbl j x' :
  apply_updates upd tbl !! j = Some x' →
  (j, x') ∈ upd ∨ ((j ∉ upd.*1) ∧ tbl !! j = Some x').
Proof.
  revert tbl. induction upd as [|[i x] upd IH]; intros tbl; cbn.
  - intros ?. right. split; [|done]. apply not_elem_of_nil.
  - intros [Hin|[Hnotin Hlook]]%IH; [left; by right|].
    destruct (decide (i = j)) as [->|Hne].
    + apply list_lookup_insert_Some in Hlook as [(_ & -> & _)|[? _]]; [|done].
      left. by left.
    + rewrite list_lookup_insert_ne in Hlook by done.
      right. split; [|done]. cbn. rewrite not_elem_of_cons. done.
Qed.

Lemma elem_of_products_of request_id d j p :
  (j, p) ∈ products_of request_id d
  ↔ products d !! j = Some p ∧ Product.request_id p = request_id.
Proof.
  unfold products_of, rows_of. rewrite list_elem_of_filter, elem_of_lookup_imap.
  cbn. split.
  - intros (? & i & y & [= -> ->] & ?). done.
  - intros (? & ?). split; [done|]. by exists j, p.
Qed.

Lemma request_of_None request_id d :
  request_of request_id d = None →
  ∀ r, r ∈ processing_requests d → ProcessingRequest.request_id r ≠ request_id.
Proof.
  unfold request_of, rows_of. intros Hnil%head_None r Hr Heq.
  apply list_elem_of_lookup in Hr as [i Hi].
  assert ((i, r) ∈ filter (λ ir : nat * ProcessingRequest.t,
                             ProcessingRequest.request_id ir.2 = request_id)
                          (imap pair (processing_requests d))) as Hin.
  { apply list_elem_of_filter. split; [done|]. by apply elem_of_lookup_imap_2. }
  rewrite Hnil in Hin. by apply not_elem_of_nil in Hin.
Qed.

Lemma staged_fst loaded staged :
  Forall2 staged_from loaded staged → staged.*1 = loaded.*1.
Proof.
  induction 1 as [|ip ip' l l' [Hi _] _ IH]; cbn; [done|]. by rewrite Hi, IH.
Qed.

Lemma staged_elem loaded staged j p' :
  Forall2 staged_from loaded staged → (j, p') ∈ staged →
  ∃ p output_urls, (j, p) ∈ loaded ∧ p' = processed output_urls p.
Proof.
  induction 1 as [|[i p] [i' q] l l' [Hi [urls Hp]] _ IH]; [by intros ?%not_elem_of_nil|].
  intros [[= -> ->]|Hin]%elem_of_cons.
  - cbn in *. subst. exists p, urls. split; [by left|done].
  - destruct (IH Hin) as (p0 & urls0 & ? & ?). exists p0, urls0. split; [by right|done].
Qed.

(** The commit of a run leaves every product row in place: the rows of the
    job processed, the others as they were. *)
Lemma committed_products request_id d staged :
  Forall2 staged_from (products_of request_id d) staged →
  Forall2 (row_after_run request_id) (products d) (apply_updates staged (products d)).
Proof.
  intros Hst. apply Forall2_same_length_lookup_2; [by rewrite apply_updates_length|].
  intros j p p' Hp Hp'. unfold row_after_run.
  apply apply_updates_lookup in Hp' as [Hin|[Hnotin Hsame]].
  - destruct (staged_elem _ _ _ _ Hst Hin) as (p0 & urls & Hl & ->).
    apply elem_of_products_of in Hl as [Hp0 Hrid]. simplify_eq.
    rewrite decide_True by done. by exists urls.
  - simplify_eq. case_decide as Hrid; [|done]. exfalso. apply Hnotin.
    rewrite (staged_fst _ _ Hst).
    apply (list_elem_of_fmap_2 fst _ (j, p)). by apply elem_of_products_of.
Qed.

Lemma committed_requests request_id now d :
  Forall2 (request_after_run request_id now) (processing_requests d)
    (match request_of request_id d with
     | Some (i, r) => <[i := completed now r]> (processing_requests d)
     | None => processing_requests d
     end).
Proof.
  destruct (request_of request_id d) as [[i r]|] eqn:Hfound.
  - apply request_of_Some in Hfound as [Hi Hrid].
    apply Forall2_same_length_lookup_2; [by rewrite length_insert|].
    intros j x x' Hx Hx'. destruct (decide (i = j)) as [->|Hne].
    + apply list_lookup_insert_Some in Hx' as [(_ & <- & _)|[? _]]; [|done].
      simplify_eq. by right.
    + rewrite list_lookup_insert_ne in Hx' by done. simplify_eq. by left.
  - apply Forall2_same_length_lookup_2; [done|]. intros j x x' ??. simplify_eq. by left.
Qed.

(* ===================================================================== *)
(** ** The upload *)
(* ===================================================================== *)

Lemma add_rows_ok request_id rows w :
  Forall three_fields rows →
  for_each rows (add_row request_id) w
  = (Ok tt, with_session (stage_new_products (map (new_product request_id) rows)
                            (session w)) w).
Proof.
  intros Hrows. revert w. induction Hrows as [|row rows Hrow _ IH]; intros w; cbn.
  - unfold ret, stage_new_products. rewrite app_nil_r. by destruct w as [? []].
  - destruct row as [|a [|b [|c [|]]]]; try done.
    unfold bind, add_row, db_add_new_product, modify_session, modify. rewrite IH.
    unfold stage_new_products, new_product. cbn. by rewrite <- app_assoc.
Qed.

Lemma add_rows_bad request_id rows w :
  ¬ Forall three_fields rows →
  ∃ w', for_each rows (add_row request_id) w
        = (Raise (HTTPException 400 "CSV row does not have exactly 3 columns."), w') ∧
        db w' = db w ∧ files w' = files w ∧ trace w' = trace w ∧
        background_tasks w' = background_tasks w.
Proof.
  revert w. induction rows as [|row rows IH]; intros w Hbad.
  - destruct Hbad. constructor.
  - destruct (decide (length row = 3%nat)) as [Hrow|Hrow].
    + destruct row as [|a [|b [|c [|]]]]; try done.
      cbn. unfold bind, db_add_new_product, modify_session, modify. cbn.
      match goal with
      | |- context [for_each rows _ ?w1] =>
          destruct (IH w1) as (w' & -> & ? & ? & ? & ?);
            [intros ?; apply Hbad; by constructor|]
      end.
      by exists w'.
    + exists w. cbn. unfold bind, add_row.
      destruct row as [|a [|b [|c [|]]]]; cbn; try done.
Qed.

Lemma upload_constraints r ps d :
  Forall (λ p, Product.request_id p = ProcessingRequest.request_id r) ps →
  let s := mkSession [r] ps [] [] in
  unique_request_ids s d && foreign_keys_hold s d
  = bool_decide (ProcessingRequest.request_id r
                   ∉ map ProcessingRequest.request_id (processing_requests d)).
Proof.
  intros Hps s. unfold unique_request_ids, foreign_keys_hold. cbn.
  rewrite (bool_decide_eq_true_2 (NoDup _)) by (apply NoDup_singleton).
  rewrite andb_true_r. cbn.
  replace (forallb _ ps) with true; [by rewrite andb_true_r|].
  symmetry. apply forallb_forall. intros p Hp%list_elem_of_In.
  rewrite Forall_forall in Hps. apply bool_decide_eq_true_2.
  rewrite (Hps p Hp). apply list_elem_of_In, in_map_iff. exists r. split; [done|].
  apply in_or_app. right. by left.
Qed.

Lemma new_products_request_id request_id rows :
  Forall (λ p, Product.request_id p = request_id) (map (new_product request_id) rows).
Proof. induction rows; cbn; by constructor. Qed.

Lemma valid_upload_cases content_type csv_reader :
  valid_upload content_type csv_reader ∨ ¬ valid_upload content_type csv_reader.
Proof.
  unfold valid_upload.
  destruct (decide (content_type = "text/csv")) as [Hct|Hct];
    [|right; by intros [? _]].
  destruct csv_reader as [|header rows];
    [right; by intros [_ (? & ? & ? & _)]|].
  destruct (decide (map normalize header = expected_header)) as [Hh|Hh];
    [|right; intros [_ (? & ? & ? & ? & _)]; by simplify_eq].
  destruct (decide (Forall (λ row : list string, length row = 3%nat) rows)) as [Hr|Hr];
    [|right; intros [_ (? & ? & ? & ? & ?)]; by simplify_eq].
  left. split; [done|]. by exists header, rows.
Qed.

(** An upload that is not well formed is answered 400; nothing is written
    and no commit is attempted. *)
Lemma upload_csv_rejected env content_type csv_reader webhook_url w :
  ¬ valid_upload content_type csv_reader →
  ∃ detail w',
    upload_csv env content_type csv_reader webhook_url w
    = (Raise (HTTPException 400 detail), w') ∧
    db w' = db w ∧ session w' = SessionLocal ∧ files w' = files w ∧
    background_tasks w' = background_tasks w ∧
    (trace w' = trace w ∨ trace w' = trace w ++ [Uuid4]).
Proof.
  intros Hbad. unfold upload_csv, with_get_db, upload_csv_body, db_close.
  destruct (decide (content_type ≠ "text/csv")) as [Hct|Hct].
  { run. eexists _, _. split; [done|]. cbn. split_and!; try done. by left. }
  apply dec_stable in Hct.
  destruct csv_reader as [|header rows].
  { run. eexists _, _. split; [done|]. cbn. split_and!; try done. by left. }
  destruct (decide (map normalize header ≠ expected_header)) as [Hh|Hh].
  { run. eexists _, _. split; [done|]. cbn. split_and!; try done. by left. }
  apply dec_stable in Hh.
  assert (¬ Forall three_fields rows) as Hrows.
  { intros Hr. apply Hbad. split; [done|]. by exists header, rows. }
  unfold uuid4, db_add_new_request. run.
  match goal with
  | |- context [for_each rows ?f ?w1] =>
      destruct (add_rows_bad (env_uuid4 env (trace w)) rows w1 Hrows)
        as (w' & -> & Hdb & Hfs & Htr & Hbt)
  end.
  eexists _, _. split; [done|]. cbn in *. split_and!; try done. by right.
Qed.

Local Arguments unique_request_ids : simpl never.
Local Arguments foreign_keys_hold : simpl never.

(** A well-formed upload is answered 200 or 500 as its commit decides. *)
Lemma upload_csv_valid env header rows webhook_url w :
  map normalize header = expected_header → Forall three_fields rows →
  let request_id := env_uuid4 env (trace w) in
  let now := env_db_now env (trace w ++ [Uuid4]) in
  (commit_succeeds env w →
   upload_csv env "text/csv" (header :: rows) webhook_url w
   = (Ok (mkUploadResponse request_id "CSV file uploaded and processing started."),
      mkWorld (mkDatabase
                 (processing_requests (db w) ++ [new_job request_id webhook_url now])
                 (products (db w) ++ map (new_product request_id) rows))
              SessionLocal (files w) (trace w ++ [Uuid4; DbCommit])
              (background_tasks w ++ [request_id])))
  ∧ (¬ commit_succeeds env w →
     upload_csv env "text/csv" (header :: rows) webhook_url w
     = (Raise (HTTPException 500 "Error saving request and product data."),
        mkWorld (db w) SessionLocal (files w) (trace w ++ [Uuid4; DbCommit])
                (background_tasks w))).
Proof.
  intros Hh Hrows request_id now.
  assert (∀ ok : bool,
    (if ok then commit_succeeds env w else ¬ commit_succeeds env w) →
    upload_csv env "text/csv" (header :: rows) webhook_url w
    = if ok
      then (Ok (mkUploadResponse request_id "CSV file uploaded and processing started."),
            mkWorld (mkDatabase
                       (processing_requests (db w) ++ [new_job request_id webhook_url now])
                       (products (db w) ++ map (new_product request_id) rows))
                    SessionLocal (files w) (trace w ++ [Uuid4; DbCommit])
                    (background_tasks w ++ [request_id]))
      else (Raise (HTTPException 500 "Error saving request and product data."),
            mkWorld (db w) SessionLocal (files w) (trace w ++ [Uuid4; DbCommit])
                    (background_tasks w))) as Hboth.
  { intros ok Hok.
    unfold upload_csv, with_get_db, upload_csv_body, db_close.
    rewrite decide_False by (intros Hne; by apply Hne).
    rewrite decide_False by (intros Hne; by apply Hne).
    unfold uuid4, db_add_new_request, db_commit, db_round_trip, db_rollback, add_task.
    run. fold request_id.
    rewrite add_rows_ok by done. unfold stage_new_products. cbn.
    unfold commit_succeeds in Hok. fold request_id in Hok. fold now.
    destruct (env_db_fault env (trace w ++ [Uuid4])) as [e|] eqn:Hfault; cbn.
    { destruct ok; [by destruct Hok|]. destruct w. same_world. }
    rewrite (upload_constraints
               (ProcessingRequest.mk request_id "pending" None None webhook_url)
               (map (new_product request_id) rows) (db w))
      by apply new_products_request_id.
    cbn. case_bool_decide as Hfresh; cbn.
    - destruct ok; [|by destruct Hok]. unfold flush, new_job. cbn.
      destruct w. same_world.
    - destruct ok; [by destruct Hok as [_ ?]|]. destruct w. same_world. }
  split; intros Hc; [apply (Hboth true Hc)|apply (Hboth false Hc)].
Qed.

(* ===================================================================== *)
(** ** The status query *)
(* ===================================================================== *)

Local Arguments concat_strings : simpl never.
Local Arguments csv_writerow : simpl never.

Lemma get_status_run env request_id w :
  let h1 := trace w ++ [DbQuery] in
  let h2 := h1 ++ [DbQuery] in
  let h3 := h2 ++ [DbQuery] in
  let path := output_path request_id in
  get_status env request_id w
  = match env_db_fault env (trace w) with
    | Some e => (Raise (Error e), left_by (db w) (files w) h1 w)
    | None =>
        match request_of request_id (db w) with
        | None => (Raise (HTTPException 404 "Request not found"),
                   left_by (db w) (files w) h1 w)
        | Some (_, r) =>
            match env_db_fault env h1 with
            | Some e => (Raise (Error e), left_by (db w) (files w) h2 w)
            | None =>
                if decide (ProcessingRequest.status r = "completed") then
                  if bool_decide (is_Some (files w !! path)) then
                    (Ok (status_response request_id (db w) r),
                     left_by (db w) (files w) h2 w)
                  else
                    match env_db_fault env h2 with
                    | Some e => (Raise (Error e), left_by (db w) (files w) h3 w)
                    | None =>
                        (Ok (status_response request_id (db w) r),
                         left_by (db w)
                           (<[path := CsvText (artifact_text request_id (db w))]> (files w))
                           (h3 ++ [OpenForWriting path]) w)
                    end
                else (Ok (status_response request_id (db w) r),
                      left_by (db w) (files w) h2 w)
            end
        end
    end.
Proof.
  intros h1 h2 h3 path.
  unfold get_status, with_get_db, get_status_body, db_close, generate_output_csv,
    query_request_first, query_products, write_csv, os_path_exists, db_round_trip,
    left_by, status_response, artifact_text.
  run. fold h1.
  destruct (env_db_fault env (trace w)) as [e|]; run; [done|].
  destruct (request_of request_id (db w)) as [[i r]|]; run; [|done].
  fold h2. destruct (env_db_fault env h1) as [e|]; run; [done|].
  destruct (decide (ProcessingRequest.status r = "completed")) as [Hc|Hc]; run; [|done].
  fold path. destruct (bool_decide (is_Some (files w !! path))); run; [done|].
  fold h3. destruct (env_db_fault env h2) as [e|]; run; done.
Qed.

(* ===================================================================== *)
(** ** Invariants over the reachable worlds *)
(* ===================================================================== *)

Lemma step_db_change w w' : step w w' → db_change (db w) (db w').
Proof.
  intros [env ct csv hook w0|env rid w0|env rid w0|rid w0].
  - destruct (valid_upload_cases ct csv) as [(-> & header & rows & -> & Hh & Hr)|Hbad].
    + destruct (upload_csv_valid env header rows hook w0 Hh Hr) as [Hok Hfail].
      destruct (decide (commit_succeeds env w0)) as [Hc|Hc].
      * rewrite (Hok Hc). cbn. apply db_uploaded. by destruct Hc.
      * rewrite (Hfail Hc). cbn. constructor.
    + destruct (upload_csv_rejected env ct csv hook w0 Hbad) as (? & w1 & Heq & Hdb & _).
      rewrite Heq. cbn. rewrite Hdb. constructor.
  - assert (Forall2 staged_from (products_of rid (db w0))
              (dirty_products
                 (session (midflight env rid (length (products_of rid (db w0))) w0))))
      as Hst.
    { destruct (midflight_frame env rid (length (products_of rid (db w0))) w0)
        as (_ & _ & _ & _ & _ & _ & Hst & _).
      by rewrite firstn_all in Hst. }
    destruct (process_images_db env rid w0) as [-> | ->].
    + constructor.
    + by apply db_committed.
  - rewrite get_status_run. repeat case_match; constructor.
  - unfold download_output_csv, os_path_exists. run. case_match; constructor.
Qed.

Lemma processed_product urls p :
  Product.request_id (processed urls p) = Product.request_id p ∧
  Product.status (processed urls p) = "processed" ∧
  Product.output_image_urls (processed urls p) = Some (Py.join "," urls) ∧
  Product.serial_number (processed urls p) = Product.serial_number p ∧
  Product.product_name (processed urls p) = Product.product_name p ∧
  Product.input_image_urls (processed urls p) = Product.input_image_urls p.
Proof. done. Qed.

Lemma db_invariant_change d d' : db_invariant d → db_change d d' → db_invariant d'.
Proof.
  intros [Hreq Hprod] Hch. destruct Hch as [d|d rid hook now rows Hfresh|d rid now staged Hst].
  - done.
  - split.
    + intros r [Hr|Hr%list_elem_of_singleton]%elem_of_app.
      * destruct (Hreq r Hr) as [Hiff Hrows]. split; [done|].
        intros Hc p [Hp|Hp]%elem_of_app Hrid; [by apply Hrows|]. cbn in Hp.
        apply list_elem_of_In, in_map_iff in Hp as (row & <- & _). cbn in Hrid.
        destruct Hfresh. apply list_elem_of_In, in_map_iff. exists r.
        split; [done|]. by apply list_elem_of_In.
      * subst r. split.
        -- unfold completed_at_iff_completed. cbn. split; [by intros [? ?]|done].
        -- intros Hc. done.
    + intros p [Hp|Hp]%elem_of_app; [by apply Hprod|]. cbn in Hp.
      apply list_elem_of_In, in_map_iff in Hp as (row & <- & _).
      unfold output_null_iff_pending. cbn. split; split; first [done|by intros [? ?]].
  - pose proof (committed_products rid d staged Hst) as Hps.
    pose proof (committed_requests rid now d) as Hrs.
    assert (∀ p', p' ∈ apply_updates staged (products d) →
              ∃ p, p ∈ products d ∧ row_after_run rid p p') as Hfrom.
    { intros p' [j Hj]%list_elem_of_lookup.
      destruct (Forall2_lookup_r _ _ _ _ _ Hps Hj) as (p & Hp & Hrel).
      exists p. split; [by eapply list_elem_of_lookup_2|done]. }
    split.
    + intros r' [j Hj]%list_elem_of_lookup. cbn in Hj.
      destruct (Forall2_lookup_r _ _ _ _ _ Hrs Hj) as (r & Hr & Hrel).
      apply list_elem_of_lookup_2 in Hr. destruct (Hreq r Hr) as [Hiff Hrows].
      destruct Hrel as [->|[Hrid ->]].
      * split; [done|]. intros Hc p' Hp' Hpr. cbn in Hp'.
        destruct (Hfrom p' Hp') as (p & Hp & Hrel). unfold row_after_run in Hrel.
        case_decide; [by destruct Hrel as [urls ->]|]. subst p'. by apply Hrows.
      * split.
        -- unfold completed_at_iff_completed. cbn. split; [done|by eexists].
        -- intros _ p' Hp' Hpr. cbn in Hp', Hpr.
           destruct (Hfrom p' Hp') as (p & Hp & Hrel). unfold row_after_run in Hrel.
           case_decide; [by destruct Hrel as [urls ->]|]. subst p'. congruence.
    + intros p' Hp'. cbn in Hp'. destruct (Hfrom p' Hp') as (p & Hp & Hrel).
      unfold row_after_run in Hrel. case_decide.
      * destruct Hrel as [urls ->]. unfold output_null_iff_pending. cbn.
        split; split; first [done|by eexists].
      * subst p'. by apply Hprod.
Qed.

Lemma reachable_db_invariant w : reachable w → db_invariant (db w).
Proof.
  induction 1 as [|w w' _ IH Hstep].
  - split; intros ? Hin; cbn in Hin; by apply not_elem_of_nil in Hin.
  - eapply db_invariant_change; [exact IH|]. by apply step_db_change.
Qed.

Example two_rows_uploaded_db :
  db two_rows_uploaded
  = mkDatabase
      [ProcessingRequest.mk "uuid-a" "pending" (Some 1) None (Some "http://client/hook")]
      [Product.mk "uuid-a" "1" "Widget" "http://host/a.png, http://host/b.png" None "pending";
       Product.mk "uuid-a" "2" "Gadget" "http://host/c.png" None "pending"].
Proof. reflexivity. Qed.

Lemma two_rows_uploaded_reachable : reachable two_rows_uploaded.
Proof. eapply reachable_step; [apply reachable_initial|]. apply step_upload. Qed.

(* ===================================================================== *)
(** ** C1: completion *)
(* ===================================================================== *)

(** C1. In every reachable world, a request has [completed_at] set if and
    only if its status is "completed", and every product of a completed
    request is processed. In a run of [process_images], no request changes
    while the rows are being visited; once every loaded row has been
    visited and staged, the run either writes nothing, or its one commit
    writes all those rows and with them, for the request of the job,
    status "completed" and [completed_at] the value the clock gave after
    the last row, both at once. *)
Theorem C1_completed_only_after_all_rows :
  (∀ w, reachable w →
     ∀ r, r ∈ processing_requests (db w) →
       (is_Some (ProcessingRequest.completed_at r)
        ↔ ProcessingRequest.status r = "completed") ∧
       (ProcessingRequest.status r = "completed" →
        ∀ p, p ∈ products (db w) →
             Product.request_id p = ProcessingRequest.request_id r →
             Product.status p = "processed"))
  ∧ (∀ env request_id w k,
       processing_requests (db (midflight env request_id k w))
       = processing_requests (db w))
  ∧ (∀ env request_id w,
       let loaded := products_of request_id (db w) in
       let visited := midflight env request_id (length loaded) w in
       let now := env_utcnow env (trace visited ++ [DbQuery]) in
       let w' := (process_images env request_id w).2 in
       Forall2 staged_from loaded (dirty_products (session visited)) ∧
       (db w' = db w
        ∨ (products (db w')
           = apply_updates (dirty_products (session visited)) (products (db w)) ∧
           Forall2 (row_after_run request_id) (products (db w)) (products (db w')) ∧
           processing_requests (db w')
           = match request_of request_id (db w) with
             | Some (i, r) =>
                 <[i := ProcessingRequest.mk (ProcessingRequest.request_id r) "completed"
                          (ProcessingRequest.created_at r) (Some now)
                          (ProcessingRequest.callback_url r)]>
                   (processing_requests (db w))
             | None => processing_requests (db w)
             end ∧
           ∃ tail, trace w' = trace visited ++ DbQuery :: tail))).
Proof.
  split_and!.
  - intros w Hw r Hr. destruct (reachable_db_invariant w Hw) as [Hreq _].
    destruct (Hreq r Hr) as [Hiff Hrows]. split; [exact Hiff|exact Hrows].
  - intros env rid w k.
    destruct (midflight_frame env rid k w) as (-> & _). done.
  - intros env rid w loaded visited now w'.
    destruct (midflight_frame env rid (length loaded) w)
      as (_ & _ & _ & _ & _ & _ & Hst & _).
    unfold loaded in Hst at 1. rewrite firstn_all in Hst. split; [exact Hst|].
    assert (db w' = committed_db (request_of rid (db w)) now
                      (dirty_products (session visited)) (db w) →
            (∃ tail, trace w' = trace visited ++ DbQuery :: tail) →
            products (db w')
            = apply_updates (dirty_products (session visited)) (products (db w)) ∧
            Forall2 (row_after_run rid) (products (db w)) (products (db w')) ∧
            processing_requests (db w')
            = match request_of rid (db w) with
              | Some (i, r) =>
                  <[i := ProcessingRequest.mk (ProcessingRequest.request_id r) "completed"
                           (ProcessingRequest.created_at r) (Some now)
                           (ProcessingRequest.callback_url r)]>
                    (processing_requests (db w))
              | None => processing_requests (db w)
              end ∧
            ∃ tail, trace w' = trace visited ++ DbQuery :: tail) as Hcommitted.
    { intros Hdb Htr. rewrite Hdb. cbn. split_and!.
      - done.
      - by apply committed_products.
      - by destruct (request_of rid (db w)) as [[i r]|].
      - exact Htr. }
    destruct (process_images_outcome env rid w)
      as (_ & _ & _ & _ & [(e & w1 & delta & _ & Hdb & _)
                          |[(e & w1 & _ & _ & _ & _ & Hdb & _ & Htr)
                           |(w1 & _ & _ & _ & Hdb & Htr)]]).
    + by left.
    + right. apply Hcommitted; [exact Hdb|].
      eexists. fold w' in Htr. rewrite Htr. rewrite <- !app_assoc. done.
    + right. apply Hcommitted; [exact Hdb|].
      eexists. fold w' in Htr. rewrite Htr. rewrite <- !app_assoc. done.
Qed.

(** C1 at the world after the upload and the run of a job of two rows. *)
Lemma C1_completed_only_after_all_rows_witness :
  let env := example_env (answers 200) (Returns 200) no_fault in
  let w := (process_images env "uuid-a" two_rows_uploaded).2 in
  let r := ProcessingRequest.mk "uuid-a" "completed" (Some 1) (Some 15)
             (Some "http://client/hook") in
  reachable w ∧ r ∈ processing_requests (db w) ∧
  (is_Some (ProcessingRequest.completed_at r)
   ↔ ProcessingRequest.status r = "completed").
Proof.
  intros env w r.
  assert (reachable w) as Hw.
  { eapply reachable_step; [apply two_rows_uploaded_reachable|].
    apply step_process_images. }
  assert (r ∈ processing_requests (db w)) as Hr by (vm_compute; left).
  split_and!; [exact Hw|exact Hr|].
  exact (proj1 (proj1 C1_completed_only_after_all_rows w Hw r Hr)).
Defined.

(* ===================================================================== *)
(** ** C4: when the rows are persisted *)
(* ===================================================================== *)

Lemma get_status_ok env request_id w resp w' :
  get_status env request_id w = (Ok resp, w') →
  ∃ i r, request_of request_id (db w) = Some (i, r) ∧
         resp = status_response request_id (db w) r.
Proof.
  rewrite get_status_run. intros Hrun.
  destruct (env_db_fault env (trace w)); [done|].
  destruct (request_of request_id (db w)) as [[i r]|]; [|done].
  exists i, r. split; [done|]. repeat case_match; by simplify_eq.
Qed.




(* ===================================================================== *)
(** ** C8 and C9: failure of the run, and the webhook *)
(* ===================================================================== *)

Lemma posts_app l1 l2 : posts (l1 ++ l2) = posts l1 ++ posts l2.
Proof. apply List.filter_app. Qed.

Lemma posts_fetch delta :
  Forall (λ e, fetch_event e = true) delta → posts delta = [].
Proof.
  induction 1 as [|e delta He _ IH]; [done|]. unfold posts in *. cbn.
  rewrite IH. by destruct e.
Qed.

Lemma posts_run delta :
  Forall (λ e, run_event e = true) delta → posts delta = [].
Proof.
  induction 1 as [|e delta He _ IH]; [done|]. unfold posts in *. cbn.
  rewrite IH. by destruct e.
Qed.

(** The history up to the end of the loop holds the POST requests there
    were before the run, and no other. *)
Lemma visited_posts env request_id k w :
  posts (trace (midflight env request_id k w)) = posts (trace w).
Proof.
  destruct (midflight_frame env request_id k w)
    as (_ & _ & _ & _ & _ & _ & _ & d2 & -> & Hd2).
  rewrite posts_app. change (posts (DbQuery :: d2)) with (posts d2).
  by rewrite (posts_fetch d2 Hd2), app_nil_r.
Qed.

(** C8, as the claim states it, fails: a run of the job of two rows in
    which the database answers everything up to and including the commit
    and faults at the next round trip, the reload of the request for the
    test of line 113. An unhandled error has occurred in the run (the body
    raises, the error is printed), yet the writes of the failing run are
    persisted: both rows are stored processed and the request completed. *)
Lemma C8_counterexample :
  let env := example_env (answers 200) (Returns 200) fault_after_commit in
  let body :=
    process_images_body env "uuid-a" (with_session SessionLocal two_rows_uploaded) in
  let r := process_images env "uuid-a" two_rows_uploaded in
  body.1 = Raise (Error "OperationalError") ∧
  r.1 = Ok tt ∧
  last (trace r.2) = Some (Print (ErrorProcessingImages "uuid-a" "OperationalError")) ∧
  map Product.status (products (db two_rows_uploaded)) = ["pending"; "pending"] ∧
  map Product.status (products (db r.2)) = ["processed"; "processed"] ∧
  map ProcessingRequest.status (processing_requests (db two_rows_uploaded))
  = ["pending"] ∧
  map ProcessingRequest.status (processing_requests (db r.2)) = ["completed"].
Proof. cbn zeta. split_and!; vm_compute; reflexivity. Qed.

(** C8, amended. When the body of [process_images] raises, the task does
    not: it rolls its session back, prints the error and closes the
    session; the last line of the trace is the printed error and the run
    has made no POST. When the error came before the commit had gone
    through (one of the three round trips up to the commit faulted), the
    committed tables are exactly those from before the run: no row and no
    request written by the failing run is persisted, the request keeps its
    last persisted status and a status query answers for it as it would
    have before the run. When the commit had gone through, the error is
    the fault of the reload of the request that precedes the webhook:
    then the tables are those the commit wrote, every row of the job
    processed and the request completed, nothing partial. *)
Theorem C8_failed_run_is_rolled_back env request_id w e w1 :
  process_images_body env request_id (with_session SessionLocal w) = (Raise e, w1) →
  let found := request_of request_id (db w) in
  let visited :=
    midflight env request_id (length (products_of request_id (db w))) w in
  let now := env_utcnow env (trace visited ++ [DbQuery]) in
  let r := process_images env request_id w in
  r.1 = Ok tt ∧
  session r.2 = SessionLocal ∧
  trace r.2 = trace w1 ++ [Print (ErrorProcessingImages request_id (exn_str e))] ∧
  posts (trace r.2) = posts (trace w) ∧
  (¬ run_commits env request_id w →
   db r.2 = db w ∧
   request_of request_id (db r.2) = request_of request_id (db w) ∧
   (∀ q, status_response request_id (db r.2) q = status_response request_id (db w) q)) ∧
  (run_commits env request_id w →
   trace w1 = trace visited ++ [DbQuery; Utcnow; DbCommit; DbQuery] ∧
   db r.2 = committed_db found now (dirty_products (session visited)) (db w) ∧
   ∃ i q, found = Some (i, q) ∧
          processing_requests (db r.2) !! i = Some (completed now q)).
Proof.
  intros Hbody found visited now r.
  destruct (process_images_outcome env request_id w)
    as (Hok & Hs & _ & _ & [(e' & w1' & delta & Hb & Hdb & Ht1 & Htr & Hd & Hnot)
                           |[(e' & w1' & Hb & Hyes & Hsome & Hf5 & Hdb & Ht1 & Htr)
                            |(w1' & Hb & _)]]).
  - rewrite Hbody in Hb. injection Hb as -> <-. fold r in Hok, Hs, Hdb, Htr.
    split_and!; [done|done|done| | |done].
    + rewrite Htr, Ht1, !posts_app, (posts_run delta Hd). cbn. by rewrite !app_nil_r.
    + intros _. by rewrite Hdb.
  - rewrite Hbody in Hb. injection Hb as -> <-. fold r in Hok, Hs, Hdb, Htr.
    fold found visited in Hsome, Hdb, Ht1, Htr. fold now in Hdb.
    destruct Hsome as [[i q] Hfound].
    assert (trace w1 = trace visited ++ [DbQuery; Utcnow; DbCommit; DbQuery]) as Hw1.
    { rewrite Ht1, Hfound. cbn. by rewrite <- !app_assoc. }
    split_and!; [done|done|by rewrite Htr, Ht1| |done|].
    + rewrite Htr, <- Ht1, Hw1, !posts_app. unfold visited.
      rewrite visited_posts. cbn. by rewrite !app_nil_r.
    + intros _. split_and!; [done|done|].
      exists i, q. split; [done|]. rewrite Hdb, Hfound. cbn.
      apply request_of_Some in Hfound as [Hi _].
      apply list_lookup_insert_eq. by eapply lookup_lt_Some.
  - rewrite Hbody in Hb. done.
Qed.

(** C8 at two failing runs of the job of two rows: one whose commit
    faults, after which both rows are still pending, and one whose reload
    after the commit faults, after which the request is stored completed. *)
Lemma C8_failed_run_is_rolled_back_witness :
  let env := example_env (answers 200) (Returns 200) fault_at_commit in
  let r := process_images env "uuid-a" two_rows_uploaded in
  let env' := example_env (answers 200) (Returns 200) fault_after_commit in
  let r' := process_images env' "uuid-a" two_rows_uploaded in
  (db r.2 = db two_rows_uploaded ∧
   last (trace r.2) = Some (Print (ErrorProcessingImages "uuid-a" "OperationalError")) ∧
   map Product.status (products (db r.2)) = ["pending"; "pending"] ∧
   map ProcessingRequest.status (processing_requests (db r.2)) = ["pending"]) ∧
  processing_requests (db r'.2) !! 0%nat
  = Some (ProcessingRequest.mk "uuid-a" "completed" (Some 1) (Some 15)
            (Some "http://client/hook")).
Proof.
  intros env r env' r'. split.
  - pose proof (C8_failed_run_is_rolled_back env "uuid-a" two_rows_uploaded
                  (Error "OperationalError")
                  (process_images_body env "uuid-a"
                     (with_session SessionLocal two_rows_uploaded)).2) as H.
    destruct H as (_ & _ & Htr & _ & Hbefore & _); [vm_compute; reflexivity|].
    destruct Hbefore as (Hdb & _).
    { intros (_ & _ & Hcommit). vm_compute in Hcommit. discriminate Hcommit. }
    fold r in Hdb, Htr. split_and!.
    + exact Hdb.
    + rewrite Htr. apply last_snoc.
    + by rewrite Hdb.
    + by rewrite Hdb.
  - pose proof (C8_failed_run_is_rolled_back env' "uuid-a" two_rows_uploaded
                  (Error "OperationalError")
                  (process_images_body env' "uuid-a"
                     (with_session SessionLocal two_rows_uploaded)).2) as H.
    destruct H as (_ & _ & _ & _ & _ & Hafter); [vm_compute; reflexivity|].
    destruct Hafter as (_ & _ & i & q & Hfound & Hrow).
    { split_and!; vm_compute; reflexivity. }
    assert (i = 0%nat ∧ q = ProcessingRequest.mk "uuid-a" "pending" (Some 1) None
                              (Some "http://client/hook")) as [-> ->].
    { vm_compute in Hfound. by injection Hfound as <- <-. }
    fold r' in Hrow. rewrite Hrow. vm_compute. reflexivity.
Defined.

Lemma webhook_posts env request_id r h :
  posts (webhook_events env request_id (Some r) h)
  = match ProcessingRequest.callback_url r with
    | Some url => if Py.truthy url
                  then [RequestsPost url (webhook_payload request_id) 5] else []
    | None => []
    end.
Proof.
  unfold webhook_events. destruct (ProcessingRequest.callback_url r) as [url|]; [|done].
  destruct (Py.truthy url); [|done]. unfold posts. cbn. f_equal.
  destruct (env_requests_post env h url) as [code|]; [|done].
  by destruct ((code <? 200) || (300 <=? code)).
Qed.

(** C9, as the claim states it, fails: the run of the job of two rows,
    whose request has a callback URL, in which the database faults at the
    reload of the request that follows the commit. The job is marked
    completed, and stored so, yet the run makes no POST at all. *)
Lemma C9_counterexample :
  let env := example_env (answers 200) (Returns 200) fault_after_commit in
  let w' := (process_images env "uuid-a" two_rows_uploaded).2 in
  processing_requests (db w')
  = [ProcessingRequest.mk "uuid-a" "completed" (Some 1) (Some 15)
       (Some "http://client/hook")] ∧
  posts (trace w') = [].
Proof. cbn zeta. split; vm_compute; reflexivity. Qed.

(** C9, amended. After a run has committed the completion of its request,
    the request is persisted with status "completed", whatever happens
    next, and the task never raises. The request is then loaded again
    from the database for the test of its [callback_url]. When that
    reload is answered: if the [callback_url] is set and not empty, the
    run makes exactly one POST to it, carrying [request_id] and status
    "completed" with timeout 5, and the last event of the run is that POST
    when it is answered 2xx, a printed line with the status code when it
    is answered otherwise, a printed line with the error when it raises;
    if there is no callback, the run makes no POST at all. When the reload
    faults, the run makes no POST and ends with the printed error. *)
Theorem C9_webhook_once_best_effort env request_id w i r :
  run_commits env request_id w →
  request_of request_id (db w) = Some (i, r) →
  let visited :=
    midflight env request_id (length (products_of request_id (db w))) w in
  let now := env_utcnow env (trace visited ++ [DbQuery]) in
  let h5 := trace visited ++ [DbQuery; Utcnow; DbCommit] in
  let h6 := h5 ++ [DbQuery] in
  let w' := (process_images env request_id w).2 in
  (process_images env request_id w).1 = Ok tt ∧
  (∃ r', processing_requests (db w') !! i = Some r' ∧
         ProcessingRequest.request_id r' = request_id ∧
         ProcessingRequest.status r' = "completed" ∧
         ProcessingRequest.completed_at r' = Some now) ∧
  match env_db_fault env h5 with
  | Some e =>
      posts (trace w') = posts (trace w) ∧
      trace w' = h6 ++ [Print (ErrorProcessingImages request_id e)]
  | None =>
      (has_callback r →
       ∃ url, ProcessingRequest.callback_url r = Some url ∧
         posts (trace w')
         = posts (trace w)
             ++ [RequestsPost url [("request_id", request_id); ("status", "completed")] 5] ∧
         last (trace w')
         = Some match env_requests_post env h6 url with
                | Returns code =>
                    if (code <? 200) || (300 <=? code)
                    then Print (WebhookCallFailed code)
                    else RequestsPost url
                           [("request_id", request_id); ("status", "completed")] 5
                | Raises err => Print (ErrorCallingWebhook request_id err)
                end) ∧
      (¬ has_callback r → posts (trace w') = posts (trace w) ∧ trace w' = h6)
  end.
Proof.
  intros Hcommits Hfound visited now h5 h6 w'.
  assert (((trace visited ++ [DbQuery]) ++ [Utcnow]) ++ [DbCommit] = h5) as Hh5.
  { unfold h5. by rewrite <- !app_assoc. }
  assert (posts h6 = posts (trace w)) as Hposts.
  { unfold h6, h5, visited. rewrite !posts_app, visited_posts. cbn.
    by rewrite !app_nil_r. }
  assert (∀ d, d = committed_db (Some (i, r)) now
                     (dirty_products (session visited)) (db w) →
               ∃ r', processing_requests d !! i = Some r' ∧
                     ProcessingRequest.request_id r' = request_id ∧
                     ProcessingRequest.status r' = "completed" ∧
                     ProcessingRequest.completed_at r' = Some now) as Hrow.
  { intros d ->. exists (completed now r). cbn.
    apply request_of_Some in Hfound as [Hi Hrid].
    rewrite list_lookup_insert_eq by (by eapply lookup_lt_Some). done. }
  destruct (process_images_outcome env request_id w)
    as (Hok & _ & _ & _ & [(e' & w1' & delta & _ & _ & _ & _ & _ & Hnot)
                           |[(e' & w1' & _ & _ & _ & Hf5 & Hdb & _ & Htr)
                            |(w1' & _ & _ & Hf5 & Hdb & Htr)]]);
    [done|..];
    fold visited in Hf5, Hdb, Htr; fold now in Hdb, Htr; fold w' in Hdb, Htr;
    rewrite Hfound in Hf5, Hdb, Htr; cbn [reread option_map snd] in Hf5, Htr;
    rewrite Hh5 in Hf5, Htr; fold h6 in Htr.
  - split_and!; [exact Hok|by apply Hrow|]. rewrite Hf5. split; [|done].
    rewrite Htr, posts_app, Hposts. cbn. by rewrite app_nil_r.
  - split_and!; [exact Hok|by apply Hrow|]. rewrite Hf5 by done.
    change (webhook_events env request_id (Some (completed now r)) h6)
      with (webhook_events env request_id (Some r) h6) in Htr.
    split.
    + intros (url & Hurl & Hne). exists url. split; [done|].
      rewrite Htr, posts_app, Hposts, webhook_posts, Hurl.
      unfold webhook_events, webhook_payload. rewrite Hurl.
      destruct url as [|c url]; [done|]. cbn [Py.truthy]. split; [done|].
      destruct (env_requests_post env h6 (String c url)) as [code|err].
      * destruct ((code <? 200) || (300 <=? code)).
        -- by rewrite last_app.
        -- by rewrite last_snoc.
      * by rewrite last_app.
    + intros Hno. rewrite Htr, posts_app, Hposts, webhook_posts.
      unfold webhook_events.
      destruct (ProcessingRequest.callback_url r) as [url|] eqn:Hurl;
        [|by rewrite !app_nil_r].
      destruct url as [|c url]; [by rewrite !app_nil_r|].
      destruct Hno. by exists (String c url).
Qed.

(** C9 at a callback that cannot be reached: one POST, one printed line,
    and the request completed. *)
Lemma C9_webhook_once_best_effort_witness :
  let env := example_env (answers 200) (Raises "ConnectionError") no_fault in
  let w' := (process_images env "uuid-a" two_rows_uploaded).2 in
  (∃ r', processing_requests (db w') !! 0%nat = Some r' ∧
         ProcessingRequest.status r' = "completed") ∧
  posts (trace w')
  = [RequestsPost "http://client/hook"
       [("request_id", "uuid-a"); ("status", "completed")] 5] ∧
  last (trace w') = Some (Print (ErrorCallingWebhook "uuid-a" "ConnectionError")).
Proof.
  intros env w'.
  pose proof (C9_webhook_once_best_effort env "uuid-a" two_rows_uploaded
                0%nat
                (ProcessingRequest.mk "uuid-a" "pending" (Some 1) None
                   (Some "http://client/hook"))) as H.
  destruct H as (_ & (r' & Hr' & _ & Hst & _) & Hweb);
    [split_and!; vm_compute; reflexivity|vm_compute; reflexivity|].
  cbn [env_db_fault example_env no_fault] in Hweb. destruct Hweb as [Hcb _].
  destruct Hcb as (url & Hurl & Hposts & Hlast).
  { exists "http://client/hook". split; [reflexivity|discriminate]. }
  injection Hurl as <-. fold w' in Hr', Hposts, Hlast. split_and!.
  - exists r'. split; [exact Hr'|exact Hst].
  - exact Hposts.
  - exact Hlast.
Defined.

(* ===================================================================== *)
(** ** C6: the header *)
(* ===================================================================== *)

Example normalize_examples :
  map normalize ["S. No"; " Product-Name "; "InputImageURLs"] = expected_header.
Proof. reflexivity. Qed.

(** The header check of [upload_csv]: given the content type, the first
    record is accepted exactly when it normalizes to the expected header. *)
Lemma header_accepted_iff env header rows webhook_url w :
  http_status (upload_csv env "text/csv" (header :: rows) webhook_url w).1 ≠ 400
  ↔ map normalize header = expected_header ∧ Forall three_fields rows.
Proof.
  split.
  - intros Hst. destruct (valid_upload_cases "text/csv" (header :: rows))
      as [(_ & h & r & [= <- <-] & ? & ?)|Hbad]; [done|].
    destruct (upload_csv_rejected env _ _ webhook_url w Hbad) as (? & ? & Heq & _).
    rewrite Heq in Hst. by destruct Hst.
  - intros [Hh Hr]. destruct (upload_csv_valid env header rows webhook_url w Hh Hr)
      as [Hok Hfail].
    destruct (decide (commit_succeeds env w)) as [Hc|Hc].
    + by rewrite (Hok Hc).
    + by rewrite (Hfail Hc).
Qed.

(** [normalize] and its docstring agree on every text without an
    underscore. *)
Lemma normalize_as_documented_without_underscore text :
  has_underscore text = false → normalize text = normalize_as_documented text.
Proof.
  unfold normalize, normalize_as_documented. intros Hno. f_equal.
  induction text as [|c text IH]; [done|]. cbn in *.
  apply orb_false_iff in Hno as [Hc Hrest]. unfold Py.is_word. rewrite Hc, orb_false_r.
  destruct (Py.isalnum c); by rewrite IH.
Qed.

(** C6, where the code departs from the claim and from the docstring of
    [normalize]. The header [S_No,Product_Name,Input_Image_Urls] becomes the
    expected columns once every non-alphanumeric character is removed and
    the rest lowercased, so the claim accepts it; [normalize] keeps the
    underscore, which [\W] does not match, and the upload is answered 400
    in every environment, whatever rows follow. *)
Theorem C6_underscore_header_rejected :
  let header := ["S_No"; "Product_Name"; "Input_Image_Urls"] in
  map normalize_as_documented header = expected_header ∧
  map normalize header = ["s_no"; "product_name"; "input_image_urls"] ∧
  ∀ env rows webhook_url w,
    http_status (upload_csv env "text/csv" (header :: rows) webhook_url w).1 = 400.
Proof.
  intros header. split; [reflexivity|]. split; [reflexivity|].
  intros env rows webhook_url w.
  destruct (upload_csv_rejected env "text/csv" (header :: rows) webhook_url w)
    as (detail & w' & -> & _); [|done].
  intros (_ & h & r & [= <- <-] & Hh & _). discriminate Hh.
Qed.

(* ===================================================================== *)
(** ** C7: the upload writes all or nothing *)
(* ===================================================================== *)

(** C7. An upload with a data row that does not have exactly three fields
    is answered 400 and leaves the committed tables as they were: its
    session is closed with what was staged, and no commit is attempted (the
    trace grows by at most the UUID generation). A well-formed upload of N
    data rows whose commit goes through is answered 200 and adds exactly
    one request, with status "pending", and exactly N products, one per
    row in order, each with status "pending"; when its commit does not go
    through it is answered 500 and nothing is added. *)
Theorem C7_upload_all_or_nothing env content_type header rows webhook_url w :
  let r := upload_csv env content_type (header :: rows) webhook_url w in
  let request_id := env_uuid4 env (trace w) in
  let now := env_db_now env (trace w ++ [Uuid4]) in
  (¬ Forall three_fields rows →
   http_status r.1 = 400 ∧ db r.2 = db w ∧ session r.2 = SessionLocal ∧
   (trace r.2 = trace w ∨ trace r.2 = trace w ++ [Uuid4])) ∧
  (valid_upload content_type (header :: rows) → commit_succeeds env w →
   ∃ added,
     r.1 = Ok (mkUploadResponse request_id "CSV file uploaded and processing started.") ∧
     processing_requests (db r.2)
     = processing_requests (db w)
         ++ [ProcessingRequest.mk request_id "pending" (Some now) None webhook_url] ∧
     products (db r.2) = products (db w) ++ added ∧
     added = map (new_product request_id) rows ∧
     length added = length rows ∧
     Forall (λ p, Product.status p = "pending" ∧ Product.request_id p = request_id) added) ∧
  (valid_upload content_type (header :: rows) → ¬ commit_succeeds env w →
   http_status r.1 = 500 ∧ db r.2 = db w).
Proof.
  intros r request_id now. split_and!.
  - intros Hrows.
    destruct (upload_csv_rejected env content_type (header :: rows) webhook_url w)
      as (detail & w' & Heq & Hdb & Hs & _ & _ & Htr).
    { intros (_ & h & rs & [= <- <-] & _ & ?). done. }
    subst r. rewrite Heq. done.
  - intros (-> & h & rs & [= <- <-] & Hh & Hrows) Hc.
    destruct (upload_csv_valid env header rows webhook_url w Hh Hrows) as [Hok _].
    subst r. rewrite (Hok Hc). cbn.
    eexists. split_and!; try done.
    + by rewrite length_map.
    + clear. induction rows; cbn; by constructor.
  - intros (-> & h & rs & [= <- <-] & Hh & Hrows) Hc.
    destruct (upload_csv_valid env header rows webhook_url w Hh Hrows) as [_ Hfail].
    subst r. by rewrite (Hfail Hc).
Qed.

(** C7 at an upload with a row of two fields, and at one of two good rows. *)
Lemma C7_upload_all_or_nothing_witness :
  let env := example_env (answers 200) (Returns 200) no_fault in
  let short := upload_csv env "text/csv" [example_header; ["1"; "Widget"]] None initial in
  let good :=
    upload_csv env "text/csv"
      [example_header; ["1"; "Widget"; "http://host/a.png"]; ["2"; "Gadget"; ""]]
      None initial in
  (http_status short.1 = 400 ∧ db short.2 = db initial) ∧
  (processing_requests (db good.2)
   = [ProcessingRequest.mk "uuid-a" "pending" (Some 1) None None] ∧
   products (db good.2)
   = [Product.mk "uuid-a" "1" "Widget" "http://host/a.png" None "pending";
      Product.mk "uuid-a" "2" "Gadget" "" None "pending"]).
Proof.
  intros env short good. split.
  - destruct (proj1 (C7_upload_all_or_nothing env "text/csv" example_header
                       [["1"; "Widget"]] None initial)) as (H400 & Hdb & _).
    { intros Hall. inversion Hall as [|? ? Hrow _]. discriminate Hrow. }
    split; [exact H400|exact Hdb].
  - destruct (proj1 (proj2 (C7_upload_all_or_nothing env "text/csv" example_header
                       [["1"; "Widget"; "http://host/a.png"]; ["2"; "Gadget"; ""]]
                       None initial)))
      as (added & _ & Hreq & Hprod & Hadded & _).
    { split; [reflexivity|]. eexists _, _. split; [reflexivity|].
      split; [reflexivity|]. repeat constructor. }
    { split; [reflexivity|]. cbn. apply not_elem_of_nil. }
    subst added. split; [exact Hreq|exact Hprod].
Defined.

(* ===================================================================== *)
(** ** C10: the nullable column *)
(* ===================================================================== *)

(** C10. In every reachable world a product has [output_image_urls] null
    exactly when its status is "pending", that is while no run has
    processed it, and set exactly when its status is "processed". The row
    processor stages the product with [output_image_urls] the comma-join
    of the references that came out, which is the empty string, not null,
    when none did. The status query reports the column as it is, so the two
    cases differ there, and the artifact writer writes the null case as an
    empty field. *)
Theorem C10_output_null_iff_unprocessed :
  (∀ w, reachable w →
     ∀ p, p ∈ products (db w) →
       (Product.output_image_urls p = None ↔ Product.status p = "pending") ∧
       (is_Some (Product.output_image_urls p) ↔ Product.status p = "processed"))
  ∧ (∀ env (ip : nat * Product.t) w,
       let output_urls :=
         successes (attempt_each env (row_entries (Product.input_image_urls ip.2)) w).1 in
       ∃ w' staged,
         process_product env ip w = (Ok tt, w') ∧
         last (dirty_products (session w')) = Some (ip.1, staged) ∧
         Product.status staged = "processed" ∧
         Product.output_image_urls staged = Some (Py.join "," output_urls) ∧
         (output_urls = [] → Product.output_image_urls staged = Some EmptyString))
  ∧ (∀ p, pd_output_image_urls (product_data p) = Product.output_image_urls p)
  ∧ (∀ p, Product.output_image_urls p = None →
          output_record p
          = [Product.serial_number p; Product.product_name p;
             Product.input_image_urls p; EmptyString]).
Proof.
  split_and!.
  - intros w Hw p Hp. destruct (reachable_db_invariant w Hw) as [_ Hprod].
    exact (Hprod p Hp).
  - intros env ip w output_urls.
    exists (after_row env ip w), (processed output_urls ip.2).
    split; [apply process_product_run|]. unfold after_row. cbn.
    split; [apply last_snoc|]. split; [done|]. split; [done|].
    by intros ->.
  - done.
  - intros p Hnull. unfold output_record. by rewrite Hnull.
Qed.

(** C10 at a pending product of the uploaded job. *)
Lemma C10_output_null_iff_unprocessed_witness :
  let p := Product.mk "uuid-a" "2" "Gadget" "http://host/c.png" None "pending" in
  reachable two_rows_uploaded ∧ p ∈ products (db two_rows_uploaded) ∧
  (Product.output_image_urls p = None ↔ Product.status p = "pending") ∧
  output_record p = ["2"; "Gadget"; "http://host/c.png"; ""].
Proof.
  intros p.
  assert (p ∈ products (db two_rows_uploaded)) as Hp by (vm_compute; right; left).
  split_and!.
  - exact two_rows_uploaded_reachable.
  - exact Hp.
  - exact (proj1 (proj1 C10_output_null_iff_unprocessed two_rows_uploaded
                    two_rows_uploaded_reachable p Hp)).
  - exact (proj2 (proj2 (proj2 C10_output_null_iff_unprocessed)) p eq_refl).
Defined.

(* ===================================================================== *)
(** ** C5: the artifact *)
(* ===================================================================== *)

Lemma times_written_app path l1 l2 :
  times_written path (l1 ++ l2)
  = (times_written path l1 + times_written path l2)%nat.
Proof. unfold times_written. by rewrite List.filter_app, length_app. Qed.

Lemma times_written_none path delta :
  Forall (λ e, is_open e = false) delta → times_written path delta = 0%nat.
Proof.
  unfold times_written. induction 1 as [|e delta He _ IH]; [done|]. cbn.
  by destruct e.
Qed.

(** What one status query does to the files and to the trace. *)
Lemma get_status_effect env request_id w :
  let path := output_path request_id in
  let w' := (get_status env request_id w).2 in
  db w' = db w ∧ session w' = SessionLocal ∧
  background_tasks w' = background_tasks w ∧
  ((files w' = files w ∧
    ∃ delta, trace w' = trace w ++ delta ∧ Forall (λ e, is_open e = false) delta)
   ∨ (files w !! path = None ∧
      files w' = <[path := CsvText (artifact_text request_id (db w))]> (files w) ∧
      trace w' = trace w ++ [DbQuery; DbQuery; DbQuery] ++ [OpenForWriting path] ∧
      ∃ resp, (get_status env request_id w).1 = Ok resp ∧ sr_status resp = "completed")).
Proof.
  intros path w'. subst w'. rewrite get_status_run. fold path.
  destruct (env_db_fault env (trace w)); cbn.
  { split_and!; try done. left. split; [done|]. eexists. split; [done|]. by repeat constructor. }
  destruct (request_of request_id (db w)) as [[i r]|]; cbn.
  2:{ split_and!; try done. left. split; [done|]. eexists. split; [done|].
      by repeat constructor. }
  destruct (env_db_fault env (trace w ++ [DbQuery])); cbn.
  { split_and!; try done. left. split; [done|]. eexists.
    split; [by rewrite <- app_assoc|]. by repeat constructor. }
  destruct (decide (ProcessingRequest.status r = "completed")) as [Hc|Hc]; cbn.
  2:{ split_and!; try done. left. split; [done|]. eexists.
      split; [by rewrite <- app_assoc|]. by repeat constructor. }
  case_bool_decide as Hex; cbn.
  { split_and!; try done. left. split; [done|]. eexists.
    split; [by rewrite <- app_assoc|]. by repeat constructor. }
  destruct (env_db_fault env ((trace w ++ [DbQuery]) ++ [DbQuery])); cbn.
  { split_and!; try done. left. split; [done|]. eexists.
    split; [by rewrite <- !app_assoc|]. by repeat constructor. }
  split_and!; try done. right. split_and!.
  - by apply eq_None_not_Some.
  - done.
  - by rewrite <- !app_assoc.
  - eexists. split; [done|]. done.
Qed.

Lemma webhook_events_not_open env request_id pr h :
  Forall (λ e, is_open e = false) (webhook_events env request_id pr h).
Proof.
  unfold webhook_events. destruct pr as [r|]; [|constructor].
  destruct (ProcessingRequest.callback_url r) as [url|]; [|constructor].
  destruct (Py.truthy url); [|constructor]. constructor; [done|].
  destruct (env_requests_post env h url) as [code|]; [|by repeat constructor].
  destruct ((code <? 200) || (300 <=? code)); by repeat constructor.
Qed.

Lemma process_images_trace env request_id w :
  ∃ delta, trace (process_images env request_id w).2 = trace w ++ delta ∧
           Forall (λ e, is_open e = false) delta.
Proof.
  assert (∀ tail, Forall (λ e, is_open e = false) tail →
            ∃ delta,
              (((trace (midflight env request_id
                          (length (products_of request_id (db w))) w) ++ [DbQuery])
                ++ match request_of request_id (db w) with
                   | Some _ => [Utcnow]
                   | None => []
                   end) ++ [DbCommit])
              ++ reread (request_of request_id (db w)) ++ tail
              = trace w ++ delta ∧
              Forall (λ e, is_open e = false) delta) as Hafter.
  { intros tail Htail.
    destruct (midflight_frame env request_id (length (products_of request_id (db w))) w)
      as (_ & _ & _ & _ & _ & _ & _ & d2 & Hvis & Hd2).
    rewrite Hvis. eexists. rewrite <- !app_assoc. split; [done|].
    constructor; [done|]. apply Forall_app. split.
    { eapply Forall_impl; [exact Hd2|]. intros ev Hev. by destruct ev. }
    constructor; [done|]. apply Forall_app. split.
    { destruct (request_of request_id (db w)); by repeat constructor. }
    constructor; [done|]. apply Forall_app. split; [|done].
    destruct (request_of request_id (db w)); by repeat constructor. }
  destruct (process_images_outcome env request_id w)
    as (_ & _ & _ & _ & [(e & w1 & delta & _ & _ & Ht1 & Htr & Hd & _)
                        |[(e & w1 & _ & _ & _ & _ & _ & _ & Htr)
                         |(w1 & _ & _ & _ & _ & Htr)]]).
  - exists (delta ++ [Print (ErrorProcessingImages request_id e)]).
    rewrite Htr, Ht1, <- app_assoc. split; [done|].
    apply Forall_app. split; [|by repeat constructor].
    eapply Forall_impl; [exact Hd|]. intros ev Hev. by destruct ev.
  - rewrite Htr, <- app_assoc. apply Hafter. by repeat constructor.
  - rewrite Htr, <- app_assoc. apply Hafter. apply webhook_events_not_open.
Qed.

(** One step either writes no artifact and keeps the files there are, or
    writes one artifact that was not there. *)
Lemma step_artifact w w' :
  step w w' →
  (files_kept w w' ∧
   ∃ delta, trace w' = trace w ++ delta ∧ Forall (λ e, is_open e = false) delta)
  ∨ (∃ path text delta,
       files w !! path = None ∧ files w' = <[path := CsvText text]> (files w) ∧
       trace w' = trace w ++ delta ++ [OpenForWriting path] ∧
       Forall (λ e, is_open e = false) delta).
Proof.
  intros [env ct csv hook w0|env rid w0|env rid w0|rid w0].
  - left. destruct (valid_upload_cases ct csv) as [(-> & header & rows & -> & Hh & Hr)|Hbad].
    + destruct (upload_csv_valid env header rows hook w0 Hh Hr) as [Hok Hfail].
      destruct (decide (commit_succeeds env w0)) as [Hc|Hc];
        [rewrite (Hok Hc)|rewrite (Hfail Hc)]; cbn;
        (split; [by intros ?|]); eexists; (split; [done|]); by repeat constructor.
    + destruct (upload_csv_rejected env ct csv hook w0 Hbad)
        as (? & w1 & Heq & _ & _ & Hfs & _ & Htr).
      rewrite Heq. cbn. split; [intros ?; by rewrite Hfs|].
      destruct Htr as [Htr|Htr]; rewrite Htr.
      * exists []. by rewrite app_nil_r.
      * eexists. split; [done|]. by repeat constructor.
  - left. destruct (process_images_outcome env rid w0) as (_ & _ & _ & Hf & _).
    split; [exact Hf|]. apply process_images_trace.
  - destruct (get_status_effect env rid w0)
      as (_ & _ & _ & [(Hfs & delta & Htr & Hd)|(Hnone & Hfs & Htr & _)]).
    + left. split; [intros ?; by rewrite Hfs|]. by exists delta.
    + right. eexists _, _, _. split_and!; [done|done|exact Htr|by repeat constructor].
  - left. unfold download_output_csv, os_path_exists. run.
    case_match; cbn; (split; [by intros ?|]); exists []; by rewrite app_nil_r.
Qed.

Lemma artifact_invariant_step w w' :
  artifact_invariant w → step w w' → artifact_invariant w'.
Proof.
  intros Hinv [(Hf & delta & Htr & Hd)|(p & text & delta & Hnone & Hfs & Htr & Hd)]%step_artifact
         path; destruct (Hinv path) as [Hle Hex].
  - rewrite Htr, times_written_app, (times_written_none path delta Hd), Nat.add_0_r.
    split; [done|]. intros ?. by apply Hf, Hex.
  - rewrite Htr, !times_written_app, (times_written_none path delta Hd), Hfs.
    unfold times_written at 3. cbn. destruct (decide (p = path)) as [->|Hne].
    + rewrite bool_decide_eq_true_2 by done. cbn.
      assert (times_written path (trace w) = 0%nat) as ->.
      { destruct (times_written path (trace w)) eqn:Hn; [done|].
        destruct Hex as [? Hsome]; [lia|]. congruence. }
      split; [done|]. intros _. by rewrite lookup_insert_eq.
    + rewrite bool_decide_eq_false_2 by done. cbn. rewrite !Nat.add_0_r.
      split; [done|]. rewrite lookup_insert_ne by done. exact Hex.
Qed.

Lemma reachable_artifact_invariant w : reachable w → artifact_invariant w.
Proof.
  induction 1 as [|w w' _ IH Hstep].
  - intros path. cbn. split; [unfold times_written; cbn; lia|].
    unfold times_written. cbn. lia.
  - by eapply artifact_invariant_step.
Qed.

(** The world a status query leaves when it answers for a completed job. *)
Lemma get_status_completed env request_id w resp w1 :
  get_status env request_id w = (Ok resp, w1) →
  sr_status resp = "completed" →
  let path := output_path request_id in
  let h2 := (trace w ++ [DbQuery]) ++ [DbQuery] in
  match files w !! path with
  | Some _ => w1 = left_by (db w) (files w) h2 w
  | None =>
      w1 = left_by (db w)
             (<[path := CsvText (artifact_text request_id (db w))]> (files w))
             ((h2 ++ [DbQuery]) ++ [OpenForWriting path]) w
  end.
Proof.
  rewrite get_status_run. intros Hrun Hst path h2. fold path in Hrun.
  destruct (env_db_fault env (trace w)); [done|].
  destruct (request_of request_id (db w)) as [[i r]|]; [|done].
  destruct (env_db_fault env (trace w ++ [DbQuery])); [done|].
  destruct (decide (ProcessingRequest.status r = "completed")) as [Hc|Hc].
  2:{ by simplify_eq. }
  case_bool_decide as Hex.
  - destruct Hex as [f ->]. by simplify_eq.
  - apply eq_None_not_Some in Hex. rewrite Hex.
    fold h2 in Hrun. destruct (env_db_fault env h2); [done|]. by simplify_eq.
Qed.

(** C5. Without outside deletion, the artifact writer opens no path more
    than once in any reachable world, so the artifact of a job is written
    at most once. A
    status query that answers for a completed job checks the artifact
    first: when the file is there it writes nothing, and otherwise it
    writes it once, with the header record and then one record per product
    of the job in load order (serial number, product name, input URLs,
    output URLs or the empty field); either way the file is there
    afterwards. A second status query, in any environment, then writes
    nothing and leaves every file as the first call left it. *)
Theorem C5_artifact_generated_once :
  (∀ w, reachable w → ∀ path, (times_written path (trace w) ≤ 1)%nat)
  ∧ (∀ env1 env2 request_id w resp1 w1,
       get_status env1 request_id w = (Ok resp1, w1) →
       sr_status resp1 = "completed" →
       let path := output_path request_id in
       let w2 := (get_status env2 request_id w1).2 in
       match files w !! path with
       | Some _ =>
           files w1 = files w ∧
           times_written path (trace w1) = times_written path (trace w)
       | None =>
           files w1
           = <[path := CsvText
                 (concat_strings
                    (map csv_writerow
                       (["S. No"; "Product Name"; "Input Image Urls"; "Output Image Urls"]
                        :: map (λ ip : nat * Product.t,
                                  [Product.serial_number ip.2;
                                   Product.product_name ip.2;
                                   Product.input_image_urls ip.2;
                                   default EmptyString (Product.output_image_urls ip.2)])
                               (products_of request_id (db w)))))]> (files w) ∧
           times_written path (trace w1) = S (times_written path (trace w))
       end ∧
       is_Some (files w1 !! path) ∧
       sr_output_csv_link resp1 = Some ("/download/" +:+ request_id) ∧
       files w2 = files w1 ∧
       times_written path (trace w2) = times_written path (trace w1)).
Proof.
  split.
  - intros w Hw path. by destruct (reachable_artifact_invariant w Hw path).
  - intros env1 env2 rid w resp1 w1 Hfirst Hcompleted path w2.
    assert (sr_output_csv_link resp1 = Some ("/download/" +:+ rid)) as Hlink.
    { destruct (get_status_ok _ _ _ _ _ Hfirst) as (i & r & _ & ->).
      cbn in *. by rewrite decide_True. }
    assert (match files w !! path with
            | Some _ => files w1 = files w ∧
                        times_written path (trace w1) = times_written path (trace w)
            | None => files w1 = <[path := CsvText (artifact_text rid (db w))]> (files w) ∧
                      times_written path (trace w1) = S (times_written path (trace w))
            end) as Hcase.
    { pose proof (get_status_completed _ _ _ _ _ Hfirst Hcompleted) as Hw1.
      cbn zeta in Hw1. fold path in Hw1.
      destruct (files w !! path) as [f|]; subst w1; cbn; (split; [done|]);
        unfold times_written; rewrite !List.filter_app, !length_app; cbn.
      - lia.
      - rewrite bool_decide_eq_true_2 by done. cbn. lia. }
    assert (is_Some (files w1 !! path)) as Hthere.
    { destruct (files w !! path) as [f|] eqn:Hf; destruct Hcase as [-> _].
      - by rewrite Hf.
      - by rewrite lookup_insert_eq. }
    split_and!; [exact Hcase|exact Hthere|exact Hlink| |].
    + destruct (get_status_effect env2 rid w1)
        as (_ & _ & _ & [(Hfs & _)|(Hnone & _)]); [done|].
      fold path in Hnone. rewrite Hnone in Hthere. by destruct Hthere.
    + destruct (get_status_effect env2 rid w1)
        as (_ & _ & _ & [(_ & delta & Htr & Hd)|(Hnone & _)]).
      * fold w2 in Htr. by rewrite Htr, times_written_app, (times_written_none _ _ Hd).
      * fold path in Hnone. rewrite Hnone in Hthere. by destruct Hthere.
Qed.

Example csv_writerow_quotes :
  csv_writerow ["1"; "Widget"; "http://host/a.png, http://host/b.png"; ""]
  = "1,Widget," +:+ String dquote "http://host/a.png, http://host/b.png"
      +:+ String dquote "," +:+ CRLF.
Proof. reflexivity. Qed.

(** C5 at two status queries after the run of the job of two rows. *)
Lemma C5_artifact_generated_once_witness :
  let env := example_env (answers 200) (Returns 200) no_fault in
  let w := (process_images env "uuid-a" two_rows_uploaded).2 in
  let first := get_status env "uuid-a" w in
  let second := get_status env "uuid-a" first.2 in
  files w !! "output/uuid-a_output.csv" = None ∧
  is_Some (files first.2 !! "output/uuid-a_output.csv") ∧
  times_written "output/uuid-a_output.csv" (trace first.2) = 1%nat ∧
  times_written "output/uuid-a_output.csv" (trace second.2) = 1%nat ∧
  files second.2 = files first.2.
Proof.
  intros env w first second.
  set (r := ProcessingRequest.mk "uuid-a" "completed" (Some 1) (Some 15)
              (Some "http://client/hook")).
  assert (get_status env "uuid-a" w = (Ok (status_response "uuid-a" (db w) r), first.2))
    as Hfirst by (vm_compute; reflexivity).
  pose proof (proj2 C5_artifact_generated_once env env "uuid-a" w _ _ Hfirst eq_refl) as H.
  cbn zeta in H. destruct H as (Hcase & Hthere & _ & Hfiles & Htimes).
  assert (files w !! output_path "uuid-a" = None) as Hnone by (vm_compute; reflexivity).
  rewrite Hnone in Hcase. destruct Hcase as [_ Hone].
  assert (times_written (output_path "uuid-a") (trace w) = 0%nat) as Hzero
    by (vm_compute; reflexivity).
  rewrite Hzero in Hone. rewrite Hone in Htimes.
  split_and!; [exact Hnone|exact Hthere|exact Hone|exact Htimes|exact Hfiles].
Defined.

(* ===================================================================== *)
(** ** The scenarios of the specification, run through the model *)
(* ===================================================================== *)

(** A row of three URLs of which the second fails: two outputs, in the
    order of the successful fetches. *)
Example row_output_cardinality :
  let env := example_env (answers_but "http://host/b.png") (Returns 200) no_fault in
  let product := Product.mk "job" "1" "Widget"
                   "http://host/a.png,http://host/b.png, http://host/c.png" None "pending" in
  dirty_products (session (process_product env (0%nat, product) initial).2)
  = [(0%nat, Product.mk "job" "1" "Widget"
               "http://host/a.png,http://host/b.png, http://host/c.png"
               (Some "/processed_images/uuid-b.jpg,/processed_images/uuid-g.jpg")
               "processed")].
Proof. reflexivity. Qed.

(** One row uploaded, processed and queried: the job is completed with one
    output, and the artifact holds the header and one record. *)
Example end_to_end :
  let env := example_env (answers 200) (Returns 200) no_fault in
  let uploaded :=
    upload_csv env "text/csv"
      [["S. No"; "Product Name"; "Input Image Urls"]; ["1"; "Widget"; "https://a/img.jpg"]]
      None initial in
  let processed := process_images env "uuid-a" uploaded.2 in
  let status := get_status env "uuid-a" processed.2 in
  uploaded.1 = Ok (mkUploadResponse "uuid-a" "CSV file uploaded and processing started.") ∧
  status.1
  = Ok (mkStatusResponse "uuid-a" "completed" (Some 1) (Some 8) None
          [mkProductData "1" "Widget" "https://a/img.jpg"
             (Some "/processed_images/uuid-e.jpg") "processed"]
          (Some "/download/uuid-a")) ∧
  files status.2 !! "output/uuid-a_output.csv"
  = Some (CsvText ("S. No,Product Name,Input Image Urls,Output Image Urls" +:+ CRLF
                   +:+ "1,Widget,https://a/img.jpg,/processed_images/uuid-e.jpg" +:+ CRLF)) ∧
  (download_output_csv "uuid-a" status.2).1 = Ok "output/uuid-a_output.csv".
Proof. cbn zeta. split_and!; vm_compute; reflexivity. Qed.

(* ===================================================================== *)
(** ** Further properties of the code: texts *)
(* ===================================================================== *)

Lemma lstrip_starts s : starts_with_space (Py.lstrip s) = false.
Proof.
  induction s as [|c s IH]; [done|]. cbn.
  destruct (Py.isspace c) eqn:Hc; [exact IH|]. cbn. exact Hc.
Qed.

Lemma rstrip_ends s : ends_with_space (Py.rstrip s) = false.
Proof.
  induction s as [|c s IH]; [done|]. cbn.
  destruct (Py.rstrip s) as [|d r] eqn:Hr.
  - destruct (Py.isspace c) eqn:Hc; [done|]. cbn. exact Hc.
  - exact IH.
Qed.

Lemma rstrip_starts s :
  starts_with_space s = false → starts_with_space (Py.rstrip s) = false.
Proof.
  destruct s as [|c s]; [done|]. cbn. intros Hc.
  destruct (Py.rstrip s); [by rewrite Hc|done].
Qed.

Lemma lstrip_id s : starts_with_space s = false → Py.lstrip s = s.
Proof. destruct s as [|c s]; [done|]. cbn. by intros ->. Qed.

Lemma rstrip_id s : ends_with_space s = false → Py.rstrip s = s.
Proof.
  induction s as [|c s IH]; [done|]. destruct s as [|d s].
  - cbn. by intros ->.
  - intros Hend. change (ends_with_space (String d s) = false) in Hend.
    change (Py.rstrip (String c (String d s)))
      with (match Py.rstrip (String d s) with
            | EmptyString => if Py.isspace c then EmptyString else String c EmptyString
            | r => String c r
            end).
    by rewrite (IH Hend).
Qed.

Lemma strip_stripped s :
  starts_with_space (Py.strip s) = false ∧ ends_with_space (Py.strip s) = false.
Proof.
  unfold Py.strip. split; [apply rstrip_starts, lstrip_starts|apply rstrip_ends].
Qed.

Lemma strip_idempotent s : Py.strip (Py.strip s) = Py.strip s.
Proof.
  destruct (strip_stripped s) as [Hs He].
  unfold Py.strip at 1. by rewrite (lstrip_id _ Hs), (rstrip_id _ He).
Qed.

Lemma lstrip_has_char c s : has_char c s = false → has_char c (Py.lstrip s) = false.
Proof.
  induction s as [|d s IH]; [done|]. cbn. intros [Hd Hs]%orb_false_iff.
  destruct (Py.isspace d); [by apply IH|]. cbn. by rewrite Hd, Hs.
Qed.

Lemma rstrip_has_char c s : has_char c s = false → has_char c (Py.rstrip s) = false.
Proof.
  induction s as [|d s IH]; [done|]. cbn. intros [Hd Hs]%orb_false_iff.
  specialize (IH Hs). destruct (Py.rstrip s) as [|e r].
  - destruct (Py.isspace d); [done|]. cbn. by rewrite Hd.
  - cbn in *. by rewrite Hd, IH.
Qed.

Lemma strip_has_char c s : has_char c s = false → has_char c (Py.strip s) = false.
Proof. intros ?. by apply rstrip_has_char, lstrip_has_char. Qed.

Lemma split_not_nil sep s : Py.split sep s ≠ [].
Proof.
  destruct s as [|c s]; [done|]. cbn. case_decide; [done|].
  by destruct (Py.split sep s).
Qed.

Lemma split_pieces sep s : Forall (λ x, has_char sep x = false) (Py.split sep s).
Proof.
  induction s as [|c s IH]; [by repeat constructor|]. cbn.
  case_decide as Hc; [by constructor|].
  destruct (Py.split sep s) as [|x xs]; [constructor; [|done]; cbn|].
  - by rewrite bool_decide_eq_false_2.
  - inversion IH as [|? ? Hx Hxs]; subst. constructor; [|done]. cbn.
    by rewrite bool_decide_eq_false_2.
Qed.

Lemma join_split sep s : Py.join (String sep EmptyString) (Py.split sep s) = s.
Proof.
  induction s as [|c s IH]; [done|]. cbn.
  pose proof (split_not_nil sep s) as Hne.
  destruct (Py.split sep s) as [|x xs] eqn:Hsplit; [done|].
  case_decide as Hc.
  - subst c. change (Py.join (String sep "") ("" :: x :: xs))
      with (String sep (Py.join (String sep "") (x :: xs))). by rewrite IH.
  - rewrite <- IH. by destruct xs.
Qed.

Lemma split_without_sep sep x : has_char sep x = false → Py.split sep x = [x].
Proof.
  induction x as [|c x IH]; [done|]. cbn. intros [Hc Hx]%orb_false_iff.
  apply bool_decide_eq_false in Hc. rewrite decide_False by done. by rewrite (IH Hx).
Qed.

Lemma split_app_sep sep x rest :
  has_char sep x = false →
  Py.split sep (x +:+ String sep rest) = x :: Py.split sep rest.
Proof.
  induction x as [|c x IH].
  - intros _. change ("" +:+ String sep rest) with (String sep rest). cbn.
    by rewrite decide_True.
  - cbn. intros [Hc Hx]%orb_false_iff. apply bool_decide_eq_false in Hc.
    change (String c x +:+ String sep rest) with (String c (x +:+ String sep rest)).
    cbn. rewrite decide_False by done. by rewrite (IH Hx).
Qed.

Lemma split_join sep l :
  l ≠ [] → Forall (λ x, has_char sep x = false) l →
  Py.split sep (Py.join (String sep EmptyString) l) = l.
Proof.
  intros Hne Hall. induction Hall as [|x l Hx Hl IH]; [done|].
  destruct l as [|y l]; [by apply split_without_sep|].
  change (Py.join (String sep "") (x :: y :: l))
    with (x +:+ String sep (Py.join (String sep "") (y :: l))).
  rewrite split_app_sep by done. by rewrite IH.
Qed.

(** X15. The two comma-joined columns, read back. Joining the pieces of a
    split gives the text back, so the stored [input_image_urls] loses
    nothing when the run splits it. Splitting the [output_image_urls] of a
    processed product gives its references back when there is at least one
    and none holds a comma; with no reference at all the stored text is
    empty and splits into one empty entry, not into none. *)
Theorem X15_comma_columns_round_trip :
  (∀ s, Py.join "," (Py.split "," s) = s)
  ∧ (∀ urls p,
       urls ≠ [] → Forall (λ u, has_char "," u = false) urls →
       Py.split "," <$> Product.output_image_urls (processed urls p) = Some urls)
  ∧ (∀ p, Py.split "," <$> Product.output_image_urls (processed [] p)
          = Some [EmptyString]).
Proof.
  split_and!.
  - intros s. apply (join_split ","%char).
  - intros urls p Hne Hall. cbn. f_equal. by apply (split_join ","%char).
  - done.
Qed.

(** X15 at two references. *)
Lemma X15_comma_columns_round_trip_witness :
  let p := Product.mk "job" "1" "Widget" "http://host/a.png" None "pending" in
  Py.split "," <$> Product.output_image_urls
                     (processed ["/processed_images/a.jpg"; "/processed_images/b.jpg"] p)
  = Some ["/processed_images/a.jpg"; "/processed_images/b.jpg"].
Proof.
  intros p.
  apply (proj1 (proj2 X15_comma_columns_round_trip)); [done|].
  repeat constructor.
Defined.

Lemma row_entries_clean s : Forall clean_entry (row_entries s).
Proof.
  unfold row_entries. apply Forall_forall. intros e He.
  apply list_elem_of_In, List.filter_In in He as [He Htruthy].
  apply in_map_iff in He as (x & <- & Hx).
  pose proof (split_pieces ","%char s) as Hpieces.
  rewrite Forall_forall in Hpieces. apply list_elem_of_In in Hx.
  split_and!.
  - intros Heq. by rewrite Heq in Htruthy.
  - apply strip_idempotent.
  - apply strip_has_char. by apply Hpieces.
Qed.

(** X16. Every URL the row processor requests is a clean entry: it is not
    empty, it has no white space at either end, and it holds no comma,
    whatever the stored [input_image_urls] looks like. *)
Theorem X16_requested_urls_are_clean env (ip : nat * Product.t) w :
  ∃ w' delta,
    process_product env ip w = (Ok tt, w') ∧
    trace w' = trace w ++ delta ∧
    Forall (λ url, url ≠ EmptyString ∧ Py.strip url = url ∧ has_char "," url = false)
           (gets delta).
Proof.
  destruct (attempt_each_frame env (row_entries (Product.input_image_urls ip.2)) w)
    as (_ & _ & _ & _ & delta & Ht & Hg & _).
  exists (after_row env ip w), (delta ++ [Sleep 500]).
  split; [apply process_product_run|]. unfold after_row. cbn. rewrite Ht. split.
  - by rewrite <- app_assoc.
  - unfold gets in *. rewrite omap_app, Hg. cbn. rewrite app_nil_r.
    apply row_entries_clean.
Qed.

Lemma string_app_cons c a b : String c a +:+ b = String c (a +:+ b).
Proof. reflexivity. Qed.


(* ===================================================================== *)
(** ** Further properties of the code: the upload *)
(* ===================================================================== *)

(** What an accepted upload was and did. *)
Lemma upload_csv_ok env content_type csv_reader webhook_url w resp w' :
  upload_csv env content_type csv_reader webhook_url w = (Ok resp, w') →
  ∃ header rows,
    content_type = "text/csv" ∧ csv_reader = header :: rows ∧
    map normalize header = expected_header ∧ Forall three_fields rows ∧
    commit_succeeds env w ∧
    resp = mkUploadResponse (env_uuid4 env (trace w))
             "CSV file uploaded and processing started." ∧
    w' = mkWorld
           (mkDatabase
              (processing_requests (db w)
                 ++ [new_job (env_uuid4 env (trace w)) webhook_url
                       (env_db_now env (trace w ++ [Uuid4]))])
              (products (db w) ++ map (new_product (env_uuid4 env (trace w))) rows))
           SessionLocal (files w) (trace w ++ [Uuid4; DbCommit])
           (background_tasks w ++ [env_uuid4 env (trace w)]).
Proof.
  intros Hrun.
  destruct (valid_upload_cases content_type csv_reader)
    as [(-> & header & rows & -> & Hh & Hr)|Hbad].
  - destruct (upload_csv_valid env header rows webhook_url w Hh Hr) as [Hok Hfail].
    destruct (decide (commit_succeeds env w)) as [Hc|Hc].
    + rewrite (Hok Hc) in Hrun. injection Hrun as <- <-. by exists header, rows.
    + by rewrite (Hfail Hc) in Hrun.
  - destruct (upload_csv_rejected env _ _ webhook_url w Hbad) as (? & ? & Heq & _).
    by rewrite Heq in Hrun.
Qed.

(** What a refused upload left behind. *)
Lemma upload_csv_raise env content_type csv_reader webhook_url w e w' :
  upload_csv env content_type csv_reader webhook_url w = (Raise e, w') →
  db w' = db w ∧ session w' = SessionLocal ∧ files w' = files w ∧
  background_tasks w' = background_tasks w ∧
  ((∃ detail, e = HTTPException 400 detail)
   ∨ e = HTTPException 500 "Error saving request and product data.").
Proof.
  intros Hrun.
  destruct (valid_upload_cases content_type csv_reader)
    as [(-> & header & rows & -> & Hh & Hr)|Hbad].
  - destruct (upload_csv_valid env header rows webhook_url w Hh Hr) as [Hok Hfail].
    destruct (decide (commit_succeeds env w)) as [Hc|Hc].
    + by rewrite (Hok Hc) in Hrun.
    + rewrite (Hfail Hc) in Hrun. injection Hrun as <- <-. split_and!; try done.
      by right.
  - destruct (upload_csv_rejected env _ _ webhook_url w Hbad)
      as (detail & w1 & Heq & ? & ? & ? & ? & _).
    rewrite Heq in Hrun. injection Hrun as <- <-. split_and!; try done.
    left. by exists detail.
Qed.

Lemma world_eq w1 w2 :
  db w1 = db w2 → session w1 = session w2 → files w1 = files w2 →
  trace w1 = trace w2 → background_tasks w1 = background_tasks w2 → w1 = w2.
Proof. destruct w1, w2. cbn. by intros -> -> -> -> ->. Qed.

(** X1. The four refusals of an upload, in the order the code makes them:
    a content type other than text/csv, before anything is read; no record
    at all; a header that does not normalize to the expected one; a data
    row without exactly three fields. Each is answered 400 with its own
    detail, stages nothing that survives and schedules nothing; only the
    last one comes after the request id has been generated, so it alone
    leaves a trace. *)
Theorem X1_upload_refusals_in_order env content_type csv_reader webhook_url w :
  let r := upload_csv env content_type csv_reader webhook_url w in
  (content_type ≠ "text/csv" →
   r = (Raise (HTTPException 400 "Invalid file type. Only CSV files are accepted."),
        with_session SessionLocal w))
  ∧ (content_type = "text/csv" → csv_reader = [] →
     r = (Raise (HTTPException 400 "CSV file is empty."), with_session SessionLocal w))
  ∧ (content_type = "text/csv" →
     ∀ header rows, csv_reader = header :: rows →
       map normalize header ≠ expected_header →
       r = (Raise (HTTPException 400
              "Invalid CSV header format. Expected header: S. No, Product Name, Input Image Urls"),
            with_session SessionLocal w))
  ∧ (content_type = "text/csv" →
     ∀ header rows, csv_reader = header :: rows →
       map normalize header = expected_header →
       ¬ Forall (λ row : list string, length row = 3%nat) rows →
       r = (Raise (HTTPException 400 "CSV row does not have exactly 3 columns."),
            with_session SessionLocal (with_trace (trace w ++ [Uuid4]) w))).
Proof.
  intros r. subst r. unfold upload_csv, with_get_db, upload_csv_body, db_close.
  split_and!.
  - intros Hct. rewrite decide_True by done. run. done.
  - intros -> ->. rewrite decide_False by (intros Hne; by apply Hne). run. done.
  - intros -> header rows -> Hh. rewrite decide_False by (intros Hne; by apply Hne).
    rewrite decide_True by done. run. done.
  - intros -> header rows -> Hh Hrows.
    rewrite decide_False by (intros Hne; by apply Hne).
    rewrite decide_False by (intros Hne; by apply Hne).
    unfold uuid4, db_add_new_request. run.
    match goal with
    | |- context [for_each rows ?f ?w1] =>
        destruct (add_rows_bad (env_uuid4 env (trace w)) rows w1 Hrows)
          as (w' & -> & Hdb & Hfs & Htr & Hbt)
    end.
    f_equal. by apply world_eq.
Qed.

(** X1 at an upload of the wrong type and at one with a row of two fields. *)
Lemma X1_upload_refusals_in_order_witness :
  let env := example_env (answers 200) (Returns 200) no_fault in
  upload_csv env "application/json" [example_header; ["1"; "Widget"; "u"]] None initial
  = (Raise (HTTPException 400 "Invalid file type. Only CSV files are accepted."), initial)
  ∧ upload_csv env "text/csv" [example_header; ["1"; "Widget"]] None initial
    = (Raise (HTTPException 400 "CSV row does not have exactly 3 columns."),
       with_trace [Uuid4] initial).
Proof.
  intros env. split.
  - apply (proj1 (X1_upload_refusals_in_order env "application/json"
                    [example_header; ["1"; "Widget"; "u"]] None initial)).
    discriminate.
  - apply (proj2 (proj2 (proj2 (X1_upload_refusals_in_order env "text/csv"
                    [example_header; ["1"; "Widget"]] None initial)))
             eq_refl example_header [["1"; "Widget"]] eq_refl eq_refl).
    intros Hall. inversion Hall as [|? ? Hrow _]. discriminate Hrow.
Defined.

(** X2. An upload schedules the background task exactly when it is
    accepted: one task, for the request id it returns, which is the id of
    the pending request it has just stored and was not in the table
    before. A refused upload, 400 or 500, schedules nothing and stores
    nothing. *)
Theorem X2_task_scheduled_iff_accepted env content_type csv_reader webhook_url w :
  let r := upload_csv env content_type csv_reader webhook_url w in
  match r.1 with
  | Ok resp =>
      background_tasks r.2 = background_tasks w ++ [up_request_id resp] ∧
      (∃ now, processing_requests (db r.2)
              = processing_requests (db w)
                  ++ [ProcessingRequest.mk (up_request_id resp) "pending" (Some now)
                        None webhook_url]) ∧
      up_request_id resp
        ∉ map ProcessingRequest.request_id (processing_requests (db w))
  | Raise e =>
      background_tasks r.2 = background_tasks w ∧ db r.2 = db w ∧
      (http_status r.1 = 400 ∨ http_status r.1 = 500)
  end.
Proof.
  intros r. subst r.
  destruct (upload_csv env content_type csv_reader webhook_url w) as [[resp|e] w'] eqn:Hrun.
  - apply upload_csv_ok in Hrun
      as (header & rows & _ & _ & _ & _ & [_ Hfresh] & -> & ->).
    cbn. split_and!; [done|by eexists|done].
  - apply upload_csv_raise in Hrun as (Hdb & _ & _ & Hbt & [[detail ->]| ->]);
      cbn; split_and!; auto.
Qed.

(** X3. An accepted upload leaves the products that were there untouched
    and appends one product per data row; every appended product belongs
    to the returned request id and holds its three fields without white
    space at either end, no outputs, and status "pending". *)
Theorem X3_uploaded_fields_are_trimmed env content_type csv_reader webhook_url w resp w' :
  upload_csv env content_type csv_reader webhook_url w = (Ok resp, w') →
  take (length (products (db w))) (products (db w')) = products (db w) ∧
  S (length (drop (length (products (db w))) (products (db w')))) = length csv_reader ∧
  Forall (λ p, Product.request_id p = up_request_id resp ∧
               trimmed (Product.serial_number p) ∧
               trimmed (Product.product_name p) ∧
               trimmed (Product.input_image_urls p) ∧
               Product.output_image_urls p = None ∧
               Product.status p = "pending")
         (drop (length (products (db w))) (products (db w'))).
Proof.
  intros (header & rows & _ & -> & _ & _ & _ & -> & ->)%upload_csv_ok. cbn.
  rewrite take_app_length, drop_app_length. split_and!.
  - done.
  - by rewrite length_map.
  - induction rows as [|row rows IH]; cbn; constructor; [|exact IH].
    unfold trimmed. cbn. split_and!; try done; apply strip_stripped.
Qed.

(** X3 at an upload whose fields are padded with blanks. *)
Lemma X3_uploaded_fields_are_trimmed_witness :
  let env := example_env (answers 200) (Returns 200) no_fault in
  let r := upload_csv env "text/csv"
             [example_header; [" 1 "; "  Widget"; "http://host/a.png  "]] None initial in
  Forall (λ p, Product.request_id p = "uuid-a" ∧
               trimmed (Product.serial_number p) ∧
               trimmed (Product.product_name p) ∧
               trimmed (Product.input_image_urls p) ∧
               Product.output_image_urls p = None ∧
               Product.status p = "pending")
         (products (db r.2)).
Proof.
  intros env r.
  exact (proj2 (proj2 (X3_uploaded_fields_are_trimmed env "text/csv"
           [example_header; [" 1 "; "  Widget"; "http://host/a.png  "]] None initial
           (mkUploadResponse "uuid-a" "CSV file uploaded and processing started.")
           r.2 eq_refl))).
Defined.

(* ===================================================================== *)
(** ** Further properties of the code: the store over time *)
(* ===================================================================== *)

Lemma db_change_products d d' j p :
  db_change d d' → products d !! j = Some p →
  ∃ p', products d' !! j = Some p' ∧ (p' = p ∨ ∃ urls, p' = processed urls p).
Proof.
  intros [d0|d0 rid hook now rows Hfresh|d0 rid now staged Hst] Hj.
  - exists p. split; [done|by left].
  - exists p. split; [|by left]. cbn. by apply lookup_app_l_Some.
  - pose proof (committed_products rid d0 staged Hst) as Hps.
    destruct (Forall2_lookup_l _ _ _ _ _ Hps Hj) as (p' & Hp' & Hrel).
    exists p'. split; [done|]. unfold row_after_run in Hrel.
    case_decide; [by right|by left].
Qed.

Lemma db_change_requests d d' j r :
  db_change d d' → processing_requests d !! j = Some r →
  ∃ r', processing_requests d' !! j = Some r' ∧ (r' = r ∨ ∃ now, r' = completed now r).
Proof.
  intros [d0|d0 rid hook now rows Hfresh|d0 rid now staged Hst] Hj.
  - exists r. split; [done|by left].
  - exists r. split; [|by left]. cbn. by apply lookup_app_l_Some.
  - pose proof (committed_requests rid now d0) as Hrs.
    destruct (Forall2_lookup_l _ _ _ _ _ Hrs Hj) as (r' & Hr' & [->|[_ ->]]).
    + exists r. split; [done|by left].
    + eexists. split; [done|]. right. by exists now.
Qed.

Lemma later_ind_db (P : Database → Database → Prop) :
  (∀ d, P d d) →
  (∀ d1 d2 d3, P d1 d2 → db_change d2 d3 → P d1 d3) →
  ∀ w w', later w w' → P (db w) (db w').
Proof.
  intros Hrefl Hstep w w' Hl. apply rtc_nsteps in Hl as [n Hn]. revert w w' Hn.
  induction n as [|n IH]; intros w w' Hn.
  - inversion Hn; subst. apply Hrefl.
  - apply nsteps_inv_r in Hn as (w1 & Hn & Hs).
    eapply Hstep; [by apply IH|]. by apply step_db_change.
Qed.

(** X22. No step, and so no sequence of steps, deletes or moves a row:
    whatever is at a position of either table stays at that position, with
    its identity unchanged (for a product its request id, serial number,
    product name and input URLs; for a request its request id, creation
    time and callback URL). *)
Theorem X22_rows_are_never_deleted w w' :
  later w w' →
  (∀ j p, products (db w) !! j = Some p →
     ∃ p', products (db w') !! j = Some p' ∧
           Product.request_id p' = Product.request_id p ∧
           Product.serial_number p' = Product.serial_number p ∧
           Product.product_name p' = Product.product_name p ∧
           Product.input_image_urls p' = Product.input_image_urls p)
  ∧ (∀ j r, processing_requests (db w) !! j = Some r →
       ∃ r', processing_requests (db w') !! j = Some r' ∧
             ProcessingRequest.request_id r' = ProcessingRequest.request_id r ∧
             ProcessingRequest.created_at r' = ProcessingRequest.created_at r ∧
             ProcessingRequest.callback_url r' = ProcessingRequest.callback_url r).
Proof.
  intros Hl.
  apply (later_ind_db (λ d d',
    (∀ j p, products d !! j = Some p →
       ∃ p', products d' !! j = Some p' ∧ same_product_identity p p')
    ∧ (∀ j r, processing_requests d !! j = Some r →
         ∃ r', processing_requests d' !! j = Some r' ∧ same_request_identity r r')));
    [| |exact Hl].
  - intros d. split; intros j x Hx; exists x; by split.
  - intros d1 d2 d3 [Hp Hr] Hch. split.
    + intros j p (p2 & Hp2 & Hid)%Hp.
      destruct (db_change_products _ _ _ _ Hch Hp2) as (p3 & Hp3 & [->|[urls ->]]);
        exists p3 || eexists; (split; [done|]); [done|].
      destruct Hid as (? & ? & ? & ?). by split_and!.
    + intros j r (r2 & Hr2 & Hid)%Hr.
      destruct (db_change_requests _ _ _ _ Hch Hr2) as (r3 & Hr3 & [->|[now ->]]);
        exists r3 || eexists; (split; [done|]); [done|].
      destruct Hid as (? & ? & ?). by split_and!.
Qed.

Lemma later_one env request_id w : later w (process_images env request_id w).2.
Proof. apply rtc_once, step_process_images. Qed.

(** X22 at the first row of the uploaded job, across a run. *)
Lemma X22_rows_are_never_deleted_witness :
  let env := example_env (answers 200) (Returns 200) no_fault in
  let w' := (process_images env "uuid-a" two_rows_uploaded).2 in
  ∃ p', products (db w') !! 0%nat = Some p' ∧
        Product.request_id p' = "uuid-a" ∧ Product.serial_number p' = "1" ∧
        Product.product_name p' = "Widget" ∧
        Product.input_image_urls p' = "http://host/a.png, http://host/b.png".
Proof.
  intros env w'.
  exact (proj1 (X22_rows_are_never_deleted two_rows_uploaded w'
                  (later_one env "uuid-a" two_rows_uploaded))
           0%nat
           (Product.mk "uuid-a" "1" "Widget" "http://host/a.png, http://host/b.png"
              None "pending")
           eq_refl).
Defined.

(** X23. Status never goes back: across any sequence of steps a completed
    request stays completed and a processed product stays processed. *)
Theorem X23_status_never_goes_back w w' :
  later w w' →
  (∀ j r, processing_requests (db w) !! j = Some r →
     ProcessingRequest.status r = "completed" →
     ∃ r', processing_requests (db w') !! j = Some r' ∧
           ProcessingRequest.status r' = "completed")
  ∧ (∀ j p, products (db w) !! j = Some p →
       Product.status p = "processed" →
       ∃ p', products (db w') !! j = Some p' ∧ Product.status p' = "processed").
Proof.
  intros Hl.
  apply (later_ind_db (λ d d',
    (∀ j r, processing_requests d !! j = Some r →
       ProcessingRequest.status r = "completed" →
       ∃ r', processing_requests d' !! j = Some r' ∧
             ProcessingRequest.status r' = "completed")
    ∧ (∀ j p, products d !! j = Some p → Product.status p = "processed" →
         ∃ p', products d' !! j = Some p' ∧ Product.status p' = "processed")));
    [| |exact Hl].
  - intros d. split; intros j x Hx ?; by exists x.
  - intros d1 d2 d3 [Hr Hp] Hch. split.
    + intros j r Hj Hc. destruct (Hr j r Hj Hc) as (r2 & Hr2 & Hc2).
      destruct (db_change_requests _ _ _ _ Hch Hr2) as (r3 & Hr3 & [->|[now ->]]);
        eexists; (split; [done|]); done.
    + intros j p Hj Hc. destruct (Hp j p Hj Hc) as (p2 & Hp2 & Hc2).
      destruct (db_change_products _ _ _ _ Hch Hp2) as (p3 & Hp3 & [->|[urls ->]]);
        eexists; (split; [done|]); done.
Qed.

(** X23 at the completed job, across a second run whose commit faults. *)
Lemma X23_status_never_goes_back_witness :
  let env := example_env (answers 200) (Returns 200) no_fault in
  let bad := example_env (answers 500) (Returns 200) fault_at_commit in
  let w := (process_images env "uuid-a" two_rows_uploaded).2 in
  let w' := (process_images bad "uuid-a" w).2 in
  ∃ r', processing_requests (db w') !! 0%nat = Some r' ∧
        ProcessingRequest.status r' = "completed".
Proof.
  intros env bad w w'.
  exact (proj1 (X23_status_never_goes_back w w' (later_one bad "uuid-a" w))
           0%nat
           (ProcessingRequest.mk "uuid-a" "completed" (Some 1) (Some 15)
              (Some "http://client/hook"))
           ltac:(vm_compute; reflexivity) eq_refl).
Defined.

Lemma reachable_later w : reachable w ↔ later initial w.
Proof.
  split.
  - induction 1 as [|w w' _ IH Hs]; [apply rtc_refl|]. eapply rtc_r; [exact IH|exact Hs].
  - intros Hl. apply rtc_nsteps in Hl as [n Hn]. revert w Hn.
    induction n as [|n IH]; intros w Hn.
    + inversion Hn; subst. constructor.
    + apply nsteps_inv_r in Hn as (w1 & Hn & Hs). eapply reachable_step; [by apply IH|done].
Qed.

Lemma reachable_db_ind (P : Database → Prop) :
  P (mkDatabase [] []) →
  (∀ d d', P d → db_change d d' → P d') →
  ∀ w, reachable w → P (db w).
Proof.
  intros Hinit Hstep w. induction 1 as [|w w' _ IH Hs]; [exact Hinit|].
  eapply Hstep; [exact IH|]. by apply step_db_change.
Qed.

(** Where the rows of the tables after a change come from. *)
Lemma db_change_products_from d d' p' :
  db_change d d' → p' ∈ products d' →
  p' ∈ products d
  ∨ (∃ p urls, p ∈ products d ∧ p' = processed urls p)
  ∨ (∃ request_id row,
       request_id ∈ map ProcessingRequest.request_id (processing_requests d') ∧
       p' = new_product request_id row).
Proof.
  intros [d0|d0 rid hook now rows Hfresh|d0 rid now staged Hst] Hin.
  - by left.
  - cbn in Hin. apply elem_of_app in Hin as [Hin|Hin]; [by left|].
    right. right. apply list_elem_of_In, in_map_iff in Hin as (row & <- & _).
    exists rid, row. split; [|done]. cbn. rewrite map_app. cbn.
    apply list_elem_of_In, in_or_app. right. by left.
  - cbn in Hin. apply list_elem_of_lookup in Hin as [j Hj].
    pose proof (committed_products rid d0 staged Hst) as Hps.
    destruct (Forall2_lookup_r _ _ _ _ _ Hps Hj) as (p & Hp & Hrel).
    apply list_elem_of_lookup_2 in Hp. unfold row_after_run in Hrel.
    case_decide; [|subst; by left]. destruct Hrel as [urls ->].
    right. left. by exists p, urls.
Qed.

Lemma db_change_requests_from d d' r' :
  db_change d d' → r' ∈ processing_requests d' →
  r' ∈ processing_requests d
  ∨ (∃ r now, r ∈ processing_requests d ∧ r' = completed now r)
  ∨ (∃ request_id webhook_url now, r' = new_job request_id webhook_url now).
Proof.
  intros [d0|d0 rid hook now rows Hfresh|d0 rid now staged Hst] Hin.
  - by left.
  - cbn in Hin. apply elem_of_app in Hin as [Hin|Hin%list_elem_of_singleton]; [by left|].
    right. right. by exists rid, hook, now.
  - cbn in Hin. apply list_elem_of_lookup in Hin as [j Hj].
    pose proof (committed_requests rid now d0) as Hrs.
    destruct (Forall2_lookup_r _ _ _ _ _ Hrs Hj) as (r & Hr & [->|[_ ->]]);
      apply list_elem_of_lookup_2 in Hr; [by left|].
    right. left. by exists r, now.
Qed.

(** X21. The only statuses the code ever stores: in every reachable world
    a request is "pending" or "completed" and a product is "pending" or
    "processed". *)
Theorem X21_status_vocabulary w :
  reachable w →
  (∀ r, r ∈ processing_requests (db w) →
        ProcessingRequest.status r = "pending" ∨ ProcessingRequest.status r = "completed")
  ∧ (∀ p, p ∈ products (db w) →
          Product.status p = "pending" ∨ Product.status p = "processed").
Proof.
  apply (reachable_db_ind (λ d,
    (∀ r, r ∈ processing_requests d →
          ProcessingRequest.status r = "pending" ∨ ProcessingRequest.status r = "completed")
    ∧ (∀ p, p ∈ products d →
            Product.status p = "pending" ∨ Product.status p = "processed"))).
  - split; intros ? Hin; by apply not_elem_of_nil in Hin.
  - intros d d' [Hr Hp] Hch. split.
    + intros r' [Hin|[(r & now & _ & ->)|(rid & hook & now & ->)]]%(db_change_requests_from d);
        [by apply Hr|by right|by left|done].
    + intros p' [Hin|[(p & urls & _ & ->)|(rid & row & _ & ->)]]%(db_change_products_from d);
        [by apply Hp|by right|by left|done].
Qed.

(** X21 at the world after the upload and the run of the job of two rows. *)
Lemma X21_status_vocabulary_witness :
  let env := example_env (answers 200) (Returns 200) no_fault in
  let w := (process_images env "uuid-a" two_rows_uploaded).2 in
  reachable w ∧
  Forall (λ p, Product.status p = "pending" ∨ Product.status p = "processed")
         (products (db w)).
Proof.
  intros env w.
  assert (reachable w) as Hw.
  { eapply reachable_step; [apply two_rows_uploaded_reachable|].
    apply step_process_images. }
  split; [exact Hw|]. apply Forall_forall. exact (proj2 (X21_status_vocabulary w Hw)).
Defined.

Lemma committed_request_ids request_id now staged d :
  map ProcessingRequest.request_id
      (processing_requests (committed_db (request_of request_id d) now staged d))
  = map ProcessingRequest.request_id (processing_requests d).
Proof.
  cbn. pose proof (committed_requests request_id now d) as Hrs.
  induction Hrs as [|r r' l l' Hrel _ IH]; [done|]. cbn. rewrite IH. f_equal.
  by destruct Hrel as [->|[_ ->]].
Qed.

(** One step either keeps the request ids and the scheduled tasks, or
    appends the same new id to both. *)
Lemma step_ids_and_tasks w w' :
  step w w' →
  (background_tasks w' = background_tasks w ∧
   map ProcessingRequest.request_id (processing_requests (db w'))
   = map ProcessingRequest.request_id (processing_requests (db w)))
  ∨ (∃ request_id,
       background_tasks w' = background_tasks w ++ [request_id] ∧
       map ProcessingRequest.request_id (processing_requests (db w'))
       = map ProcessingRequest.request_id (processing_requests (db w)) ++ [request_id]).
Proof.
  intros [env ct csv hook w0|env rid w0|env rid w0|rid w0].
  - destruct (upload_csv env ct csv hook w0) as [[resp|e] w1] eqn:Hrun.
    + apply upload_csv_ok in Hrun as (header & rows & _ & _ & _ & _ & _ & _ & ->).
      right. eexists. cbn. split; [done|]. by rewrite map_app.
    + apply upload_csv_raise in Hrun as (Hdb & _ & _ & Hbt & _).
      left. cbn. by rewrite Hdb, Hbt.
  - left. destruct (process_images_outcome env rid w0) as (_ & _ & Hbt & _).
    split; [done|]. destruct (process_images_db env rid w0) as [Hdb|Hdb].
    + by rewrite Hdb.
    + rewrite Hdb. apply committed_request_ids.
  - left. destruct (get_status_effect env rid w0) as (Hdb & _ & Hbt & _).
    by rewrite Hdb, Hbt.
  - left. unfold download_output_csv, os_path_exists. run. by case_match.
Qed.

(** X20. Every stored request has been scheduled, once and in order: in
    every reachable world the scheduled background tasks are exactly the
    request ids of the stored requests. *)
Theorem X20_every_job_is_scheduled_once w :
  reachable w →
  background_tasks w
  = map ProcessingRequest.request_id (processing_requests (db w)).
Proof.
  induction 1 as [|w w' _ IH Hs]; [done|].
  destruct (step_ids_and_tasks w w' Hs) as [[-> ->]|(rid & -> & ->)]; by rewrite IH.
Qed.

(** X20 at the world after one upload. *)
Lemma X20_every_job_is_scheduled_once_witness :
  background_tasks two_rows_uploaded = ["uuid-a"] ∧
  map ProcessingRequest.request_id (processing_requests (db two_rows_uploaded))
  = ["uuid-a"].
Proof.
  pose proof (X20_every_job_is_scheduled_once two_rows_uploaded
                two_rows_uploaded_reachable) as H.
  split; [reflexivity|]. rewrite <- H. reflexivity.
Defined.

(** The constraints hold in every reachable world. *)
Lemma reachable_constraints w : reachable w → constraints_hold (db w).
Proof.
  revert w. apply reachable_db_ind.
  - split; [constructor|]. intros ? Hin. by apply not_elem_of_nil in Hin.
  - intros d d' [Hu Hfk] Hch. split.
    + destruct Hch as [d|d rid hook now rows Hfresh|d rid now staged Hst].
      * done.
      * cbn. rewrite map_app. cbn. apply NoDup_app. split_and!; [done| |apply NoDup_singleton].
        intros x Hx ->%list_elem_of_singleton. done.
      * by rewrite committed_request_ids.
    + intros p' Hp'. pose proof Hch as Hch'.
      apply (db_change_products_from d d' p') in Hch'
        as [Hin|[(p & urls & Hin & ->)|(rid & row & Hrid & ->)]]; [| |done|done].
      * specialize (Hfk _ Hin). revert Hfk.
        destruct Hch as [d|d rid hook now rows Hfresh|d rid now staged Hst]; [done| |].
        -- cbn. rewrite map_app. intros ?%list_elem_of_In.
           apply list_elem_of_In, in_or_app. by left.
        -- by rewrite committed_request_ids.
      * specialize (Hfk _ Hin). revert Hfk. cbn.
        destruct Hch as [d|d rid hook now rows Hfresh|d rid now staged Hst]; [done| |].
        -- cbn. rewrite map_app. intros ?%list_elem_of_In.
           apply list_elem_of_In, in_or_app. by left.
        -- by rewrite committed_request_ids.
Qed.

(** X19. The constraints of the two models hold in every reachable world:
    no two stored requests share a request id, and every stored product
    refers to a stored request. *)
Theorem X19_constraints_are_kept w :
  reachable w →
  NoDup (map ProcessingRequest.request_id (processing_requests (db w))) ∧
  ∀ p, p ∈ products (db w) →
       ∃ r, r ∈ processing_requests (db w) ∧
            ProcessingRequest.request_id r = Product.request_id p.
Proof.
  intros Hw.
  destruct (reachable_constraints w Hw) as [Hu Hfk].
  split; [exact Hu|]. intros p Hp.
  apply Hfk, list_elem_of_In, in_map_iff in Hp as (r & Hr & Hin).
  exists r. split; [by apply list_elem_of_In|done].
Qed.

(** X19 at the second product of the uploaded job. *)
Lemma X19_constraints_are_kept_witness :
  let p := Product.mk "uuid-a" "2" "Gadget" "http://host/c.png" None "pending" in
  ∃ r, r ∈ processing_requests (db two_rows_uploaded) ∧
       ProcessingRequest.request_id r = "uuid-a".
Proof.
  intros p.
  exact (proj2 (X19_constraints_are_kept two_rows_uploaded two_rows_uploaded_reachable)
           p ltac:(vm_compute; right; left)).
Defined.

(** X18. No handler leaves staged changes behind: in every reachable world
    the session is empty, whether the handlers returned or raised. *)
Theorem X18_sessions_are_closed w : reachable w → session w = SessionLocal.
Proof.
  induction 1 as [|w w' _ IH Hs]; [done|].
  destruct Hs as [env ct csv hook w0|env rid w0|env rid w0|rid w0].
  - destruct (upload_csv env ct csv hook w0) as [[resp|e] w1] eqn:Hrun.
    + by apply upload_csv_ok in Hrun as (? & ? & _ & _ & _ & _ & _ & _ & ->).
    + by apply upload_csv_raise in Hrun as (_ & ? & _).
  - by destruct (process_images_outcome env rid w0) as (_ & ? & _).
  - by destruct (get_status_effect env rid w0) as (_ & ? & _).
  - unfold download_output_csv, os_path_exists. run. by case_match.
Qed.

(** X18 at a run whose commit faults after both rows were staged. *)
Lemma X18_sessions_are_closed_witness :
  let env := example_env (answers 200) (Returns 200) fault_at_commit in
  session (process_images env "uuid-a" two_rows_uploaded).2 = SessionLocal.
Proof.
  intros env. apply X18_sessions_are_closed.
  eapply reachable_step; [apply two_rows_uploaded_reachable|].
  apply step_process_images.
Defined.

(* ===================================================================== *)
(** ** Further properties of the code: the status query and the download *)
(* ===================================================================== *)

Lemma request_of_missing request_id d :
  (∀ r, r ∈ processing_requests d → ProcessingRequest.request_id r ≠ request_id) →
  request_of request_id d = None.
Proof.
  intros Hno. destruct (request_of request_id d) as [[i r]|] eqn:Hfound; [|done].
  apply request_of_Some in Hfound as [Hi Hrid].
  destruct (Hno r); [by eapply list_elem_of_lookup_2|done].
Qed.

Lemma filter_rows {A} (P : A → Prop) `{!∀ x, Decision (P x)} (g : nat → nat) (l : list A) :
  (filter (λ ix : nat * A, P ix.2) (imap (λ i x, (g i, x)) l)).*2 = filter P l.
Proof.
  revert g. induction l as [|x l IH]; intros g; [done|].
  rewrite imap_cons, !filter_cons. cbn.
  destruct (decide (P x)); cbn; [f_equal|]; apply (IH (g ∘ S)).
Qed.

Lemma products_of_rows request_id d :
  (products_of request_id d).*2
  = filter (λ p, Product.request_id p = request_id) (products d).
Proof.
  unfold products_of, rows_of.
  exact (filter_rows (λ p, Product.request_id p = request_id) id (products d)).
Qed.

(** X5. A status query for a request id that no stored request has is
    answered 404 after the one query that looks for it; no file is written
    and nothing else changes. *)
Theorem X5_status_of_unknown_request env request_id w :
  (∀ r, r ∈ processing_requests (db w) → ProcessingRequest.request_id r ≠ request_id) →
  env_db_fault env (trace w) = None →
  get_status env request_id w
  = (Raise (HTTPException 404 "Request not found"),
     mkWorld (db w) SessionLocal (files w) (trace w ++ [DbQuery]) (background_tasks w)).
Proof.
  intros Hno%request_of_missing Hfault. by rewrite get_status_run, Hfault, Hno.
Qed.

(** X5 at a status query in the empty system. *)
Lemma X5_status_of_unknown_request_witness :
  let env := example_env (answers 200) (Returns 200) no_fault in
  get_status env "no-such-id" initial
  = (Raise (HTTPException 404 "Request not found"), with_trace [DbQuery] initial).
Proof.
  intros env. apply (X5_status_of_unknown_request env "no-such-id" initial).
  - intros r Hr. by apply not_elem_of_nil in Hr.
  - reflexivity.
Defined.

Lemma download_depends_on_files request_id w1 w2 :
  files w1 = files w2 →
  (download_output_csv request_id w1).1 = (download_output_csv request_id w2).1.
Proof.
  intros Hfs. unfold download_output_csv, os_path_exists. run. rewrite Hfs.
  by destruct (bool_decide _).
Qed.

(** X6. The artifact is generated lazily and only for a completed job: a
    status query for a stored request that is not completed writes no file,
    answers without a download link, and leaves the download answering
    what it answered before. *)
Theorem X6_no_artifact_before_completion env request_id w i q :
  request_of request_id (db w) = Some (i, q) →
  ProcessingRequest.status q ≠ "completed" →
  let r := get_status env request_id w in
  files r.2 = files w ∧ db r.2 = db w ∧
  (∀ resp, r.1 = Ok resp →
     sr_status resp = ProcessingRequest.status q ∧ sr_output_csv_link resp = None) ∧
  (download_output_csv request_id r.2).1 = (download_output_csv request_id w).1.
Proof.
  intros Hfound Hst r.
  assert (∀ resp, r.1 = Ok resp →
            sr_status resp = ProcessingRequest.status q ∧
            sr_output_csv_link resp = None) as Hresp.
  { intros resp Hok. subst r.
    destruct (get_status env request_id w) as [res w'] eqn:Hrun. cbn in Hok. subst res.
    apply get_status_ok in Hrun as (i' & q' & Hfound' & ->).
    rewrite Hfound in Hfound'. injection Hfound' as <- <-.
    cbn. by rewrite decide_False. }
  destruct (get_status_effect env request_id w)
    as (Hdb & _ & _ & [(Hfs & _)|(_ & _ & _ & resp & Hok & Hc)]).
  - fold r in Hdb, Hfs. split_and!; [done|done|done|].
    by apply download_depends_on_files.
  - fold r in Hok. destruct (Hresp resp Hok) as [Hs _]. congruence.
Qed.

(** X6 at the job of two rows before its run. *)
Lemma X6_no_artifact_before_completion_witness :
  let env := example_env (answers 200) (Returns 200) no_fault in
  let r := get_status env "uuid-a" two_rows_uploaded in
  files r.2 = files two_rows_uploaded ∧
  (download_output_csv "uuid-a" r.2).1
  = Raise (HTTPException 404 "Output CSV not found.").
Proof.
  intros env r.
  destruct (X6_no_artifact_before_completion env "uuid-a" two_rows_uploaded 0%nat
              (ProcessingRequest.mk "uuid-a" "pending" (Some 1) None
                 (Some "http://client/hook")))
    as (Hfiles & _ & _ & Hdl); [reflexivity|discriminate|].
  fold r in Hfiles, Hdl. split; [exact Hfiles|]. rewrite Hdl. reflexivity.
Defined.

(** X7. A status query that answers reports the products of that request,
    all of them and no others, in the order of the table, each with its
    stored fields; it answers for the request id it was asked about and
    writes nothing to the database. *)
Theorem X7_status_lists_the_rows_of_the_job env request_id w resp w' :
  get_status env request_id w = (Ok resp, w') →
  sr_request_id resp = request_id ∧
  db w' = db w ∧
  sr_products resp
  = map (λ p, mkProductData (Product.serial_number p) (Product.product_name p)
                (Product.input_image_urls p) (Product.output_image_urls p)
                (Product.status p))
        (filter (λ p, Product.request_id p = request_id) (products (db w))).
Proof.
  intros Hrun. pose proof (get_status_effect env request_id w) as (Hdb & _).
  rewrite Hrun in Hdb. cbn in Hdb.
  apply get_status_ok in Hrun as (i & r & Hfound & ->).
  apply request_of_Some in Hfound as [_ Hrid]. split_and!; [done|done|].
  cbn. rewrite <- products_of_rows.
  induction (products_of request_id (db w)) as [|ip l IH]; [done|].
  cbn. by rewrite IH.
Qed.

(** X7 at the job of two rows before its run: both rows, pending, in order. *)
Lemma X7_status_lists_the_rows_of_the_job_witness :
  let env := example_env (answers 200) (Returns 200) no_fault in
  match (get_status env "uuid-a" two_rows_uploaded).1 with
  | Ok resp =>
      sr_products resp
      = [mkProductData "1" "Widget" "http://host/a.png, http://host/b.png" None "pending";
         mkProductData "2" "Gadget" "http://host/c.png" None "pending"]
  | Raise _ => False
  end.
Proof.
  intros env.
  destruct (get_status env "uuid-a" two_rows_uploaded) as [res w'] eqn:Hrun.
  assert (∃ resp, res = Ok resp) as [resp ->].
  { revert Hrun. vm_compute. intros [= <- _]. by eexists. }
  destruct (X7_status_lists_the_rows_of_the_job _ _ _ _ _ Hrun) as (_ & _ & Hps).
  cbn. rewrite Hps. vm_compute. reflexivity.
Defined.

(** X8. The download link of a status answer is live: when a status query
    answers with a link, the request is completed, the link is the
    download route of that request id, and a download issued next finds
    the artifact and hands out its path, changing nothing. *)
Theorem X8_download_link_is_live env request_id w resp w1 :
  get_status env request_id w = (Ok resp, w1) →
  sr_output_csv_link resp ≠ None →
  sr_status resp = "completed" ∧
  sr_output_csv_link resp = Some ("/download/" +:+ request_id) ∧
  is_Some (files w1 !! output_path request_id) ∧
  download_output_csv request_id w1 = (Ok (output_path request_id), w1).
Proof.
  intros Hrun Hlink.
  destruct (get_status_ok _ _ _ _ _ Hrun) as (i & r & _ & ->).
  cbn in Hlink |- *. case_decide as Hc; [|done]. clear Hlink.
  assert (is_Some (files w1 !! output_path request_id)) as Hfile.
  { pose proof (get_status_completed _ _ _ _ _ Hrun Hc) as Hw1. cbn in Hw1.
    destruct (files w !! output_path request_id) as [f|] eqn:Hf; subst w1; cbn.
    - by rewrite Hf.
    - by rewrite lookup_insert_eq. }
  split_and!; [done..|].
  unfold download_output_csv, os_path_exists. run.
  by rewrite bool_decide_eq_true_2.
Qed.

(** X8 at the completed job of two rows: the first status query writes the
    artifact and the download that follows hands out its path. *)
Lemma X8_download_link_is_live_witness :
  let env := example_env (answers 200) (Returns 200) no_fault in
  let w := (process_images env "uuid-a" two_rows_uploaded).2 in
  (download_output_csv "uuid-a" w).1 = Raise (HTTPException 404 "Output CSV not found.") ∧
  (download_output_csv "uuid-a" (get_status env "uuid-a" w).2).1
  = Ok "output/uuid-a_output.csv".
Proof.
  intros env w. split; [by vm_compute|].
  destruct (get_status env "uuid-a" w) as [res w1] eqn:Hrun.
  assert (∃ resp, res = Ok resp ∧ sr_output_csv_link resp ≠ None) as (resp & -> & Hlink).
  { revert Hrun. vm_compute. intros [= <- _]. by eexists. }
  destruct (X8_download_link_is_live _ _ _ _ _ Hrun Hlink) as (_ & _ & _ & Hd).
  cbn [snd]. by rewrite Hd.
Defined.

(* ===================================================================== *)
(** ** The run of a job: what it fetches, what it stores *)
(* ===================================================================== *)

Lemma only_images_added_refl fs : only_images_added fs fs.
Proof. intros path. by left. Qed.

Lemma only_images_added_trans fs1 fs2 fs3 :
  only_images_added fs1 fs2 → only_images_added fs2 fs3 → only_images_added fs1 fs3.
Proof.
  intros H12 H23 path. destruct (H23 path) as [Heq|Hnew]; [|by right].
  rewrite Heq. destruct (H12 path) as [?|[Hu [body Hb]]]; [by left|].
  right. split; [done|]. exists body. by rewrite Heq.
Qed.

Lemma stored_jpeg_kept fs fs' path :
  only_images_added fs fs' → stored_jpeg fs path → stored_jpeg fs' path.
Proof.
  intros Hadd [body Hb]. destruct (Hadd path) as [Heq|[_ ?]]; [|done].
  exists body. by rewrite Heq.
Qed.

Lemma names_stored_image_kept fs fs' ref :
  only_images_added fs fs' → names_stored_image fs ref → names_stored_image fs' ref.
Proof.
  intros Hadd (u & -> & Hu). exists u. split; [done|]. by eapply stored_jpeg_kept.
Qed.

Lemma fetcher_images env url w :
  let r := fetcher env url w in
  only_images_added (files w) (files r.2) ∧
  ∀ ref, r.1 = Some ref → names_stored_image (files r.2) ref.
Proof.
  destruct (fetcher_cases env url w) as [(body & u & _ & ->)|(_ & mid & line & _ & ->)];
    cbn.
  - fold (image_path u). split.
    + intros path. destruct (decide (image_path u = path)) as [<-|Hne].
      * right. split; [by exists u|]. exists body. by rewrite lookup_insert_eq.
      * left. by rewrite lookup_insert_ne.
    + intros ref [= <-]. exists u. split; [done|]. exists body.
      by rewrite lookup_insert_eq.
  - split; [apply only_images_added_refl|done].
Qed.

Lemma attempt_each_images env entries w :
  let r := attempt_each env entries w in
  only_images_added (files w) (files r.2) ∧
  Forall (names_stored_image (files r.2)) (successes r.1).
Proof.
  revert w. induction entries as [|url rest IH]; intros w; cbn.
  - split; [apply only_images_added_refl|constructor].
  - destruct (fetcher_images env url w) as [Hadd Href].
    destruct (IH (fetcher env url w).2) as [Hadd' Hrefs].
    split; [by eapply only_images_added_trans|].
    unfold successes in *. cbn.
    destruct (fetcher env url w).1 as [ref|] eqn:Hr; cbn; [|done].
    constructor; [|done]. eapply names_stored_image_kept; [exact Hadd'|]. by apply Href.
Qed.

Lemma after_rows_images env rows w :
  let w' := after_rows env rows w in
  only_images_added (files w) (files w') ∧
  ∃ staged, dirty_products (session w') = dirty_products (session w) ++ staged ∧
            Forall2 (staged_with (files w')) rows staged.
Proof.
  revert w. induction rows as [|ip rest IH]; intros w; cbn.
  - split; [apply only_images_added_refl|]. exists []. by rewrite app_nil_r.
  - destruct (IH (after_row env ip w)) as (Hadd' & staged & Hdp & Hst).
    destruct (attempt_each_images env (row_entries (Product.input_image_urls ip.2)) w)
      as [Hadd Hrefs].
    destruct (attempt_each_frame env (row_entries (Product.input_image_urls ip.2)) w)
      as (_ & Hs & _).
    assert (files (after_row env ip w)
            = files (attempt_each env (row_entries (Product.input_image_urls ip.2)) w).2)
      as Hfs by done.
    split; [eapply only_images_added_trans; [|exact Hadd']; by rewrite Hfs|].
    eexists (_ :: staged). split.
    + rewrite Hdp. unfold after_row at 1. cbn. rewrite Hs, <- app_assoc. done.
    + constructor; [|done]. split; [done|]. eexists. split; [done|].
      eapply Forall_impl; [exact Hrefs|]. intros ref Href.
      eapply names_stored_image_kept; [|exact Href]. by rewrite <- Hfs.
Qed.

Lemma gets_app l1 l2 : gets (l1 ++ l2) = gets l1 ++ gets l2.
Proof. apply omap_app. Qed.

Lemma gets_none delta :
  Forall (λ e, get_url e = None) delta → gets delta = [].
Proof.
  induction 1 as [|e delta He _ IH]; [done|]. unfold gets in *. cbn. by rewrite He.
Qed.

Lemma after_rows_gets env rows w :
  gets (trace (after_rows env rows w)) = gets (trace w) ++ entries_of rows.
Proof.
  revert w. induction rows as [|ip rest IH]; intros w; cbn.
  - unfold entries_of. cbn. by rewrite app_nil_r.
  - rewrite IH. unfold entries_of. cbn. rewrite app_assoc. f_equal.
    destruct (attempt_each_frame env (row_entries (Product.input_image_urls ip.2)) w)
      as (_ & _ & _ & _ & delta & Ht & Hg & _).
    unfold after_row. cbn. rewrite Ht, !gets_app, Hg. cbn. by rewrite app_nil_r.
Qed.

Lemma webhook_events_gets env request_id r h :
  gets (webhook_events env request_id r h) = [].
Proof.
  unfold webhook_events. destruct r as [r|]; [|done].
  destruct (ProcessingRequest.callback_url r) as [url|]; [|done].
  destruct (Py.truthy url); [|done]. cbn.
  destruct (env_requests_post env h url) as [code|]; [|done].
  by destruct ((code <? 200) || (300 <=? code)).
Qed.

(** One run of [process_images], in its four outcomes: the first query
    faults; the rows are run and the completion faults; the commit goes
    through and the reload of the request faults; the commit goes through
    and the body returns. *)
Lemma process_images_cases env request_id w :
  let found := request_of request_id (db w) in
  let visited :=
    midflight env request_id (length (products_of request_id (db w))) w in
  let h3 := trace visited ++ [DbQuery] in
  let now := env_utcnow env h3 in
  let h5 := (h3 ++ match found with Some _ => [Utcnow] | None => [] end) ++ [DbCommit] in
  let h6 := h5 ++ reread found in
  let body := process_images_body env request_id (with_session SessionLocal w) in
  let w' := (process_images env request_id w).2 in
  (is_Some (env_db_fault env (trace w)) ∧ (∃ e w1, body = (Raise e, w1)) ∧
   files w' = files w ∧ db w' = db w ∧
   ∃ line, trace w' = trace w ++ [DbQuery; Print line])
  ∨ (env_db_fault env (trace w) = None ∧ (∃ e w1, body = (Raise e, w1)) ∧
     files w' = files visited ∧ db w' = db w ∧
     ∃ delta line, trace w' = trace visited ++ delta ++ [Print line] ∧
                   Forall (λ e, plain_event e = true) delta)
  ∨ (env_db_fault env (trace w) = None ∧ (∃ e w1, body = (Raise e, w1)) ∧
     files w' = files visited ∧ is_Some found ∧
     db w' = committed_db found now (dirty_products (session visited)) (db w) ∧
     ∃ line, trace w' = h6 ++ [Print line])
  ∨ (env_db_fault env (trace w) = None ∧ (∃ w1, body = (Ok tt, w1)) ∧
     files w' = files visited ∧
     db w' = committed_db found now (dirty_products (session visited)) (db w) ∧
     trace w'
     = h6 ++ webhook_events env request_id
               (option_map (λ ir, completed now ir.2) found) h6).
Proof.
  intros found visited h3 now h5 h6 body w'. subst w' body.
  rewrite process_images_run.
  rewrite process_images_body_finish. cbn [trace with_session].
  destruct (env_db_fault env (trace w)) as [e|] eqn:Hf1.
  { left. cbn. split_and!; [done|by eexists _, _|done|done|].
    eexists. by rewrite <- app_assoc. }
  right.
  assert (after_rows env (products_of request_id (db (with_session SessionLocal w)))
            (with_trace (trace w ++ [DbQuery]) (with_session SessionLocal w))
          = visited) as ->.
  { unfold visited, midflight. by rewrite firstn_all. }
  destruct (midflight_frame env request_id (length (products_of request_id (db w))) w)
    as (Hdb & _ & _ & Hnr & Hnp & Hdr & _).
  fold visited in Hdb, Hnr, Hnp, Hdr.
  destruct (finish_cases env request_id visited Hnr Hnp Hdr)
    as [(e & w3 & -> & Hdb3 & Hfs3 & _ & (d3 & Ht3 & Hd3) & _)
       |[(e & Hsome & _ & _ & _ & ->)|(_ & _ & _ & ->)]].
  - left. cbn. split_and!; [done|by eexists _, _|done|congruence|].
    exists d3, (ErrorProcessingImages request_id e). by rewrite Ht3, <- app_assoc.
  - right. left. cbn. rewrite Hdb in Hsome |- *.
    split_and!; try done; [by eexists _, _|by eexists].
  - right. right. cbn. split_and!; try done; try (by eexists); try (by rewrite Hdb).
Qed.

Lemma midflight_images env request_id k w :
  let v := midflight env request_id k w in
  only_images_added (files w) (files v) ∧
  Forall2 (staged_with (files v)) (take k (products_of request_id (db w)))
          (dirty_products (session v)).
Proof.
  unfold midflight.
  destruct (after_rows_images env (take k (products_of request_id (db w)))
              (with_trace (trace w ++ [DbQuery]) (with_session SessionLocal w)))
    as (Hadd & staged & Hdp & Hst).
  cbn in *. split; [done|]. by rewrite Hdp.
Qed.

Lemma endswith_char_app c a b :
  b ≠ EmptyString → Py.endswith_char c (a +:+ b) = Py.endswith_char c b.
Proof.
  intros Hb. induction a as [|d a IH]; [done|]. rewrite string_app_cons.
  destruct (a +:+ b) as [|e s] eqn:Hab; [by destruct a, b|]. exact IH.
Qed.

Lemma endswith_char_join c a b :
  b ≠ EmptyString → Py.endswith_char c (Py.os_path_join a b) = Py.endswith_char c b.
Proof.
  intros Hb. unfold Py.os_path_join. repeat case_match; [done|..].
  - by apply endswith_char_app.
  - rewrite endswith_char_app; [|by destruct b]. by apply endswith_char_app.
Qed.

Lemma image_path_ends u : Py.endswith_char "g" (image_path u) = true.
Proof.
  unfold image_path. rewrite endswith_char_join; [|by destruct u].
  rewrite endswith_char_app; done.
Qed.

Lemma output_path_ends request_id : Py.endswith_char "g" (output_path request_id) = false.
Proof.
  unfold output_path. rewrite endswith_char_join; [|by destruct request_id].
  rewrite endswith_char_app; done.
Qed.

(** X9. A run of [process_images] removes no file and writes nothing but
    images: every path whose content differs after the run is the path
    the code builds for a generated name, [os.path.join] of the image
    directory and <name>.jpg, and holds a JPEG, RGB, of quality 50. In
    particular no output CSV is written, overwritten or removed by a run,
    whatever the request id. *)
Theorem X9_run_writes_only_images env request_id w :
  let w' := (process_images env request_id w).2 in
  only_images_added (files w) (files w') ∧
  ∀ other, files w' !! output_path other = files w !! output_path other.
Proof.
  intros w'.
  assert (only_images_added (files w) (files w')) as Hadd.
  { destruct (midflight_images env request_id
                (length (products_of request_id (db w))) w) as [Hadd _].
    destruct (process_images_cases env request_id w)
      as [(_ & _ & Hfs & _)|[(_ & _ & Hfs & _)|[(_ & _ & Hfs & _)|(_ & _ & Hfs & _)]]];
      fold w' in Hfs; rewrite Hfs; [apply only_images_added_refl|done..]. }
  split; [done|]. intros other.
  destruct (Hadd (output_path other)) as [?|[[u Hu] _]]; [done|].
  pose proof (output_path_ends other) as Hv. rewrite Hu, image_path_ends in Hv. done.
Qed.

Lemma gets_plain delta : Forall (λ e, plain_event e = true) delta → gets delta = [].
Proof.
  intros Hd. apply gets_none. eapply Forall_impl; [exact Hd|]. by intros [].
Qed.

Lemma visited_gets env request_id w :
  gets (trace (midflight env request_id (length (products_of request_id (db w))) w))
  = gets (trace w) ++ entries_of (products_of request_id (db w)).
Proof.
  unfold midflight. rewrite firstn_all, after_rows_gets. cbn.
  by rewrite gets_app, app_nil_r.
Qed.

(** X11. The GET requests of a run of [process_images] are exactly the
    URL entries of the products of the job, row after row in the order of
    the table and entry after entry in the order of the column, one request
    each; no completion step, fault or webhook adds or removes one. When
    the query that loads the rows faults, the run makes no GET at all. *)
Theorem X11_one_get_per_entry env request_id w :
  let w' := (process_images env request_id w).2 in
  gets (trace w')
  = gets (trace w)
      ++ match env_db_fault env (trace w) with
         | Some _ => []
         | None => entries_of (products_of request_id (db w))
         end.
Proof.
  intros w'.
  destruct (process_images_cases env request_id w)
    as [([e Hf] & _ & _ & _ & line & Ht)
       |[(Hf & _ & _ & _ & delta & line & Ht & Hd)
        |[(Hf & _ & _ & _ & _ & line & Ht)|(Hf & _ & _ & _ & Ht)]]];
    fold w' in Ht; rewrite Ht, Hf.
  - rewrite gets_app. done.
  - rewrite !gets_app, visited_gets, (gets_plain delta Hd). cbn. by rewrite !app_nil_r.
  - rewrite !gets_app, visited_gets.
    destruct (request_of request_id (db w)); cbn; by rewrite !app_nil_r.
  - rewrite !gets_app, visited_gets, webhook_events_gets.
    destruct (request_of request_id (db w)); cbn; by rewrite !app_nil_r.
Qed.

Lemma visited_staged env request_id w :
  let v := midflight env request_id (length (products_of request_id (db w))) w in
  Forall2 staged_from (products_of request_id (db w)) (dirty_products (session v)).
Proof.
  destruct (midflight_frame env request_id (length (products_of request_id (db w))) w)
    as (_ & _ & _ & _ & _ & _ & Hst & _).
  by rewrite firstn_all in Hst.
Qed.

(** X10. A run of [process_images] for one request id leaves every other
    job as it was: the tables keep their lengths, every product of another
    request and every request with another id sits unchanged on its row. *)
Theorem X10_other_jobs_untouched env request_id w :
  let w' := (process_images env request_id w).2 in
  length (products (db w')) = length (products (db w)) ∧
  length (processing_requests (db w')) = length (processing_requests (db w)) ∧
  (∀ j p, products (db w) !! j = Some p → Product.request_id p ≠ request_id →
          products (db w') !! j = Some p) ∧
  (∀ j r, processing_requests (db w) !! j = Some r →
          ProcessingRequest.request_id r ≠ request_id →
          processing_requests (db w') !! j = Some r).
Proof.
  intros w'.
  destruct (process_images_db env request_id w) as [Hdb|Hdb];
    fold w' in Hdb; rewrite Hdb; [done|].
  pose proof (committed_products request_id (db w) _ (visited_staged env request_id w))
    as Hps.
  pose proof (committed_requests request_id
                (env_utcnow env
                   (trace (midflight env request_id
                             (length (products_of request_id (db w))) w) ++ [DbQuery]))
                (db w)) as Hrs.
  unfold committed_db. cbn. split_and!.
  - symmetry. by eapply Forall2_length.
  - symmetry. by eapply Forall2_length.
  - intros j p Hp Hne. destruct (Forall2_lookup_l _ _ _ _ _ Hps Hp) as (p' & Hp' & Hrel).
    unfold row_after_run in Hrel. rewrite decide_False in Hrel by done. by subst p'.
  - intros j r Hr Hne. destruct (Forall2_lookup_l _ _ _ _ _ Hrs Hr) as (r' & Hr' & Hrel).
    destruct Hrel as [->|[? _]]; done.
Qed.

(** X10 at two jobs: the run of the first leaves the rows of the second
    pending. *)
Lemma X10_other_jobs_untouched_witness :
  let env := example_env (answers 200) (Returns 200) no_fault in
  let w := (upload_csv env "text/csv"
              [example_header; ["7"; "Lamp"; "http://host/d.png"]] None
              two_rows_uploaded).2 in
  products (db (process_images env "uuid-a" w).2) !! 2%nat
  = Some (Product.mk "uuid-c" "7" "Lamp" "http://host/d.png" None "pending").
Proof.
  intros env w.
  destruct (X10_other_jobs_untouched env "uuid-a" w) as (_ & _ & Hps & _).
  apply Hps; [by vm_compute|]. by vm_compute.
Defined.





Lemma posts_plain delta : Forall (λ e, plain_event e = true) delta → posts delta = [].
Proof.
  induction 1 as [|e delta He _ IH]; [done|]. unfold posts in *. cbn.
  rewrite IH. by destruct e.
Qed.

Lemma products_of_missing request_id d :
  (∀ p, p ∈ products d → Product.request_id p ≠ request_id) →
  products_of request_id d = [].
Proof.
  intros Hno. destruct (products_of request_id d) as [|[j p] l] eqn:Hl; [done|].
  assert ((j, p) ∈ products_of request_id d) as Hin by (rewrite Hl; by left).
  apply elem_of_products_of in Hin as [Hj Hrid].
  destruct (Hno p); [by eapply list_elem_of_lookup_2|done].
Qed.

(** X13. A run of [process_images] for a request id that no stored request
    and no stored product carries is harmless: whatever the database does,
    the tables and the files are exactly as before, and the run makes no
    GET and no POST. *)
Theorem X13_run_of_unknown_job env request_id w :
  (∀ r, r ∈ processing_requests (db w) → ProcessingRequest.request_id r ≠ request_id) →
  (∀ p, p ∈ products (db w) → Product.request_id p ≠ request_id) →
  let r := process_images env request_id w in
  r.1 = Ok tt ∧ db r.2 = db w ∧ files r.2 = files w ∧
  gets (trace r.2) = gets (trace w) ∧ posts (trace r.2) = posts (trace w).
Proof.
  intros Hnr%request_of_missing Hnp%products_of_missing r.
  destruct (process_images_outcome env request_id w) as (Hok & _).
  pose proof (process_images_cases env request_id w) as Hcases.
  cbv zeta in Hcases.
  assert (midflight env request_id (length (products_of request_id (db w))) w
          = with_trace (trace w ++ [DbQuery]) (with_session SessionLocal w)) as Hv.
  { unfold midflight. by rewrite Hnp. }
  rewrite Hv, Hnr in Hcases. fold r in Hok, Hcases. clearbody r.
  split; [done|].
  destruct Hcases as [(_ & _ & Hfs & Hdb & line & Ht)
                     |[(_ & _ & Hfs & Hdb & delta & line & Ht & Hd)
                      |[(_ & _ & _ & [? Hsome] & _)
                       |(_ & _ & Hfs & Hdb & Ht)]]]; [| |done|];
    cbn in Hfs, Hdb, Ht.
  - rewrite Ht, gets_app, posts_app. cbn. by rewrite !app_nil_r.
  - rewrite Ht, !gets_app, !posts_app, (gets_plain _ Hd), (posts_plain _ Hd). cbn.
    by rewrite !app_nil_r.
  - rewrite Ht, !gets_app, !posts_app. cbn. rewrite !app_nil_r.
    split_and!; try done. rewrite Hdb. unfold committed_db. by destruct (db w).
Qed.

(** X13 at the job of two rows and an id that was never issued. *)
Lemma X13_run_of_unknown_job_witness :
  let env := example_env (answers 200) (Returns 200) no_fault in
  let r := process_images env "no-such-id" two_rows_uploaded in
  db r.2 = db two_rows_uploaded ∧ gets (trace r.2) = [].
Proof.
  intros env r.
  destruct (X13_run_of_unknown_job env "no-such-id" two_rows_uploaded)
    as (_ & Hdb & _ & Hg & _).
  - intros q Hq. apply list_elem_of_In in Hq. vm_compute in Hq.
    destruct Hq as [<-|[]]. by vm_compute.
  - intros q Hq. apply list_elem_of_In in Hq. vm_compute in Hq.
    destruct Hq as [<-|[<-|[]]]; by vm_compute.
  - split; [exact Hdb|]. fold r in Hg. rewrite Hg. by vm_compute.
Defined.

(** X14. When the body of [process_images] raises, the client is not
    notified and nothing is retried: the run makes no POST, the list of
    scheduled tasks is as before, and the files are those at the moment of
    the failure; the rollback does not remove the images the run has
    stored. *)
Theorem X14_failed_run_is_silent env request_id w e w1 :
  process_images_body env request_id (with_session SessionLocal w) = (Raise e, w1) →
  let w' := (process_images env request_id w).2 in
  posts (trace w') = posts (trace w) ∧
  background_tasks w' = background_tasks w ∧
  files w' = files w1 ∧
  only_images_added (files w) (files w').
Proof.
  intros Hbody w'.
  assert (files w' = files w1) as Hfs.
  { subst w'. by rewrite process_images_run, Hbody. }
  destruct (process_images_outcome env request_id w) as (_ & _ & Hb & _).
  fold w' in Hb.
  assert (only_images_added (files w) (files w') ∧ posts (trace w') = posts (trace w))
    as [Hadd Hposts].
  { destruct (midflight_images env request_id
                (length (products_of request_id (db w))) w) as [Hadd _].
    pose proof (visited_posts env request_id
                  (length (products_of request_id (db w))) w) as Hvis.
    destruct (process_images_cases env request_id w)
      as [(_ & _ & Hf & _ & line & Ht)
         |[(_ & _ & Hf & _ & delta & line & Ht & Hd)
          |[(_ & _ & Hf & _ & _ & line & Ht)|(_ & (w2 & Hok) & _)]]];
      [..|congruence]; fold w' in Hf, Ht; rewrite Hf, Ht.
    - split; [apply only_images_added_refl|]. rewrite posts_app. cbn.
      by rewrite app_nil_r.
    - split; [done|]. rewrite !posts_app, Hvis, (posts_plain _ Hd). cbn.
      by rewrite !app_nil_r.
    - split; [done|]. rewrite !posts_app, Hvis.
      destruct (request_of request_id (db w)); cbn; by rewrite !app_nil_r. }
  by split_and!.
Qed.

(** X14 at a run whose commit faults: the three images stay, no POST. *)
Lemma X14_failed_run_is_silent_witness :
  let env := example_env (answers 200) (Returns 200) fault_at_commit in
  let w' := (process_images env "uuid-a" two_rows_uploaded).2 in
  posts (trace w') = [] ∧ size (files w') = 3%nat.
Proof.
  intros env w'.
  destruct (process_images_body env "uuid-a" (with_session SessionLocal two_rows_uploaded))
    as [res w1] eqn:Hbody.
  assert (∃ e, res = Raise e) as [e ->].
  { revert Hbody. vm_compute. intros [= <- _]. by eexists. }
  destruct (X14_failed_run_is_silent env "uuid-a" two_rows_uploaded e w1 Hbody)
    as (Hp & _ & _ & _).
  fold w' in Hp. rewrite Hp. split; by vm_compute.
Defined.

(* ===================================================================== *)
(** ** From the upload to the status query *)
(* ===================================================================== *)

Lemma request_of_appended request_id reqs r ps :
  request_id ∉ map ProcessingRequest.request_id reqs →
  ProcessingRequest.request_id r = request_id →
  request_of request_id (mkDatabase (reqs ++ [r]) ps) = Some (length reqs, r).
Proof.
  intros Hfresh Hrid.
  destruct (request_of request_id (mkDatabase (reqs ++ [r]) ps)) as [[i r']|] eqn:Hfound.
  - apply request_of_Some in Hfound as [Hi Hr']. cbn in Hi.
    apply lookup_app_Some in Hi as [Hi|[Hlen Hi]].
    + destruct Hfresh. rewrite <- Hr'. apply list_elem_of_In, in_map, list_elem_of_In.
      by eapply list_elem_of_lookup_2.
    + apply list_lookup_singleton_Some in Hi as [Hz ->].
      do 2 f_equal. lia.
  - apply request_of_None with (r := r) in Hfound; [done|]. cbn.
    apply list_elem_of_In, in_or_app. right. by left.
Qed.

Lemma filter_none {A} (P : A → Prop) `{!∀ x, Decision (P x)} (l : list A) :
  (∀ x, x ∈ l → ¬ P x) → filter P l = [].
Proof.
  intros Hno. destruct (filter P l) as [|x l'] eqn:Hl; [done|].
  assert (x ∈ filter P l) as [HP Hin]%list_elem_of_filter by (rewrite Hl; by left).
  by destruct (Hno x Hin).
Qed.

Lemma filter_all {A} (P : A → Prop) `{!∀ x, Decision (P x)} (l : list A) :
  Forall P l → filter P l = l.
Proof.
  induction 1 as [|x l Hx _ IH]; [done|]. by rewrite filter_cons_True, IH.
Qed.

Lemma map_snd_rows {A B} (f : A → B) (l : list (nat * A)) :
  map (λ ip, f ip.2) l = map f (l.*2).
Proof. induction l as [|ip l IH]; cbn; [done|]. by rewrite IH. Qed.

(** X17. From the upload to the status query: in a reachable world, the
    status query for the request id an accepted upload returned, when the
    database answers its two queries, reports the job as pending, not
    completed at any time, with the callback URL of the upload, without a
    download link, and with exactly the data rows of the upload, in their
    order, each with its three fields trimmed, no outputs and status
    "pending". *)
Theorem X17_status_after_upload env env' content_type csv_reader webhook_url w resp w' :
  reachable w →
  upload_csv env content_type csv_reader webhook_url w = (Ok resp, w') →
  env_db_fault env' (trace w') = None →
  env_db_fault env' (trace w' ++ [DbQuery]) = None →
  ∃ now,
    (get_status env' (up_request_id resp) w').1
    = Ok (mkStatusResponse (up_request_id resp) "pending" (Some now) None webhook_url
            (map (λ row, mkProductData (Py.strip (nth 0 row EmptyString))
                           (Py.strip (nth 1 row EmptyString))
                           (Py.strip (nth 2 row EmptyString)) None "pending")
                 (tail csv_reader))
            None).
Proof.
  intros Hw Hup Hf1 Hf2.
  destruct (reachable_constraints w Hw) as [_ Hfk].
  apply upload_csv_ok in Hup
    as (header & rows & _ & -> & _ & _ & [_ Hfresh] & -> & ->).
  cbn [up_request_id tail]. set (rid := env_uuid4 env (trace w)) in *.
  set (now := env_db_now env (trace w ++ [Uuid4])).
  exists now. rewrite get_status_run. cbv zeta. cbn [db trace files] in *.
  rewrite Hf1.
  rewrite (request_of_appended rid _ (new_job rid webhook_url now)) by done.
  rewrite Hf2.
  rewrite decide_False by done. cbn [fst]. unfold status_response.
  rewrite decide_False by done. cbn [new_job ProcessingRequest.request_id
    ProcessingRequest.status ProcessingRequest.created_at
    ProcessingRequest.completed_at ProcessingRequest.callback_url]. cbn.
  do 2 f_equal.
  rewrite map_snd_rows, products_of_rows. cbn [products].
  rewrite filter_app, filter_none, filter_all; cbn.
  - by rewrite List.map_map.
  - apply Forall_forall. by intros p (row & -> & _)%list_elem_of_fmap.
  - intros p Hp Hrid. apply Hfresh. rewrite <- Hrid. by apply Hfk.
Qed.

(** X17 at the upload of the job of two rows. *)
Lemma X17_status_after_upload_witness :
  let env := example_env (answers 200) (Returns 200) no_fault in
  ∃ now,
    (get_status env "uuid-a" two_rows_uploaded).1
    = Ok (mkStatusResponse "uuid-a" "pending" (Some now) None (Some "http://client/hook")
            [mkProductData "1" "Widget" "http://host/a.png, http://host/b.png" None
               "pending";
             mkProductData "2" "Gadget" "http://host/c.png" None "pending"]
            None).
Proof.
  intros env.
  exact (X17_status_after_upload env env "text/csv"
           [example_header;
            ["1"; "Widget"; "http://host/a.png, http://host/b.png"];
            ["2"; "Gadget"; "http://host/c.png"]]
           (Some "http://client/hook") initial
           (mkUploadResponse "uuid-a" "CSV file uploaded and processing started.")
           two_rows_uploaded reachable_initial eq_refl eq_refl eq_refl).
Defined.
